(** * protein_atlas: a shallow embedding of [protein_atlas/__init__.py]

    The development follows the layout of the Python module: the
    [ProteinAtlas] base class (class vocabulary, image access, [any]),
    the [Train] and [Test] datasets, and the two keras [Sequence]
    generators.  Library calls (PIL, numpy, pandas, scikit-learn,
    iterstrat) are rendered by small executable models of the behaviour
    the module relies on; the parts that cannot be written as plain
    functions (decoding a PNG file, the randomised and floating-point
    fold assignment of iterative stratification, the float converter of
    pandas' CSV reader) are parameters. *)

From Stdlib Require Import String Ascii Bool ZArith Lia QArith Qround List.
From Stdlib Require Import DecimalString Sorted.
Import ListNotations.

Open Scope Z_scope.

(* ===================================================================== *)
(** ** Python exceptions and results *)
(* ===================================================================== *)

Inductive exn : Type :=
| TypeError
| ValueError
| IndexError
| KeyError
| AttributeError
| UnboundLocalError
| ZeroDivisionError
| StopIteration
| FileNotFoundError
| OverflowError.

Inductive result (A : Type) : Type :=
| Ok (a : A)
| Raise (e : exn).

Arguments Ok {A} a.
Arguments Raise {A} e.

Definition bind {A B} (m : result A) (k : A -> result B) : result B :=
  match m with
  | Ok a => k a
  | Raise e => Raise e
  end.

Notation "x <- m ;; k" := (bind m (fun x => k))
  (at level 61, m at next level, right associativity).
Notation "' p <- m ;; k" := (bind m (fun x => let 'p := x in k))
  (at level 61, p pattern, m at next level, right associativity).

Definition is_ok {A} (m : result A) : bool :=
  match m with Ok _ => true | Raise _ => false end.

(** [mapM f l]: a Python loop or comprehension over [l] whose body may
    raise; the first exception aborts the loop. *)
Fixpoint mapM {A B} (f : A -> result B) (l : list A) : result (list B) :=
  match l with
  | [] => Ok []
  | a :: l' => b <- f a ;; bs <- mapM f l' ;; Ok (b :: bs)
  end.

(** Subscripting a Python sequence (list, ndarray axis, pandas Index) with
    an integer: a negative subscript counts from the end, anything else
    outside the sequence raises IndexError. *)
Definition py_index {A} (l : list A) (i : Z) : result A :=
  let n := Z.of_nat (length l) in
  let j := if i <? 0 then i + n else i in
  if (0 <=? j) && (j <? n)
  then match nth_error l (Z.to_nat j) with
       | Some a => Ok a
       | None => Raise IndexError
       end
  else Raise IndexError.

(** numpy / pandas "fancy" indexing with an integer array: [a[ixs]]. *)
Definition take {A} (l : list A) (ixs : list Z) : result (list A) :=
  mapM (py_index l) ixs.

(** [range(n)] as integers. *)
Definition range (n : nat) : list Z := map Z.of_nat (seq 0 n).

(** [int(np.ceil(a / float(b)))] for a length [a] and an integer
    [b <> 0] that [float] can hold.  For lengths below 2^53 the
    double-precision quotient rounds to the same ceiling as the exact
    one. *)
Definition ceil_div (a b : Z) : Z := - ((- a) / b).

(* ===================================================================== *)
(** ** class ProteinAtlas: constants *)
(* ===================================================================== *)

Open Scope string_scope.

Definition nrows : nat := 512.
Definition ncols : nat := 512.

Definition classes : list string :=
  ["Nucleoplasm"; "Nuclear membrane"; "Nucleoli";
   "Nucleoli fibrillar center"; "Nuclear speckles";
   "Nuclear bodies"; "Endoplasmic reticulum"; "Golgi apparatus";
   "Peroxisomes"; "Endosomes"; "Lysosomes";
   "Intermediate filaments"; "Actin filaments";
   "Focal adhesion sites"; "Microtubules"; "Microtubule ends";
   "Cytokinetic bridge"; "Mitotic spindle";
   "Microtubule organizing center"; "Centrosome"; "Lipid droplets";
   "Plasma membrane"; "Cell junctions"; "Mitochondria";
   "Aggresome"; "Cytosol"; "Cytoplasmic bodies"; "Rods & rings"].

Definition n_classes : nat := length classes.

Definition channel_colors : list string := ["red"; "green"; "blue"; "yellow"].

Definition channels : list string :=
  ["Microtubules"; "Antibody"; "Nucleus"; "Endoplasmic Reticulum"].

Definition n_channels : nat := length channels.

(** *** pathlib

    A POSIX path as [pathlib] keeps it: a root and the list of its
    components.  Parsing a string drops empty components and the
    component [.]; exactly two leading slashes are a root of their own. *)
Record PurePath : Type := mkPurePath {
  path_root : string;
  path_parts : list string
}.

(** [s.split("/")] *)
Fixpoint split_slash (s : string) : list string :=
  match s with
  | EmptyString => [EmptyString]
  | String c s' =>
      if Ascii.eqb c "/" then EmptyString :: split_slash s'
      else match split_slash s' with
           | t :: ts => String c t :: ts
           | [] => [String c EmptyString]
           end
  end.

Definition parse_root (s : string) : string :=
  match s with
  | String "/" (String "/" (String "/" _)) => "/"
  | String "/" (String "/" _) => "//"
  | String "/" _ => "/"
  | _ => ""
  end.

Definition parse_parts (s : string) : list string :=
  filter (fun part => negb (String.eqb part "" || String.eqb part "."))
         (split_slash s).

(** [Path(s)] *)
Definition Path (s : string) : PurePath :=
  mkPurePath (parse_root s) (parse_parts s).

(** ["/".join(parts)] *)
Fixpoint join_slash (parts : list string) : string :=
  match parts with
  | [] => EmptyString
  | part :: rest =>
      match rest with
      | [] => part
      | _ :: _ => part ++ "/" ++ join_slash rest
      end
  end.

(** [str(path)] *)
Definition path_str (p : PurePath) : string :=
  match path_parts p, path_root p with
  | [], EmptyString => "."
  | parts, root => root ++ join_slash parts
  end.

(** [Path(base).joinpath(name)], as the string of the resulting path: a
    rooted [name] replaces [base], any other is appended to it. *)
Definition joinpath (base name : string) : string :=
  let b := Path base in
  let n := Path name in
  path_str (match path_root n with
            | EmptyString => mkPurePath (path_root b) (app (path_parts b) (path_parts n))
            | _ => n
            end).

(** [get_path(id_, channel_ix)]; [img_path] is the image directory as
    given to [Path], the result the string of the path returned. *)
Definition get_path (img_path id_ : string) (channel_ix : Z) : result string :=
  channel_color <- py_index channel_colors channel_ix ;;
  Ok (joinpath img_path (id_ ++ "_" ++ channel_color ++ ".png")).

(* ===================================================================== *)
(** ** Arrays *)
(* ===================================================================== *)

(** A decoded single-band image: a 2-d integer array. *)
Record band : Type := mkBand {
  band_shape : nat * nat;
  band_px : nat -> nat -> Z
}.

(** A 3-d float array (rows, cols, channels); floats are modelled by
    exact rationals. *)
Record image : Type := mkImage {
  image_shape : nat * nat * nat;
  image_at : nat -> nat -> nat -> Q
}.

(** A 4-d float array (samples, rows, cols, channels). *)
Record batch : Type := mkBatch {
  batch_shape : nat * nat * nat * nat;
  batch_at : nat -> nat -> nat -> nat -> Q
}.

Definition shape2_eqb (s t : nat * nat) : bool :=
  Nat.eqb (fst s) (fst t) && Nat.eqb (snd s) (snd t).

(** [np.stack(bands, axis=2)]: all arrays must have the same shape; the
    new axis is the last one. *)
Definition np_stack_axis2 (bands : list band) : result (nat * nat * nat * (nat -> nat -> nat -> Z)) :=
  match bands with
  | [] => Raise ValueError
  | b0 :: _ =>
      if forallb (fun b => shape2_eqb (band_shape b) (band_shape b0)) bands
      then Ok (fst (band_shape b0), snd (band_shape b0), length bands,
               fun r c ch => match nth_error bands ch with
                             | Some b => band_px b r c
                             | None => 0%Z
                             end)
      else Raise ValueError
  end.

(** [np.zeros((n, nrows, ncols, n_channels))] *)
Definition np_zeros4 (n : nat) : batch :=
  mkBatch (n, nrows, ncols, n_channels) (fun _ _ _ _ => 0%Q).

(** [X[sample_ix,:,:,:] = img]: numpy broadcasts [img] to the slot's shape
    (an axis of length 1 is repeated) and raises ValueError when the
    shapes do not broadcast, IndexError when [sample_ix] is not a row. *)
Definition assign_sample (X : batch) (sample_ix : nat) (img : image) : result batch :=
  let '(h, w, c) := image_shape img in
  let '(_, H, W, C) := batch_shape X in
  let fits (d D : nat) := Nat.eqb d D || Nat.eqb d 1 in
  if negb (Nat.ltb sample_ix (fst (fst (fst (batch_shape X))))) then Raise IndexError
  else if fits h H && fits w W && fits c C
  then Ok (mkBatch (batch_shape X)
             (fun k r col ch =>
                if Nat.eqb k sample_ix
                then image_at img (if Nat.eqb h 1 then 0%nat else r)
                                  (if Nat.eqb w 1 then 0%nat else col)
                                  (if Nat.eqb c 1 then 0%nat else ch)
                else batch_at X k r col ch))
  else Raise ValueError.

(* ===================================================================== *)
(** ** class ProteinAtlas: image access *)
(* ===================================================================== *)

Section ImageStore.

(** [Image.open(path)] followed by numpy's conversion of the PIL image:
    file decoding is outside the module. *)
Variable Image_open : string -> result band.

Variable img_path : string.

(** [get_image(id_)] *)
Definition get_image (id_ : string) : result image :=
  bands <- mapM (fun chan_ix =>
                   chan_path <- get_path img_path id_ chan_ix ;;
                   Image_open chan_path)
                (range n_channels) ;;
  '(h, w, c, px) <- np_stack_axis2 bands ;;
  Ok (mkImage (h, w, c) (fun r col ch => inject_Z (px r col ch) / 255)%Q).

(** The loop of [get_images]: [enumerate(ids)] with the array [X]
    threaded through. *)
Fixpoint get_images_loop (X : batch) (sample_ix : nat) (ids : list string)
  : result batch :=
  match ids with
  | [] => Ok X
  | id_ :: ids' =>
      img <- get_image id_ ;;
      X' <- assign_sample X sample_ix img ;;
      get_images_loop X' (S sample_ix) ids'
  end.

(** [get_images(ids)] *)
Definition get_images (ids : list string) : result batch :=
  get_images_loop (np_zeros4 (length ids)) 0 ids.

End ImageStore.

(* ===================================================================== *)
(** ** The label table (a pandas DataFrame of 0/1 cells) *)
(* ===================================================================== *)

Record DataFrame : Type := mkDataFrame {
  df_index : list string;
  df_columns : list string;
  df_values : list (list Z)
}.

(** A 2-d integer ndarray with its shape (a matrix with no rows still has
    a column count). *)
Record ndarray2 : Type := mkNdarray2 {
  nd_shape : nat * nat;
  nd_rows : list (list Z)
}.

(** [pd.DataFrame(data, index, columns)]: the axes must match the shape of
    the data. *)
Definition pd_DataFrame (data : ndarray2) (index columns : list string)
  : result DataFrame :=
  if Nat.eqb (fst (nd_shape data)) (length index)
     && Nat.eqb (snd (nd_shape data)) (length columns)
  then Ok (mkDataFrame index columns (nd_rows data))
  else Raise ValueError.

(** Column selection by position, [df.iloc[:, positions]] once the key is
    resolved, and by the frame it returns. *)
Definition select_columns (values : list (list Z)) (positions : list nat)
  : list (list Z) :=
  map (fun row => map (fun j => nth j row 0%Z) positions) values.

(** [frame == 1] *)
Definition eq_1 (values : list (list Z)) : list (list bool) :=
  map (map (fun v => v =? 1)%Z) values.

(** [frame.any(axis = 1)] *)
Definition any_axis1 (cells : list (list bool)) : list bool :=
  map (existsb (fun b => b)) cells.

Fixpoint filter_by_mask {A} (l : list A) (mask : list bool) : list A :=
  match l, mask with
  | a :: l', b :: mask' =>
      if b then a :: filter_by_mask l' mask' else filter_by_mask l' mask'
  | _, _ => []
  end.

(** [df.loc[mask]] for a boolean row mask. *)
Definition loc_rows (df : DataFrame) (mask : list bool) : DataFrame :=
  mkDataFrame (filter_by_mask (df_index df) mask)
              (df_columns df)
              (filter_by_mask (df_values df) mask).

(** Positions of the columns labelled [name]. *)
Fixpoint positions_of (name : string) (columns : list string) (from : nat)
  : list nat :=
  match columns with
  | [] => []
  | c :: cs => if String.eqb c name then from :: positions_of name cs (S from)
               else positions_of name cs (S from)
  end.

(** [df.loc[:, pd.Index(names)]]: a label that names no column raises
    KeyError (pandas 1.0 and later; older releases raised only when no
    label at all was found). *)
Definition loc_columns (df : DataFrame) (names : list string)
  : result (list (list Z)) :=
  pos <- mapM (fun name =>
                 match positions_of name (df_columns df) 0 with
                 | [] => Raise KeyError
                 | ps => Ok ps
                 end) names ;;
  Ok (select_columns (df_values df) (concat pos)).

(* ===================================================================== *)
(** ** Python values reaching [any] *)
(* ===================================================================== *)

#[warnings="-register-all"] Inductive pyobj : Type :=
| PyNone
| PyBool (b : bool)
| PyInt (z : Z)
| PyFloat (q : Q)
| PyStr (s : string)
| PyList (l : list pyobj)
| PyTuple (l : list pyobj)
| PdIndex (labels : list string).

(** [isinstance(v, int)]: [bool] is a subclass of [int]. *)
Definition isinstance_int (v : pyobj) : bool :=
  match v with PyInt _ | PyBool _ => true | _ => false end.

Definition isinstance_list (v : pyobj) : bool :=
  match v with PyList _ => true | _ => false end.



Definition is_pybool (v : pyobj) : bool :=
  match v with PyBool _ => true | _ => false end.

(** A position given to [iloc], counted from the end when negative. *)
Definition iloc_position (ncol : nat) (i : Z) : result nat :=
  let n := Z.of_nat ncol in
  if (- n <=? i)%Z && (i <? n)%Z
  then Ok (Z.to_nat (if i <? 0 then i + n else i)%Z)
  else Raise IndexError.

(** A list element that numpy reads as a sequence of its own. *)
Definition is_sequence (v : pyobj) : bool :=
  match v with PyList _ | PyTuple _ | PdIndex _ => true | _ => false end.

(** A list element that numpy reads as a number. *)
Definition is_number (v : pyobj) : bool :=
  match v with PyBool _ | PyInt _ | PyFloat _ => true | _ => false end.

(** The value of a number as numpy holds it in an array of numbers. *)
Definition number_value (v : pyobj) : Q :=
  match v with
  | PyBool b => if b then 1 else 0
  | PyInt i => inject_Z i
  | PyFloat q => q
  | _ => 0
  end%Q.

(** The cast of a float to a C integer: towards zero. *)
Definition truncate (q : Q) : Z := Z.quot (Qnum q) (Zpos (Qden q)).

(** A position given to [iloc] in a list: the bounds are checked on the
    number itself, then the number is cast to an integer position. *)
Definition iloc_list_position (ncol : nat) (q : Q) : result nat :=
  let n := Z.of_nat ncol in
  if Qle_bool (inject_Z (- n)) q && negb (Qle_bool (inject_Z n) q)
  then let i := truncate q in Ok (Z.to_nat (if i <? 0 then i + n else i)%Z)
  else Raise IndexError.

(** [df.iloc[:, key]] for the keys that pass [any]'s second test: an
    integer, or a list whose first element is an integer.  pandas rejects
    a lone bool (ValueError) and reads a list of bools as a column mask of
    the frame's width.  Any other list goes through [np.array]: a nested
    sequence makes an array of uneven shape (ValueError), a string or
    None an array that is not numeric (IndexError); bools, ints and
    floats become numbers, which are checked against the width and cast
    to positions. *)
Definition iloc_columns (df : DataFrame) (key : pyobj) : result (list (list Z)) :=
  let ncol := length (df_columns df) in
  match key with
  | PyInt i =>
      p <- iloc_position ncol i ;; Ok (select_columns (df_values df) [p])
  | PyList l =>
      if negb (Nat.eqb (length l) 0) && forallb is_pybool l
      then if Nat.eqb (length l) ncol
           then Ok (select_columns (df_values df)
                      (filter_by_mask (seq 0 ncol)
                         (map (fun v => match v with PyBool b => b | _ => false end) l)))
           else Raise IndexError
      else if existsb is_sequence l then Raise ValueError
      else if negb (forallb is_number l) then Raise IndexError
      else
        ps <- mapM (fun v => iloc_list_position ncol (number_value v)) l ;;
        Ok (select_columns (df_values df) ps)
  | _ => Raise ValueError
  end.

(** [ProteinAtlas.any(class_)].  The [isinstance] chain of the source,
    read off the constructor of [class_]: a pandas Index selects columns
    by label; an int, or a list whose first element is an int, selects by
    position ([class_[0]] on an empty list raises IndexError); a str names
    one column.  Each of these branches binds [mask]; for any other value
    none is taken and the final [self.labels.loc[mask]] reads an unbound
    local. *)
Definition any (labels : DataFrame) (class_ : pyobj) : result DataFrame :=
  mask <-
    match class_ with
    | PdIndex names =>
        sel <- loc_columns labels names ;; Ok (any_axis1 (eq_1 sel))
    | PyInt _ | PyBool _ =>
        sel <- iloc_columns labels class_ ;; Ok (any_axis1 (eq_1 sel))
    | PyList l =>
        first <- py_index l 0 ;;
        if isinstance_int first
        then sel <- iloc_columns labels class_ ;; Ok (any_axis1 (eq_1 sel))
        else Raise UnboundLocalError
    | PyStr name =>
        sel <- loc_columns labels [name] ;; Ok (any_axis1 (eq_1 sel))
    | PyNone | PyFloat _ | PyTuple _ => Raise UnboundLocalError
    end ;;
  Ok (loc_rows labels mask).

(* ===================================================================== *)
(** ** class Train: reading the label file *)
(* ===================================================================== *)

(** Text is a sequence of code points below 256, one per [ascii]. *)

(** A cell of the [Target] column as [pd.read_csv] delivers it: the text
    of the field, NaN (a float) for a missing value, or a number or bool
    when pandas has found a numeric type for the column.  The value of a
    number plays no role below and is not kept. *)
Inductive cell : Type :=
| Str (s : string)
| NaN
| Number.

(** *** pd.read_csv: the type of the Target column *)

(** The fields that pandas reads as missing values. *)
Definition na_values : list string :=
  [""; "#N/A"; "#N/A N/A"; "#NA"; "-1.#IND"; "-1.#QNAN"; "-NaN"; "-nan";
   "1.#IND"; "1.#QNAN"; "<NA>"; "N/A"; "NA"; "NULL"; "NaN"; "None";
   "n/a"; "nan"; "null"].

Definition na_filter (field : string) : cell :=
  if existsb (String.eqb field) na_values then NaN else Str field.

(** [isspace_ascii] of pandas' tokenizer. *)
Definition isspace_ascii (c : ascii) : bool :=
  let n := nat_of_ascii c in
  (Nat.leb 9 n && Nat.leb n 13) || Nat.eqb n 32.

Definition digit_val (c : ascii) : option Z :=
  let n := nat_of_ascii c in
  if Nat.leb 48 n && Nat.leb n 57 then Some (Z.of_nat (n - 48)) else None.

Fixpoint skip_spaces (s : list ascii) : list ascii :=
  match s with
  | c :: s' => if isspace_ascii c then skip_spaces s' else s
  | [] => []
  end.

(** The run of digits at the head of [s]: its value, its length and what
    follows it. *)
Fixpoint read_digits (s : list ascii) (acc : Z) (n : nat)
  : Z * nat * list ascii :=
  match s with
  | c :: s' =>
      match digit_val c with
      | Some d => read_digits s' (10 * acc + d)%Z (S n)
      | None => (acc, n, s)
      end
  | [] => (acc, n, [])
  end.

(** The sign at the head of a literal (is it a minus?) and what follows
    it. *)
Definition split_sign (s : list ascii) : bool * list ascii :=
  match s with
  | c :: s' =>
      if Ascii.eqb c "-" then (true, s')
      else if Ascii.eqb c "+" then (false, s')
      else (false, s)
  | [] => (false, [])
  end.

(** What a converter of pandas makes of one field. *)
Inductive conversion : Type :=
| Converted
| Invalid
| OutOfRange.

(** [str_to_int64]: whitespace, an optional sign, one digit or more,
    whitespace.  The range is checked while the digits are read, before
    what follows them is looked at. *)
Definition str_to_int64 (field : string) : conversion :=
  let '(negative, p) := split_sign (skip_spaces (list_ascii_of_string field)) in
  let '(v, n, rest) := read_digits p 0 0 in
  if Nat.eqb n 0 then Invalid
  else if (if negative then 2 ^ 63 <? v else 2 ^ 63 <=? v)%Z then OutOfRange
  else match skip_spaces rest with
       | [] => Converted
       | _ :: _ => Invalid
       end.

(** What [str_to_uint64] reports of a field: a number that needs the
    unsigned type, one that does not, a minus sign (nothing after it is
    read), or a failure. *)
Inductive uint64_conversion : Type :=
| Unsigned (above_int64 : bool)
| Negative
| NotUnsigned (c : conversion).

Definition str_to_uint64 (field : string) : uint64_conversion :=
  let '(negative, p) := split_sign (skip_spaces (list_ascii_of_string field)) in
  if negative then Negative
  else
    let '(v, n, rest) := read_digits p 0 0 in
    if Nat.eqb n 0 then NotUnsigned Invalid
    else if (2 ^ 64 <=? v)%Z then NotUnsigned OutOfRange
    else match skip_spaces rest with
         | [] => Unsigned (2 ^ 63 <=? v)%Z
         | _ :: _ => NotUnsigned Invalid
         end.

(** [to_boolean]: the words true and false in any case. *)
Definition upper (c : ascii) : ascii :=
  let n := nat_of_ascii c in
  if Nat.leb 97 n && Nat.leb n 122 then ascii_of_nat (n - 32) else c.

Definition to_boolean (field : string) : bool :=
  let word := string_of_list_ascii (map upper (list_ascii_of_string field)) in
  String.eqb word "TRUE" || String.eqb word "FALSE".

(** How the attempt to give a column one type ends: every field is
    converted; a field is refused and the next type is tried; or the
    attempt raises (OverflowError for a number out of range, ValueError
    for numbers that no numeric type holds together) and pandas keeps the
    column as text. *)
Inductive attempt : Type :=
| Accepted
| Refused
| Overflowed
| Conflicting.

(** [_try_int64]: missing values are passed over (with them the column
    becomes float64). *)
Fixpoint try_int64 (cells : list cell) : attempt :=
  match cells with
  | [] => Accepted
  | Str field :: rest =>
      match str_to_int64 field with
      | Converted => try_int64 rest
      | Invalid => Refused
      | OutOfRange => Overflowed
      end
  | _ :: rest => try_int64 rest
  end.

(** [_try_uint64], which pandas turns to when [_try_int64] met a number
    outside int64: numbers that need the unsigned type go neither with
    negative numbers nor with missing values. *)
Fixpoint try_uint64 (cells : list cell) (seen_uint seen_sint seen_null : bool)
  : attempt :=
  match cells with
  | [] => if seen_uint && (seen_sint || seen_null) then Conflicting
          else if seen_sint then Overflowed
          else Accepted
  | Str field :: rest =>
      match str_to_uint64 field with
      | Unsigned above => try_uint64 rest (seen_uint || above) seen_sint seen_null
      | Negative => try_uint64 rest seen_uint true seen_null
      | NotUnsigned OutOfRange => Overflowed
      | NotUnsigned _ => Refused
      end
  | _ :: rest => try_uint64 rest seen_uint seen_sint true
  end.

Definition as_number (c : cell) : cell :=
  match c with
  | Str _ => Number
  | _ => c
  end.

(** A converter takes a cell when it is a missing value or a field the
    converter accepts. *)
Definition accepts (converter : string -> bool) (c : cell) : bool :=
  match c with
  | Str field => converter field
  | _ => true
  end.

Section LabelFile.

(** [to_double]: whether pandas' float converter accepts a field.  Its
    grammar, precision and range checks are pandas' own. *)
Variable to_double : string -> bool.

(** The [Target] column of [pd.read_csv(path)], from the text of its
    fields in file order.  pandas tries int64 (uint64 when a number is too
    large), float64 and bool in turn, and keeps the text of the fields when
    no type takes them all; after a conflict of numbers it keeps the text
    as it is, missing values included. *)
Definition read_csv_Target (fields : list string) : list cell :=
  let cells := map na_filter fields in
  let numbers := map as_number cells in
  let next_types :=
    if forallb (accepts to_double) cells || forallb (accepts to_boolean) cells
    then numbers else cells in
  match try_int64 cells with
  | Accepted => numbers
  | Refused => next_types
  | Conflicting => map Str fields
  | Overflowed =>
      match try_uint64 cells false false false with
      | Accepted => numbers
      | Refused => next_types
      | Overflowed => cells
      | Conflicting => map Str fields
      end
  end.

End LabelFile.

(** *** The lambda [read_target] *)

(** [s.split(" ")]: every single space separates; the result is never
    empty. *)
Fixpoint split_space (s : string) : list string :=
  match s with
  | EmptyString => [EmptyString]
  | String c s' =>
      if Ascii.eqb c " " then EmptyString :: split_space s'
      else match split_space s' with
           | t :: ts => String c t :: ts
           | [] => [String c EmptyString]
           end
  end.

(** Python's [int(str)], which numpy applies to each string when it builds
    an integer array: surrounding whitespace is stripped, one sign is
    allowed, and the digits may be grouped by single underscores.
    Whitespace is the ASCII whitespace of C and, above 127, the code
    points NEL and NBSP; the only decimal digits below 256 are 0 to 9.  A
    literal of more than 4300 digits is refused. *)
Definition is_space (c : ascii) : bool :=
  let n := nat_of_ascii c in
  (Nat.leb 9 n && Nat.leb n 13) || Nat.eqb n 32 || Nat.eqb n 133 || Nat.eqb n 160.

Fixpoint lstrip (s : list ascii) : list ascii :=
  match s with
  | c :: s' => if is_space c then lstrip s' else s
  | [] => []
  end.

Definition strip (s : list ascii) : list ascii :=
  rev (lstrip (rev (lstrip s))).

Fixpoint py_digits (s : list ascii) (acc : Z) (after_digit : bool) : option Z :=
  match s with
  | [] => if after_digit then Some acc else None
  | c :: s' =>
      match digit_val c with
      | Some d => py_digits s' (10 * acc + d)%Z true
      | None => if Ascii.eqb c "_" && after_digit
                then py_digits s' acc false
                else None
      end
  end.

Definition max_str_digits : nat := 4300.

Definition count_digits (s : list ascii) : nat :=
  length (filter (fun c => match digit_val c with Some _ => true | None => false end) s).

Definition py_int (s : string) : result Z :=
  let '(negative, ds) := split_sign (strip (list_ascii_of_string s)) in
  if Nat.ltb max_str_digits (count_digits ds) then Raise ValueError
  else match py_digits ds 0 false with
       | Some z => Ok (if negative then - z else z)%Z
       | None => Raise ValueError
       end.

(** The value numpy stores in an int32 array for a Python int: one that
    fits a C long is cut to its low 32 bits, a larger one is refused. *)
Definition wrap_int32 (z : Z) : Z := ((z + 2 ^ 31) mod 2 ^ 32 - 2 ^ 31)%Z.

Definition to_int32 (z : Z) : result Z :=
  if ((- 2 ^ 63 <=? z) && (z <? 2 ^ 63))%Z then Ok (wrap_int32 z)
  else Raise OverflowError.

(** [read_target = lambda s: np.array(s.split(" "), dtype=np.int32)].
    Only a string has a [split] attribute. *)
Definition read_target (c : cell) : result (list Z) :=
  match c with
  | Str s => mapM (fun field => z <- py_int field ;; to_int32 z) (split_space s)
  | NaN | Number => Raise AttributeError
  end.

(** [np.unique]: sorted, without repetitions. *)
Fixpoint insert_unique (x : Z) (l : list Z) : list Z :=
  match l with
  | [] => [x]
  | y :: l' => if (x <? y)%Z then x :: l
               else if (x =? y)%Z then l
               else y :: insert_unique x l'
  end.

Definition np_unique (l : list Z) : list Z := fold_right insert_unique [] l.

(** [sklearn.preprocessing.MultiLabelBinarizer()] with no [classes]
    argument: the columns are the sorted distinct labels seen by [fit]. *)
Record MultiLabelBinarizer : Type := mkMLB {
  classes_ : list Z
}.

Definition mlb_row (cls : list Z) (labs : list Z) : list Z :=
  map (fun c => if existsb (Z.eqb c) labs then 1%Z else 0%Z) cls.

Definition fit_transform (targets : list (list Z)) : MultiLabelBinarizer * ndarray2 :=
  let cls := np_unique (concat targets) in
  (mkMLB cls,
   mkNdarray2 (length targets, length cls) (map (mlb_row cls) targets)).

(** Positions of a row holding a 1. *)
Fixpoint positive_positions (row : list Z) (from : nat) : list nat :=
  match row with
  | [] => []
  | v :: row' => if (v =? 1)%Z then from :: positive_positions row' (S from)
                 else positive_positions row' (S from)
  end.

(** [mlb.inverse_transform] on one row: the classes at the positive
    positions; a row of another width or with a cell other than 0 and 1
    is refused. *)
Definition inverse_transform_row (mlb : MultiLabelBinarizer) (row : list Z)
  : result (list Z) :=
  if Nat.eqb (length row) (length (classes_ mlb))
     && forallb (fun v => (v =? 0)%Z || (v =? 1)%Z) row
  then Ok (map (fun j => nth j (classes_ mlb) 0%Z) (positive_positions row 0))
  else Raise ValueError.

Record Train : Type := mkTrain {
  train_img_path : string;
  train_mlb : MultiLabelBinarizer;
  train_labels : DataFrame;
  train_index : list string
}.

(** [Train.__init__], given the image directory [PATH["train"]] and the
    rows of [train.csv] in file order: the label that the [Id] column
    gives the row in the index, as [format] prints it, and the text of the
    [Target] field. *)
Definition Train_init (to_double : string -> bool) (img_path : string)
    (csv : list (string * string)) : result Train :=
  targets <- mapM read_target (read_csv_Target to_double (map snd csv)) ;;
  let '(mlb, labels) := fit_transform targets in
  let index := map fst csv in
  let columns := classes in
  df <- pd_DataFrame labels index columns ;;
  Ok (mkTrain img_path mlb df (df_index df)).

Record Test : Type := mkTest {
  test_img_path : string;
  test_index : list string
}.

(** [Test.__init__], given the Id column of [sample_submission.csv]. *)
Definition Test_init (img_path : string) (ids : list string) : Test :=
  mkTest img_path ids.

(* ===================================================================== *)
(** ** iterstrat.MultilabelStratifiedKFold *)
(* ===================================================================== *)

Record MultilabelStratifiedKFold : Type := mkMSKF {
  kfold_n_splits : Z
}.

(** The constructor inherited from scikit-learn's k-fold base class: one
    split or fewer is refused. *)
Definition MultilabelStratifiedKFold_init (n_splits : Z)
  : result MultilabelStratifiedKFold :=
  if (n_splits <=? 1)%Z then Raise ValueError else Ok (mkMSKF n_splits).

(** [type_of_target(y) == 'multilabel-indicator'], which the stratifier
    demands of [y] once its cells are cast to bool: a 2-d array with more
    than one column. *)
Definition is_multilabel_indicator (y : list (list Z)) : bool :=
  match y with
  | [] => false
  | row :: _ => Nat.ltb 1 (length row)
  end.

(** [indices[mask]] for a boolean mask over [indices]. *)
Definition where_fold (test_folds : list Z) (keep : Z -> bool) : list Z :=
  filter_by_mask (range (length test_folds)) (map keep test_folds).

Section Generators.

(** State of numpy's global random generator, which iterative
    stratification draws on to break ties. *)
Variable rng : Type.

(** [IterativeStratification(labels, r, random_state)] with
    [r = [1/n_splits] * n_splits]: the fold of each sample position.  Its
    float bookkeeping and random tie-breaking are not modelled; the
    result is any assignment, read at the positions [0 .. n_samples-1]. *)
Variable IterativeStratification :
  list (list Z) -> Z -> rng -> (nat -> Z) * rng.

(** [int(1/(1-train_portion))] in double-precision arithmetic. *)
Variable float : Type.
Variable int_inv_one_minus : float -> result Z.

Variable Image_open : string -> result band.

(** [mskf.split(X, y)], all folds: the pairs (train indices, test
    indices) for fold 0, 1, ...; positions are relative to [y].  More
    splits than samples, or a [y] that is not a multi-label indicator
    matrix, are refused. *)
Definition split (mskf : MultilabelStratifiedKFold) (X y : list (list Z))
    (g : rng) : result (list (list Z * list Z) * rng) :=
  let n_samples := length X in
  if (Z.of_nat n_samples <? kfold_n_splits mskf)%Z then Raise ValueError
  else if negb (is_multilabel_indicator y) then Raise ValueError
  else
    let '(fold_of, g') := IterativeStratification y (kfold_n_splits mskf) g in
    let test_folds := map fold_of (seq 0 n_samples) in
    Ok (map (fun i => (where_fold test_folds (fun f => negb (f =? i)%Z),
                       where_fold test_folds (fun f => (f =? i)%Z)))
            (range (Z.to_nat (kfold_n_splits mskf))),
        g').

Record TrainGenerator : Type := mkTrainGenerator {
  tg_batch_size : Z;
  tg_train : Train;
  tg_train_set : list Z;
  tg_n_splits : Z;
  tg_mskf : MultilabelStratifiedKFold;
  tg_batch_sets : list (list Z)
}.

(** [TrainGenerator.__init__(train, train_set, batch_size, augment)].
    The keras [ImageDataGenerator] it also builds is never used
    ([__getitem__] has the augmentation commented out). *)
Definition TrainGenerator_init (train : Train) (train_set : list Z)
    (batch_size : Z) (augment : bool) (g : rng)
  : result (TrainGenerator * rng) :=
  let self_batch_size := 32%Z in
  let n_splits := ceil_div (Z.of_nat (length train_set)) self_batch_size in
  mskf <- MultilabelStratifiedKFold_init n_splits ;;
  y <- take (df_values (train_labels train)) train_set ;;
  let X := y in
  '(folds, g') <- split mskf X y g ;;
  Ok (mkTrainGenerator self_batch_size train train_set n_splits mskf
        (map snd folds), g').

(** [TrainGenerator.__len__] *)
Definition TrainGenerator_len (self : TrainGenerator) : Z :=
  Z.of_nat (length (tg_batch_sets self)).

(** [TrainGenerator.__getitem__(index)] *)
Definition TrainGenerator_getitem (self : TrainGenerator) (index : Z)
  : result (batch * list (list Z)) :=
  batch_set <- py_index (tg_batch_sets self) index ;;
  batch_index <- take (df_index (train_labels (tg_train self))) batch_set ;;
  x_batch <- get_images Image_open (train_img_path (tg_train self)) batch_index ;;
  y_batch <- take (df_values (train_labels (tg_train self))) batch_set ;;
  Ok (x_batch, y_batch).

(** The first two statements of [train_test_split]: the k-fold object
    and the first pair [(train_set, val_set)] of its [split]. *)
Definition first_fold (self : Train) (train_portion : float) (g : rng)
  : result (list Z * list Z * rng) :=
  n_splits <- int_inv_one_minus train_portion ;;
  mskf <- MultilabelStratifiedKFold_init n_splits ;;
  '(folds, g1) <- split mskf (df_values (train_labels self))
                             (df_values (train_labels self)) g ;;
  match folds with
  | (train_set, val_set) :: _ => Ok (train_set, val_set, g1)
  | [] => Raise StopIteration
  end.

(** [Train.train_test_split(train_portion, batch_size)] *)
Definition train_test_split (self : Train) (train_portion : float)
    (batch_size : Z) (g : rng)
  : result (TrainGenerator * TrainGenerator * rng) :=
  '(train_set, val_set, g1) <- first_fold self train_portion g ;;
  '(train_generator, g2) <- TrainGenerator_init self train_set batch_size false g1 ;;
  '(val_generator, g3) <- TrainGenerator_init self train_set batch_size false g2 ;;
  Ok (train_generator, val_generator, g3).

Record TestGenerator : Type := mkTestGenerator {
  testgen_test : Test;
  testgen_batch_size : Z;
  testgen_batch_sets : list (list Z)
}.

(** [float(n)] of an int raises OverflowError when [n] rounds to a double
    beyond the largest one. *)
Definition float_overflows (n : Z) : bool :=
  (2 ^ 1024 - 2 ^ 970 <=? Z.abs n)%Z.

(** [TestGenerator.__len__], from the two attributes it reads. *)
Definition TestGenerator_len (test : Test) (batch_size : Z) : result Z :=
  if float_overflows batch_size then Raise OverflowError
  else if (batch_size =? 0)%Z then Raise ZeroDivisionError
  else Ok (ceil_div (Z.of_nat (length (test_index test))) batch_size).

Fixpoint split_sizes {A} (l : list A) (sizes : list nat) : list (list A) :=
  match sizes with
  | [] => []
  | k :: sizes' => firstn k l :: split_sizes (skipn k l) sizes'
  end.

(** [np.array_split(ary, sections)]: the first [len % sections] parts get
    one element more. *)
Definition np_array_split (ary : list Z) (sections : Z) : result (list (list Z)) :=
  if (sections <=? 0)%Z then Raise ValueError
  else
    let k := Z.to_nat sections in
    let each := Nat.div (length ary) k in
    let extras := Nat.modulo (length ary) k in
    Ok (split_sizes ary (repeat (S each) extras ++ repeat each (k - extras))%list).

(** [TestGenerator.__init__(test, batch_size)]; [len(self)] refuses a
    negative [__len__]. *)
Definition TestGenerator_init (test : Test) (batch_size : Z)
  : result TestGenerator :=
  n <- TestGenerator_len test batch_size ;;
  if (n <? 0)%Z then Raise ValueError
  else
    batch_sets <- np_array_split (range (length (test_index test))) n ;;
    Ok (mkTestGenerator test batch_size batch_sets).

(** [TestGenerator.__getitem__(index)] *)
Definition TestGenerator_getitem (self : TestGenerator) (index : Z)
  : result batch :=
  batch_set <- py_index (testgen_batch_sets self) index ;;
  batch_index <- take (test_index (testgen_test self)) batch_set ;;
  x_batch <- get_images Image_open (test_img_path (testgen_test self)) batch_index ;;
  Ok x_batch.

(** [Test.get_generator(batch_size)] *)
Definition get_generator (self : Test) (batch_size : Z) : result TestGenerator :=
  TestGenerator_init self batch_size.

End Generators.

Arguments split {rng} IterativeStratification mskf X y g.
Arguments TrainGenerator_init {rng} IterativeStratification train train_set batch_size augment g.
Arguments first_fold {rng} IterativeStratification {float} int_inv_one_minus self train_portion g.
Arguments train_test_split {rng} IterativeStratification {float} int_inv_one_minus self train_portion batch_size g.

(* ===================================================================== *)
(** ** Concrete data used by the examples *)
(* ===================================================================== *)

Module Demo.

Definition decimal (n : nat) : string := NilZero.string_of_uint (Nat.to_uint n).

(** A label file of 81 samples [s0 .. s80]: for [i < 80] sample [i]
    carries the single class [i mod 28], so all 28 classes occur; sample
    [s80] carries the classes 0, 5 and 27. *)
Definition csv : list (string * string) :=
  app (map (fun i => ("s" ++ decimal i, decimal (Nat.modulo i 28))) (seq 0 80))
      [("s80", "0 5 27")].


(** A label file in which the last class, 27, does not occur. *)
Definition csv_27 : list (string * string) :=
  ("m0", "0 5") :: firstn 27 csv.

(** A stand-in for pandas' float converter: plain decimal numbers with an
    optional sign and an optional fraction. *)
Definition to_double (field : string) : bool :=
  let '(_, p) := split_sign (skip_spaces (list_ascii_of_string field)) in
  let '(_, n, p) := read_digits p 0 0 in
  let '(_, m, p) := match p with
                    | "."%char :: q => read_digits q 0 0
                    | _ => (0%Z, 0%nat, p)
                    end in
  negb (Nat.eqb (n + m) 0) &&
  match skip_spaces p with
  | [] => true
  | _ :: _ => false
  end.

Definition labels : DataFrame :=
  mkDataFrame (map fst csv) classes
    (app (map (fun i => mlb_row (range 28) [Z.of_nat (Nat.modulo i 28)]) (seq 0 80))
         [mlb_row (range 28) [0; 5; 27]%Z]).

Definition train : Train :=
  mkTrain "train" (mkMLB (range 28)) labels (map fst csv).

(** A training fold that is not an initial segment: rows 40 .. 72. *)
Definition fold_40_72 : list Z := map Z.of_nat (seq 40 33).

(** A stand-in for iterative stratification: round robin, no randomness. *)
Definition round_robin (y : list (list Z)) (k : Z) (g : unit) : (nat -> Z) * unit :=
  (fun j => Z.of_nat j mod k, g)%Z.

(** [int(1/(1-p))] on exact rationals. *)
Definition int_inv_one_minus (p : Q) : result Z :=
  if Qeq_bool (1 - p) 0 then Raise ZeroDivisionError
  else Ok (Z.quot (Qnum (1 / (1 - p))) (Zpos (Qden (1 / (1 - p))))).

(** Every file decodes to a 512 x 512 single-band 8-bit gradient. *)
Definition gradient : band :=
  mkBand (512%nat, 512%nat) (fun r c => Z.of_nat (r + c) mod 256)%Z.

Definition Image_open (path : string) : result band := Ok gradient.

Definition test : Test := Test_init "test" ["t0"; "t1"].

(** The label rows of the fold, [labels.values[fold_40_72]]. *)
Definition fold_rows : list (list Z) :=
  map (fun i => nth i (df_values labels) []) (seq 40 33).

(** The generator [TrainGenerator(train, fold_40_72)] builds with the
    round-robin assignment. *)
Definition train_generator : TrainGenerator :=
  mkTrainGenerator 32 train fold_40_72 2 (mkMSKF 2)
    [map (fun k => Z.of_nat (2 * k)) (seq 0 17);
     map (fun k => Z.of_nat (2 * k + 1)) (seq 0 16)].

(** The generator [Test.get_generator(batch_size = 1)] builds over it. *)
Definition test_generator : TestGenerator :=
  mkTestGenerator test 1 [[0%Z]; [1%Z]].

End Demo.

(** The split count that the specification of the batch partitioner
    describes: ceil(n / B), but at least 2. *)
Definition spec_n_splits (n B : Z) : Z := Z.max 2 (ceil_div n B).


(** The rows of a frame that pass a test, with their index labels, in
    the order of the frame. *)
Definition rows_where (test : list Z -> bool) (df : DataFrame) : DataFrame :=
  mkDataFrame
    (map fst (filter (fun r => test (snd r)) (combine (df_index df) (df_values df))))
    (df_columns df)
    (filter test (df_values df)).

(** The rows of a frame picked by the test "column [j] holds a 1". *)
Definition rows_with_one_at (j : nat) (df : DataFrame) : DataFrame :=
  rows_where (fun row => (nth j row 0 =? 1)%Z) df.


Definition is_digit (c : ascii) : bool :=
  match digit_val c with Some _ => true | None => false end.






(** Every target of the file that parses names only classes of the
    vocabulary, i.e. integers from [0, 28). *)
Definition targets_in_vocabulary (csv : list (string * string)) : bool :=
  forallb (fun target =>
             match read_target (Str target) with
             | Ok labs => forallb (fun z => (0 <=? z)%Z && (z <? 28)%Z) labs
             | Raise _ => true
             end) (map snd csv).

(** The label row of the target "0 5 27" over 28 columns. *)
Definition row_0_5_27 : list Z :=
  [1; 0; 0; 0; 0; 1; 0; 0; 0; 0; 0; 0; 0; 0;
   0; 0; 0; 0; 0; 0; 0; 0; 0; 0; 0; 0; 0; 1]%Z.

(** What the image directory has to provide for a sample: each of the four
    channel files decodes to a [nrows] x [ncols] single-band image with
    8-bit pixels. *)
Definition valid_sample (Image_open : string -> result band)
    (img_path id_ : string) : Prop :=
  forall ch, (ch < n_channels)%nat ->
    exists path b,
      get_path img_path id_ (Z.of_nat ch) = Ok path /\
      Image_open path = Ok b /\
      band_shape b = (nrows, ncols) /\
      forall r c, (r < nrows)%nat -> (c < ncols)%nat ->
                  (0 <= band_px b r c <= 255)%Z.

(** The row test behind every mask that [any] computes: one of the
    selected columns holds a 1. *)
Definition row_has_one_at (positions : list nat) (row : list Z) : bool :=
  existsb (fun j => (nth j row 0 =? 1)%Z) positions.

(** A sample id that is a single path component: it holds no slash. *)
Definition no_slash (s : string) : bool :=
  forallb (fun c => negb (Ascii.eqb c "/")) (list_ascii_of_string s).

(** What pathlib writes before the name of a file of the directory
    [base]: the root and the components of [base], each followed by a
    slash. *)
Fixpoint dir_prefix (parts : list string) : string :=
  match parts with
  | [] => EmptyString
  | part :: rest => part ++ "/" ++ dir_prefix rest
  end.

Definition directory (base : string) : string :=
  parse_root base ++ dir_prefix (parse_parts base).

(** Image directories used by the examples. *)
Module Files.

(** A directory in which the blue channel of sample s1 is missing. *)
Definition missing_blue (path : string) : result band :=
  if String.eqb path "train/s1_blue.png" then Raise FileNotFoundError
  else Ok Demo.gradient.

(** A directory whose images are 256 x 256. *)
Definition half_size (path : string) : result band :=
  Ok (mkBand (256%nat, 256%nat) (fun r c => 7%Z)).

End Files.

(** The Target format that the label file uses: decimal numerals joined
    by single spaces.  A numeral is given by its digits, most significant
    first. *)
Definition digit_char (d : nat) : ascii := ascii_of_nat (48 + d).

Definition numeral (ds : list nat) : string :=
  string_of_list_ascii (map digit_char ds).

Definition numeral_value (ds : list nat) : Z :=
  fold_left (fun acc d => (10 * acc + Z.of_nat d)%Z) ds 0%Z.

Fixpoint join_space (toks : list string) : string :=
  match toks with
  | [] => EmptyString
  | t :: rest =>
      match rest with
      | [] => t
      | _ :: _ => t ++ " " ++ join_space rest
      end
  end.

(* ===================================================================== *)
(** * Properties *)
(* ===================================================================== *)

(** ** Generic facts about results and sequences *)

Lemma bind_Ok {A B} (m : result A) (k : A -> result B) (b : B) :
  bind m k = Ok b -> exists a, m = Ok a /\ k a = Ok b.
Proof.
  destruct m as [a|e]; simpl; intros H; [exists a; auto | discriminate].
Qed.

Ltac inv_bind H :=
  let a := fresh "a" in
  let Ha := fresh "Ha" in
  apply bind_Ok in H; destruct H as (a & Ha & H).

Lemma mapM_length {A B} (f : A -> result B) (l : list A) (bs : list B) :
  mapM f l = Ok bs -> length bs = length l.
Proof.
  revert bs; induction l as [|a l IH]; simpl; intros bs H.
  - injection H as <-; reflexivity.
  - inv_bind H. inv_bind H. injection H as <-. simpl. f_equal. eauto.
Qed.

Lemma mapM_nth_error {A B} (f : A -> result B) (l : list A) (bs : list B) :
  mapM f l = Ok bs ->
  forall i a, nth_error l i = Some a ->
              exists b, nth_error bs i = Some b /\ f a = Ok b.
Proof.
  revert bs; induction l as [|x l IH]; simpl; intros bs H i a Hi.
  - destruct i; discriminate.
  - inv_bind H. inv_bind H. injection H as <-.
    destruct i as [|i]; simpl in *.
    + injection Hi as <-. eauto.
    + eauto.
Qed.

Lemma mapM_nth_error_inv {A B} (f : A -> result B) (l : list A) (bs : list B) :
  mapM f l = Ok bs ->
  forall i b, nth_error bs i = Some b ->
              exists a, nth_error l i = Some a /\ f a = Ok b.
Proof.
  revert bs; induction l as [|x l IH]; simpl; intros bs H i b Hi.
  - injection H as <-. destruct i; discriminate.
  - inv_bind H. inv_bind H. injection H as <-.
    destruct i as [|i]; simpl in *.
    + injection Hi as <-. eauto.
    + eauto.
Qed.

Lemma mapM_In_Ok {A B} (f : A -> result B) (l : list A) (bs : list B) a :
  mapM f l = Ok bs -> In a l -> exists b, f a = Ok b.
Proof.
  intros H Hin. apply In_nth_error in Hin as [i Hi].
  destruct (mapM_nth_error _ _ _ H _ _ Hi) as (b & _ & Hb). eauto.
Qed.

Lemma py_index_out_of_range {A} (l : list A) (i : Z) :
  (i < - Z.of_nat (length l) \/ Z.of_nat (length l) <= i)%Z ->
  py_index l i = Raise IndexError.
Proof.
  intros H. unfold py_index.
  destruct (i <? 0)%Z eqn:Hneg.
  - apply Z.ltb_lt in Hneg.
    destruct (0 <=? i + Z.of_nat (length l))%Z eqn:H0; simpl; auto.
    apply Z.leb_le in H0. lia.
  - apply Z.ltb_ge in Hneg.
    destruct (0 <=? i)%Z; simpl; auto.
    destruct (i <? Z.of_nat (length l))%Z eqn:H1; auto.
    apply Z.ltb_lt in H1. lia.
Qed.

Lemma py_index_negative {A} (l : list A) (i : Z) :
  (- Z.of_nat (length l) <= i < 0)%Z ->
  py_index l i = py_index l (i + Z.of_nat (length l)).
Proof.
  intros H. unfold py_index.
  replace (i <? 0)%Z with true by (symmetry; apply Z.ltb_lt; lia).
  replace (i + Z.of_nat (length l) <? 0)%Z with false
    by (symmetry; apply Z.ltb_ge; lia).
  reflexivity.
Qed.

Lemma py_index_in_range {A} (l : list A) (i : Z) :
  (0 <= i < Z.of_nat (length l))%Z ->
  exists a, py_index l i = Ok a /\ nth_error l (Z.to_nat i) = Some a.
Proof.
  intros H. unfold py_index.
  replace (i <? 0)%Z with false by (symmetry; apply Z.ltb_ge; lia).
  replace (0 <=? i)%Z with true by (symmetry; apply Z.leb_le; lia).
  replace (i <? Z.of_nat (length l))%Z with true by (symmetry; apply Z.ltb_lt; lia).
  simpl.
  destruct (nth_error l (Z.to_nat i)) as [a|] eqn:E; eauto.
  apply nth_error_None in E. lia.
Qed.

(** ** Image access *)

Section ImageFacts.

Variable Image_open : string -> result band.
Variable img_path : string.

Lemma get_image_valid id_ :
  valid_sample Image_open img_path id_ ->
  exists img,
    get_image Image_open img_path id_ = Ok img /\
    image_shape img = (nrows, ncols, n_channels) /\
    forall r c ch, (r < nrows)%nat -> (c < ncols)%nat -> (ch < n_channels)%nat ->
                   (0 <= image_at img r c ch)%Q /\ (image_at img r c ch <= 1)%Q.
Proof.
  intros V.
  destruct (V 0%nat) as (p0 & b0 & P0 & O0 & S0 & R0); [unfold n_channels; simpl; lia|].
  destruct (V 1%nat) as (p1 & b1 & P1 & O1 & S1 & R1); [unfold n_channels; simpl; lia|].
  destruct (V 2%nat) as (p2 & b2 & P2 & O2 & S2 & R2); [unfold n_channels; simpl; lia|].
  destruct (V 3%nat) as (p3 & b3 & P3 & O3 & S3 & R3); [unfold n_channels; simpl; lia|].
  unfold get_image.
  change (range n_channels) with [0; 1; 2; 3]%Z.
  change (Z.of_nat 0) with 0%Z in P0. change (Z.of_nat 1) with 1%Z in P1.
  change (Z.of_nat 2) with 2%Z in P2. change (Z.of_nat 3) with 3%Z in P3.
  cbn [mapM bind]. rewrite P0; cbn [bind]; rewrite O0; cbn [bind].
  rewrite P1; cbn [bind]; rewrite O1; cbn [bind].
  rewrite P2; cbn [bind]; rewrite O2; cbn [bind].
  rewrite P3; cbn [bind]; rewrite O3; cbn [bind].
  unfold np_stack_axis2. cbn [forallb].
  rewrite S0, S1, S2, S3. unfold shape2_eqb. cbn [fst snd].
  rewrite !Nat.eqb_refl. cbn [andb bind].
  eexists; split; [reflexivity|]. split; [reflexivity|].
  cbn [image_at]. intros r c ch Hr Hc Hch.
  assert (Hpx : (0 <= match nth_error [b0; b1; b2; b3] ch with
                      | Some b => band_px b r c
                      | None => 0
                      end <= 255)%Z).
  { destruct ch as [|[|[|[|ch]]]]; cbn [nth_error]; auto.
    unfold n_channels in Hch; simpl in Hch; lia. }
  revert Hpx. generalize (match nth_error [b0; b1; b2; b3] ch with
                          | Some b => band_px b r c
                          | None => 0%Z
                          end). intros z Hz.
  unfold Qle, Qdiv, Qmult, Qinv, inject_Z; simpl. lia.
Qed.

(** Invariant of the loop of [get_images]: slots below [k] are kept,
    slot [k + j] receives the image of the [j]-th remaining id. *)
Lemma get_images_loop_spec ids :
  forall (X : batch) (k n : nat),
    batch_shape X = (n, nrows, ncols, n_channels) ->
    (k + length ids <= n)%nat ->
    (forall id_, In id_ ids -> valid_sample Image_open img_path id_) ->
    exists X',
      get_images_loop Image_open img_path X k ids = Ok X' /\
      batch_shape X' = (n, nrows, ncols, n_channels) /\
      (forall j r c ch, (j < k)%nat -> batch_at X' j r c ch = batch_at X j r c ch) /\
      (forall j id_, nth_error ids j = Some id_ ->
         exists img, get_image Image_open img_path id_ = Ok img /\
           forall r c ch, (r < nrows)%nat -> (c < ncols)%nat -> (ch < n_channels)%nat ->
                          batch_at X' (k + j) r c ch = image_at img r c ch).
Proof.
  induction ids as [|id_ ids IH]; intros X k n HX Hk V.
  - exists X. cbn [get_images_loop]. repeat split; auto.
    intros [|j] ? Hj; discriminate.
  - cbn [get_images_loop].
    destruct (get_image_valid id_ (V id_ (or_introl eq_refl)))
      as (img & Himg & Hshape & _).
    rewrite Himg. cbn [bind].
    unfold assign_sample. rewrite Hshape, HX. cbn [fst].
    replace (Nat.ltb k n) with true
      by (symmetry; apply Nat.ltb_lt; simpl in Hk; lia).
    rewrite !Nat.eqb_refl. cbn [negb orb andb bind].
    change (Nat.eqb nrows 1) with false.
    change (Nat.eqb ncols 1) with false.
    change (Nat.eqb n_channels 1) with false.
    set (X1 := mkBatch _ _).
    destruct (IH X1 (S k) n) as (X' & Hloop & HX' & Hkeep & Hnew).
    + reflexivity.
    + simpl in Hk; lia.
    + intros; apply V; right; assumption.
    + exists X'. split; [exact Hloop|]. split; [exact HX'|]. split.
      * intros j r c ch Hj. rewrite Hkeep by lia.
        subst X1; cbn [batch_at].
        replace (Nat.eqb j k) with false
          by (symmetry; apply Nat.eqb_neq; lia).
        reflexivity.
      * intros [|j] id' Hj.
        -- injection Hj as <-. exists img. split; [exact Himg|].
           intros r c ch _ _ _. rewrite Nat.add_0_r, Hkeep by lia.
           subst X1; cbn [batch_at]. rewrite Nat.eqb_refl. reflexivity.
        -- destruct (Hnew j id' Hj) as (img' & Himg' & Heq).
           exists img'. split; [exact Himg'|].
           intros r c ch Hr Hc Hch.
           replace (k + S j)%nat with (S k + j)%nat by lia. auto.
Qed.

End ImageFacts.

(** C8 -- For an ordered sequence of n sample ids whose channel files all
    decode to 512 x 512 single-band 8-bit images, [get_images] returns an
    array of shape (n, 512, 512, 4) whose k-th slice equals [get_image] of
    the k-th id, and every [get_image] result has shape (512, 512, 4) with
    all values between 0 and 1. *)
Theorem get_images_stacks_get_image
    (Image_open : string -> result band) (img_path : string)
    (ids : list string)
    (Hvalid : forall id_, In id_ ids -> valid_sample Image_open img_path id_) :
  exists X,
    get_images Image_open img_path ids = Ok X /\
    batch_shape X = (length ids, 512, 512, 4)%nat /\
    forall k id_, nth_error ids k = Some id_ ->
      exists img,
        get_image Image_open img_path id_ = Ok img /\
        image_shape img = (512, 512, 4)%nat /\
        forall r c ch, (r < 512)%nat -> (c < 512)%nat -> (ch < 4)%nat ->
          (0 <= image_at img r c ch)%Q /\ (image_at img r c ch <= 1)%Q /\
          batch_at X k r c ch = image_at img r c ch.
Proof.
  unfold get_images.
  assert (Hzeros : batch_shape (np_zeros4 (length ids))
                   = (length ids, nrows, ncols, n_channels)) by reflexivity.
  assert (Hlen : (0 + length ids <= length ids)%nat) by lia.
  destruct (get_images_loop_spec Image_open img_path ids
              (np_zeros4 (length ids)) 0 (length ids) Hzeros Hlen Hvalid)
    as (X & HX & Hshape & _ & Hnew).
  exists X. split; [exact HX|]. split; [exact Hshape|].
  intros k id_ Hk.
  destruct (Hnew k id_ Hk) as (img & Himg & Heq).
  destruct (get_image_valid Image_open img_path id_) as (img' & Himg' & Hs & Hrange).
  { apply Hvalid. eapply nth_error_In; eauto. }
  rewrite Himg in Himg'. injection Himg' as <-.
  exists img. split; [exact Himg|]. split; [exact Hs|].
  intros r c ch Hr Hc Hch.
  destruct (Hrange r c ch Hr Hc Hch) as [H0 H1].
  split; [exact H0|]. split; [exact H1|]. apply (Heq r c ch Hr Hc Hch).
Qed.

Lemma Demo_valid_sample (id_ : string) :
  valid_sample Demo.Image_open "train" id_.
Proof.
  intros ch Hch.
  destruct ch as [|[|[|[|ch]]]];
    [ | | | | unfold n_channels in Hch; simpl in Hch; lia ];
    (eexists; exists Demo.gradient;
     split; [reflexivity|]; split; [reflexivity|]; split; [reflexivity|];
     intros r c _ _; cbn [Demo.gradient band_px];
     pose proof (Z.mod_pos_bound (Z.of_nat (r + c)) 256); lia).
Qed.

Lemma get_images_stacks_get_image_witness :
  exists X,
    get_images Demo.Image_open "train" ["s0"; "s1"] = Ok X /\
    batch_shape X = (2, 512, 512, 4)%nat /\
    forall k id_, nth_error ["s0"; "s1"] k = Some id_ ->
      exists img,
        get_image Demo.Image_open "train" id_ = Ok img /\
        image_shape img = (512, 512, 4)%nat /\
        forall r c ch, (r < 512)%nat -> (c < 512)%nat -> (ch < 4)%nat ->
          (0 <= image_at img r c ch)%Q /\ (image_at img r c ch <= 1)%Q /\
          batch_at X k r c ch = image_at img r c ch.
Proof.
  apply (get_images_stacks_get_image Demo.Image_open "train" ["s0"; "s1"]).
  intros id_ _. apply Demo_valid_sample.
Defined.

(** ** Filtering the label table *)

Lemma any_axis1_single (values : list (list Z)) (j : nat) :
  any_axis1 (eq_1 (select_columns values [j]))
  = map (fun row => (nth j row 0 =? 1)%Z) values.
Proof.
  unfold any_axis1, eq_1, select_columns. rewrite !map_map.
  apply map_ext. intros row. simpl. apply orb_false_r.
Qed.

(** A row mask computed from the rows keeps the rows that pass the test,
    in their order, and the index labels that stand beside them. *)
Lemma filter_by_mask_filter {A} (test : A -> bool) (l : list A) :
  filter_by_mask l (map test l) = filter test l.
Proof.
  induction l as [|a l IH]; [reflexivity|].
  cbn [map filter_by_mask filter]. rewrite IH. reflexivity.
Qed.

Lemma filter_by_mask_combine {A B} (test : B -> bool) (idx : list A) (l : list B) :
  filter_by_mask idx (map test l)
  = map fst (filter (fun r => test (snd r)) (combine idx l)).
Proof.
  revert l; induction idx as [|i idx IH]; intros l; [reflexivity|].
  destruct l as [|b l]; [reflexivity|].
  cbn [map filter_by_mask combine filter snd]. rewrite IH.
  destruct (test b); reflexivity.
Qed.

Lemma loc_rows_rows_where (test : list Z -> bool) (df : DataFrame) :
  loc_rows df (map test (df_values df)) = rows_where test df.
Proof.
  unfold loc_rows, rows_where.
  rewrite filter_by_mask_filter, filter_by_mask_combine. reflexivity.
Qed.

(** C10 -- On a label table whose columns are the 28 class names,
    [any([0])] and [any("Nucleoplasm")] return the same frame.  Its rows
    are the rows of the table whose column 0 holds a 1, all of them and no
    other, in the order of the table; its index holds the labels of these
    rows, and its columns are those of the table. *)
Theorem any_first_class_by_position_and_by_name
    (labels : DataFrame) (Hcols : df_columns labels = classes) :
  exists df,
    any labels (PyList [PyInt 0]) = Ok df /\
    any labels (PyStr "Nucleoplasm") = Ok df /\
    df_columns df = df_columns labels /\
    df_values df = filter (fun row => (nth 0 row 0 =? 1)%Z) (df_values labels) /\
    df_index df
    = map fst (filter (fun r => (nth 0 (snd r) 0 =? 1)%Z)
                      (combine (df_index labels) (df_values labels))).
Proof.
  exists (rows_with_one_at 0 labels).
  assert (Hlist : any labels (PyList [PyInt 0]) = Ok (rows_with_one_at 0 labels)).
  { unfold any, iloc_columns. rewrite Hcols.
    cbn [py_index length Z.of_nat Z.ltb Z.leb Z.compare andb Z.to_nat nth_error
         bind isinstance_int forallb is_pybool existsb is_sequence is_number
         Nat.eqb negb orb mapM number_value].
    change (iloc_list_position (length classes) (inject_Z 0)) with (@Ok nat 0%nat).
    cbn [bind]. rewrite any_axis1_single. apply f_equal, loc_rows_rows_where. }
  split; [exact Hlist|].
  split; [|repeat split].
  unfold any, loc_columns. rewrite Hcols.
  cbn [mapM].
  change (positions_of "Nucleoplasm" classes 0) with [0%nat].
  cbn [bind concat app]. rewrite any_axis1_single.
  apply f_equal, loc_rows_rows_where.
Qed.

Lemma any_first_class_by_position_and_by_name_witness :
  exists df,
    any Demo.labels (PyList [PyInt 0]) = Ok df /\
    any Demo.labels (PyStr "Nucleoplasm") = Ok df /\
    df_columns df = df_columns Demo.labels /\
    df_values df = filter (fun row => (nth 0 row 0 =? 1)%Z) (df_values Demo.labels) /\
    df_index df
    = map fst (filter (fun r => (nth 0 (snd r) 0 =? 1)%Z)
                      (combine (df_index Demo.labels) (df_values Demo.labels))).
Proof.
  apply (any_first_class_by_position_and_by_name Demo.labels). reflexivity.
Defined.




(** ** Reading the label file *)

Lemma mapM_Raise_source {A B} (f : A -> result B) (l : list A) (e : exn) :
  mapM f l = Raise e -> exists a, In a l /\ f a = Raise e.
Proof.
  induction l as [|a l IH]; simpl; [discriminate|].
  destruct (f a) as [b|e'] eqn:Ha; simpl.
  - destruct (mapM f l) as [bs|e''] eqn:Hl; simpl; [discriminate|].
    intros H; injection H as <-.
    destruct (IH eq_refl) as (a' & Hin & Ha'). eauto.
  - intros H; injection H as <-. eauto.
Qed.

Lemma mapM_Raise_somewhere {A B} (f : A -> result B) (l : list A) a e :
  In a l -> f a = Raise e -> exists e', mapM f l = Raise e'.
Proof.
  intros Hin Ha.
  destruct (mapM f l) as [bs|e'] eqn:H; [|eauto].
  destruct (mapM_In_Ok _ _ _ _ H Hin) as [b Hb]. congruence.
Qed.




(** Each cell that [pd.read_csv] delivers is the text of its field, NaN
    or a number. *)
Lemma read_csv_Target_cells (to_double : string -> bool) (fields : list string) :
  exists g : string -> cell,
    read_csv_Target to_double fields = map g fields /\
    forall field, g field = Str field \/ g field = NaN \/ g field = Number.
Proof.
  assert (Hna : forall field, na_filter field = Str field \/ na_filter field = NaN).
  { intros field. unfold na_filter. destruct (existsb _ _); auto. }
  assert (Hnum : forall field, as_number (na_filter field) = NaN \/
                               as_number (na_filter field) = Number).
  { intros field. destruct (Hna field) as [-> | ->]; auto. }
  assert (Hcells : exists g : string -> cell,
            map na_filter fields = map g fields /\
            forall field, g field = Str field \/ g field = NaN \/ g field = Number).
  { exists na_filter. split; [reflexivity|]. intros field.
    destruct (Hna field); auto. }
  assert (Hnumbers : exists g : string -> cell,
            map as_number (map na_filter fields) = map g fields /\
            forall field, g field = Str field \/ g field = NaN \/ g field = Number).
  { exists (fun field => as_number (na_filter field)). split; [apply map_map|].
    intros field. destruct (Hnum field); auto. }
  assert (Hnext : exists g : string -> cell,
            (if forallb (accepts to_double) (map na_filter fields)
                || forallb (accepts to_boolean) (map na_filter fields)
             then map as_number (map na_filter fields)
             else map na_filter fields) = map g fields /\
            forall field, g field = Str field \/ g field = NaN \/ g field = Number).
  { destruct (_ || _); assumption. }
  assert (Htext : exists g : string -> cell,
            map Str fields = map g fields /\
            forall field, g field = Str field \/ g field = NaN \/ g field = Number).
  { exists Str. split; [reflexivity | auto]. }
  unfold read_csv_Target.
  destruct (try_int64 _); try assumption.
  destruct (try_uint64 _ _ _ _); assumption.
Qed.

(** When every cell of the column can be read, the column holds the text
    of the fields: pandas has found no numeric type for it and no field
    is missing. *)
Lemma read_csv_Target_Ok (to_double : string -> bool) (fields : list string)
    (targets : list (list Z)) :
  mapM read_target (read_csv_Target to_double fields) = Ok targets ->
  read_csv_Target to_double fields = map Str fields.
Proof.
  destruct (read_csv_Target_cells to_double fields) as (g & -> & Hg). intros H.
  apply map_ext_in. intros field Hin.
  destruct (mapM_In_Ok _ _ _ (g field) H (in_map g _ _ Hin)) as [labs Hl].
  destruct (Hg field) as [E | [E | E]]; [exact E | |];
    rewrite E in Hl; discriminate Hl.
Qed.

(** What a successful [Train.__init__] has done. *)
Lemma Train_init_inv (to_double : string -> bool) (img_path : string)
    (csv : list (string * string)) (t : Train) :
  Train_init to_double img_path csv = Ok t ->
  exists targets,
    mapM read_target (map Str (map snd csv)) = Ok targets /\
    length (np_unique (concat targets)) = 28%nat /\
    t = mkTrain img_path (mkMLB (np_unique (concat targets)))
          (mkDataFrame (map fst csv) classes
             (map (mlb_row (np_unique (concat targets))) targets))
          (map fst csv).
Proof.
  unfold Train_init. intros H. inv_bind H. rename a into targets.
  rewrite (read_csv_Target_Ok _ _ _ Ha) in Ha.
  unfold fit_transform in H. inv_bind H. rename a into df.
  unfold pd_DataFrame in Ha0. cbn [nd_shape fst snd nd_rows] in Ha0.
  destruct (Nat.eqb (length targets) _) in Ha0; [|discriminate].
  destruct (Nat.eqb (length (np_unique (concat targets))) (length classes)) eqn:Hw;
    [|discriminate].
  apply Nat.eqb_eq in Hw. injection Ha0 as <-. injection H as <-.
  exists targets. repeat split; auto.
Qed.

(** The target of each row of a file that [Train.__init__] accepts can be
    read, and the rows of the table stand in the order of the file. *)
Lemma Train_init_row (to_double : string -> bool) (img_path : string)
    (csv : list (string * string)) (targets : list (list Z))
    (i : nat) (id_ target : string) :
  mapM read_target (map Str (map snd csv)) = Ok targets ->
  nth_error csv i = Some (id_, target) ->
  exists labs, nth_error targets i = Some labs /\ read_target (Str target) = Ok labs.
Proof.
  intros Hread Hrow.
  apply (mapM_nth_error _ _ _ Hread).
  rewrite !nth_error_map, Hrow. reflexivity.
Qed.


(** *** Fields that are no integer literals *)
















(** A table that [Train.__init__] does build has no all-zero row: every
    target has at least one field, and its class is one of the columns. *)
Lemma split_space_nonempty (s : string) : split_space s <> [].
Proof.
  destruct s as [|c s]; simpl; [discriminate|].
  destruct (Ascii.eqb c " "); [discriminate|].
  destruct (split_space s); discriminate.
Qed.

Lemma insert_unique_In (x y : Z) (l : list Z) :
  In y (insert_unique x l) <-> y = x \/ In y l.
Proof.
  induction l as [|z l IH]; simpl.
  - intuition.
  - destruct (x <? z)%Z eqn:Hlt; simpl; [intuition|].
    destruct (x =? z)%Z eqn:Heq; simpl.
    + apply Z.eqb_eq in Heq. subst. intuition.
    + rewrite IH. intuition.
Qed.

Lemma np_unique_In (y : Z) (l : list Z) : In y (np_unique l) <-> In y l.
Proof.
  induction l as [|x l IH]; simpl; [tauto|].
  rewrite insert_unique_In, IH. intuition.
Qed.

Lemma mlb_row_has_one (cls labs : list Z) (z : Z) :
  In z labs -> In z cls -> In 1%Z (mlb_row cls labs).
Proof.
  intros Hl Hc. unfold mlb_row. apply in_map_iff. exists z. split; [|exact Hc].
  replace (existsb (Z.eqb z) labs) with true; [reflexivity|].
  symmetry. apply existsb_exists. exists z. split; [exact Hl | apply Z.eqb_refl].
Qed.

Lemma Train_init_no_zero_row (to_double : string -> bool) (img_path : string)
    (csv : list (string * string)) t :
  Train_init to_double img_path csv = Ok t ->
  forall row, In row (df_values (train_labels t)) -> In 1%Z row.
Proof.
  intros H. destruct (Train_init_inv _ _ _ _ H) as (targets & Ha & _ & ->).
  cbn [train_labels df_values].
  intros row Hrow. apply in_map_iff in Hrow as (labs & <- & Hlabs).
  assert (Hne : labs <> []).
  { apply In_nth_error in Hlabs as [i Hi].
    destruct (mapM_nth_error_inv _ _ _ Ha _ _ Hi) as (c & Hc & Hread).
    destruct c as [s| |]; simpl in Hread; [|discriminate..].
    apply mapM_length in Hread. intros ->.
    destruct (split_space s) eqn:Hs; [|discriminate].
    exact (split_space_nonempty s Hs). }
  destruct labs as [|z labs]; [congruence|].
  apply (mlb_row_has_one _ _ z); [left; reflexivity|].
  apply np_unique_In. apply in_concat. exists (z :: labs). split; [exact Hlabs | left; reflexivity].
Qed.

(** ** The binarizer's columns *)


Lemma insert_unique_sorted (x : Z) (l : list Z) :
  StronglySorted Z.lt l -> StronglySorted Z.lt (insert_unique x l).
Proof.
  induction 1 as [|y l Hs IH Hall]; simpl.
  - repeat constructor.
  - destruct (x <? y)%Z eqn:Hlt.
    + apply Z.ltb_lt in Hlt. constructor; [constructor; assumption|].
      constructor; [assumption|].
      eapply Forall_impl; [|exact Hall]. simpl; intros; lia.
    + destruct (x =? y)%Z eqn:Heq; [constructor; assumption|].
      apply Z.ltb_ge in Hlt. apply Z.eqb_neq in Heq.
      constructor; [assumption|].
      apply Forall_forall. intros z Hz. apply insert_unique_In in Hz as [-> | Hz].
      * lia.
      * rewrite Forall_forall in Hall. auto.
Qed.

Lemma np_unique_sorted (l : list Z) : StronglySorted Z.lt (np_unique l).
Proof.
  induction l as [|x l IH]; simpl; [constructor | apply insert_unique_sorted, IH].
Qed.

(** A strictly increasing list inside [lo, hi) has at most hi - lo
    elements ... *)
Lemma sorted_length_bound (l : list Z) :
  StronglySorted Z.lt l -> forall lo hi,
  (forall z, In z l -> lo <= z < hi)%Z -> (Z.of_nat (length l) <= Z.max 0 (hi - lo))%Z.
Proof.
  induction 1 as [|x l Hs IH Hall]; intros lo hi Hin; simpl length.
  - lia.
  - assert (Hx := Hin x (or_introl eq_refl)).
    specialize (IH (x + 1)%Z hi).
    assert (Z.of_nat (length l) <= Z.max 0 (hi - (x + 1)))%Z.
    { apply IH. intros z Hz. rewrite Forall_forall in Hall.
      specialize (Hall z Hz). specialize (Hin z (or_intror Hz)). lia. }
    lia.
Qed.

(** ... and when it has exactly that many, it is the whole interval. *)
Lemma sorted_full_interval (l : list Z) :
  StronglySorted Z.lt l -> forall lo,
  (forall z, In z l -> lo <= z < lo + Z.of_nat (length l))%Z ->
  l = map (fun i => lo + Z.of_nat i)%Z (seq 0 (length l)).
Proof.
  induction 1 as [|x l Hs IH Hall]; intros lo Hin; [reflexivity|].
  assert (Hx := Hin x (or_introl eq_refl)).
  assert (Htail : forall z, In z l -> (x + 1 <= z < lo + Z.of_nat (length (x :: l)))%Z).
  { intros z Hz. rewrite Forall_forall in Hall.
    specialize (Hall z Hz). specialize (Hin z (or_intror Hz)). lia. }
  pose proof (sorted_length_bound l Hs _ _ Htail) as Hlen.
  simpl length in *.
  assert (x = lo) by lia. subst x.
  cbn [seq map]. f_equal; [simpl; lia|].
  rewrite <- seq_shift, map_map.
  rewrite (IH (lo + 1)%Z) at 1.
  - apply map_ext. intros i. lia.
  - intros z Hz. specialize (Htail z Hz). lia.
Qed.

(** When [Train.__init__] succeeds on a file whose targets stay inside the
    vocabulary, the binarizer has seen every class: its columns are
    0, 1, ..., 27 in this order. *)
Lemma Train_init_classes (to_double : string -> bool) (img_path : string)
    (csv : list (string * string)) t :
  Train_init to_double img_path csv = Ok t ->
  targets_in_vocabulary csv = true ->
  classes_ (train_mlb t) = range 28.
Proof.
  intros H Hvoc. destruct (Train_init_inv _ _ _ _ H) as (targets & Ha & Hw & ->).
  cbn [train_mlb classes_].
  rewrite (sorted_full_interval _ (np_unique_sorted (concat targets)) 0%Z).
  - rewrite Hw. reflexivity.
  - rewrite Hw. intros z Hz. rewrite np_unique_In in Hz.
    rewrite in_concat in Hz. destruct Hz as (labs & Hlabs & Hz).
    apply In_nth_error in Hlabs as [i Hi].
    destruct (mapM_nth_error_inv _ _ _ Ha _ _ Hi) as (c & Hc & Hread).
    apply nth_error_In, in_map_iff in Hc as (target & <- & Hc).
    unfold targets_in_vocabulary in Hvoc. rewrite forallb_forall in Hvoc.
    specialize (Hvoc target Hc). cbv beta in Hvoc. rewrite Hread in Hvoc.
    rewrite forallb_forall in Hvoc. specialize (Hvoc z Hz).
    apply andb_true_iff in Hvoc as [H0 H1].
    apply Z.leb_le in H0. apply Z.ltb_lt in H1. simpl. lia.
Qed.

(** C7 (as stated) fails: the binarizer takes its columns from the labels
    it is fitted on, not from the 28-class vocabulary.  Fitted on a file
    holding only the target "0 5 27" it yields the 3-wide row [1; 1; 1],
    and building the 28-column label table then fails. *)
Lemma binarize_0_5_27_alone_is_3_wide :
  read_target (Str "0 5 27") = Ok [0; 5; 27]%Z /\
  fit_transform [[0; 5; 27]%Z]
    = (mkMLB [0; 5; 27]%Z, mkNdarray2 (1%nat, 3%nat) [[1; 1; 1]%Z]) /\
  Train_init Demo.to_double "train" [("s0", "0 5 27")] = Raise ValueError.
Proof. repeat split; reflexivity. Qed.

(** C7 (amended) -- In a label file whose targets are integers from
    [0, 28) and from which the Train table is built, the row of a sample
    with target "0 5 27" is 28 wide with a 1 exactly at positions 0, 5 and
    27; the columns are the 28 class names in vocabulary order, and
    reading the row's positive positions back through the binarizer
    returns 0, 5, 27. *)
Theorem binarize_0_5_27_round_trip
    (to_double : string -> bool) (img_path : string)
    (csv : list (string * string)) (t : Train)
    (i : nat) (id_ : string)
    (Hinit : Train_init to_double img_path csv = Ok t)
    (Hvoc : targets_in_vocabulary csv = true)
    (Hrow : nth_error csv i = Some (id_, "0 5 27")) :
  nth_error (df_values (train_labels t)) i = Some row_0_5_27 /\
  length row_0_5_27 = 28%nat /\
  df_columns (train_labels t) = classes /\
  positive_positions row_0_5_27 0 = [0; 5; 27]%nat /\
  inverse_transform_row (train_mlb t) row_0_5_27 = Ok [0; 5; 27]%Z.
Proof.
  pose proof (Train_init_classes _ _ _ _ Hinit Hvoc) as Hcls.
  destruct (Train_init_inv _ _ _ _ Hinit) as (targets & Ha & _ & ->).
  cbn [train_mlb classes_ train_labels df_values df_columns] in *.
  destruct (Train_init_row to_double img_path _ _ _ _ _ Ha Hrow) as (labs & Hlabs & Hread).
  change (read_target (Str "0 5 27")) with (@Ok (list Z) [0; 5; 27]%Z) in Hread.
  injection Hread as <-.
  repeat split.
  - rewrite nth_error_map, Hlabs, Hcls. reflexivity.
  - unfold inverse_transform_row. cbn [classes_]. rewrite Hcls. reflexivity.
Qed.

Lemma binarize_0_5_27_round_trip_witness :
  nth_error (df_values (train_labels Demo.train)) 80 = Some row_0_5_27 /\
  length row_0_5_27 = 28%nat /\
  df_columns (train_labels Demo.train) = classes /\
  positive_positions row_0_5_27 0 = [0; 5; 27]%nat /\
  inverse_transform_row (train_mlb Demo.train) row_0_5_27 = Ok [0; 5; 27]%Z.
Proof.
  apply (binarize_0_5_27_round_trip Demo.to_double "train" Demo.csv Demo.train 80 "s80").
  - vm_compute. reflexivity.
  - vm_compute. reflexivity.
  - reflexivity.
Defined.

(** ** The k-fold split *)

Lemma filter_by_mask_In {A} (l : list A) (mask : list bool) (a : A) :
  In a (filter_by_mask l mask) <->
  exists j, nth_error l j = Some a /\ nth_error mask j = Some true.
Proof.
  revert mask; induction l as [|x l IH]; intros mask.
  - simpl. split; [tauto|]. intros ([|j] & H & _); discriminate.
  - destruct mask as [|b mask].
    + simpl. split; [tauto|]. intros ([|j] & _ & H); discriminate.
    + cbn [filter_by_mask]. split.
      * intros H.
        assert (Hcase : (b = true /\ a = x) \/ In a (filter_by_mask l mask)).
        { destruct b; [destruct H as [<-|H]; auto | auto]. }
        destruct Hcase as [[-> <-] | Hin].
        -- exists 0%nat. split; reflexivity.
        -- apply IH in Hin as (j & H1 & H2). exists (S j). split; assumption.
      * intros ([|j] & H1 & H2); simpl in H1, H2.
        -- injection H1 as <-. injection H2 as ->. left; reflexivity.
        -- assert (In a (filter_by_mask l mask)) by (apply IH; eauto).
           destruct b; [right|]; assumption.
Qed.

Lemma range_nth_error (n j : nat) (z : Z) :
  nth_error (range n) j = Some z <-> (j < n)%nat /\ z = Z.of_nat j.
Proof.
  unfold range. rewrite nth_error_map, nth_error_seq.
  destruct (Nat.ltb j n) eqn:E; simpl.
  - apply Nat.ltb_lt in E. split.
    + intros H; injection H as <-. auto.
    + intros [_ ->]. reflexivity.
  - apply Nat.ltb_ge in E. split; [discriminate | lia].
Qed.

Lemma where_fold_In (test_folds : list Z) (keep : Z -> bool) (i : Z) :
  In i (where_fold test_folds keep) <->
  exists j f, i = Z.of_nat j /\ nth_error test_folds j = Some f /\ keep f = true.
Proof.
  unfold where_fold. rewrite filter_by_mask_In. split.
  - intros (j & Hr & Hm). apply range_nth_error in Hr as [Hj ->].
    rewrite nth_error_map in Hm.
    destruct (nth_error test_folds j) as [f|] eqn:Hf; [|discriminate].
    injection Hm as Hm. exists j, f. auto.
  - intros (j & f & -> & Hf & Hk). exists j. split.
    + apply range_nth_error. split; [|reflexivity].
      apply nth_error_Some. congruence.
    + rewrite nth_error_map, Hf. simpl. congruence.
Qed.

Lemma where_fold_bound (test_folds : list Z) (keep : Z -> bool) (i : Z) :
  In i (where_fold test_folds keep) -> (0 <= i < Z.of_nat (length test_folds))%Z.
Proof.
  intros H. apply where_fold_In in H as (j & f & -> & Hf & _).
  assert (j < length test_folds)%nat by (apply nth_error_Some; congruence). lia.
Qed.

Lemma where_fold_complement (test_folds : list Z) (keep : Z -> bool) (i : Z) :
  In i (where_fold test_folds keep) ->
  ~ In i (where_fold test_folds (fun f => negb (keep f))).
Proof.
  intros H H'.
  apply where_fold_In in H as (j & f & -> & Hf & Hk).
  apply where_fold_In in H' as (j' & f' & Hj & Hf' & Hk').
  apply Nat2Z.inj in Hj. subst j'. rewrite Hf in Hf'. injection Hf' as <-.
  rewrite Hk in Hk'. discriminate.
Qed.

Lemma ceil_div_32 (n : Z) : (ceil_div n 32 <= 1 <-> n <= 32)%Z.
Proof.
  unfold ceil_div.
  pose proof (Z.div_mod (- n) 32 ltac:(lia)).
  pose proof (Z.mod_pos_bound (- n) 32 ltac:(lia)). lia.
Qed.

Lemma ceil_div_32_le (n : Z) : (0 <= n -> ceil_div n 32 <= Z.max n 1)%Z.
Proof.
  unfold ceil_div. intros Hn.
  pose proof (Z.div_mod (- n) 32 ltac:(lia)).
  pose proof (Z.mod_pos_bound (- n) 32 ltac:(lia)). lia.
Qed.

Lemma py_index_In {A} (l : list A) (i : Z) (a : A) :
  py_index l i = Ok a -> In a l.
Proof.
  unfold py_index.
  destruct (_ && _); [|discriminate].
  destruct (nth_error l _) as [x|] eqn:E; [|discriminate].
  intros H; injection H as <-. eapply nth_error_In; eauto.
Qed.

(** The label table of a Train has 28 columns in every row. *)
Lemma Train_init_width (to_double : string -> bool) (img_path : string)
    (csv : list (string * string)) t :
  Train_init to_double img_path csv = Ok t ->
  forall row, In row (df_values (train_labels t)) -> length row = 28%nat.
Proof.
  intros H. destruct (Train_init_inv _ _ _ _ H) as (targets & Ha & Hw & ->).
  cbn [train_labels df_values].
  intros row Hrow. apply in_map_iff in Hrow as (labs & <- & _).
  unfold mlb_row. rewrite length_map. exact Hw.
Qed.

Lemma take_rows_multilabel (to_double : string -> bool) (img_path : string)
    (csv : list (string * string)) t (ixs : list Z) (y : list (list Z)) :
  Train_init to_double img_path csv = Ok t ->
  take (df_values (train_labels t)) ixs = Ok y ->
  (32 < Z.of_nat (length ixs))%Z ->
  is_multilabel_indicator y = true.
Proof.
  intros Ht Hy Hn.
  pose proof (mapM_length _ _ _ Hy) as Hlen.
  destruct y as [|row y]; [simpl in Hlen; lia|].
  destruct ixs as [|i ixs]; [discriminate|].
  unfold take in Hy. cbn [mapM] in Hy. inv_bind Hy. inv_bind Hy.
  injection Hy as <- <-.
  apply py_index_In in Ha. cbn [is_multilabel_indicator].
  rewrite (Train_init_width _ _ _ _ Ht _ Ha). reflexivity.
Qed.

(** ** The generators *)

Section GeneratorFacts.

Variable rng : Type.
Variable IterativeStratification :
  list (list Z) -> Z -> rng -> (nat -> Z) * rng.
Variable float : Type.
Variable int_inv_one_minus : float -> result Z.
Variable Image_open : string -> result band.


(** What [split] yields when it yields: one pair per fold; the test part
    of a pair holds positions of [X], none of them in the train part. *)
Lemma split_inv mskf X y g folds g' :
  split IterativeStratification mskf X y g = Ok (folds, g') ->
  (kfold_n_splits mskf <= Z.of_nat (length X))%Z /\
  length folds = Z.to_nat (kfold_n_splits mskf) /\
  forall tr te, In (tr, te) folds ->
    forall i, In i te -> (0 <= i < Z.of_nat (length X))%Z /\ ~ In i tr.
Proof.
  unfold split.
  destruct (Z.of_nat (length X) <? kfold_n_splits mskf)%Z eqn:Hk; [discriminate|].
  apply Z.ltb_ge in Hk.
  destruct (is_multilabel_indicator y); [|discriminate]. cbn [negb].
  destruct (IterativeStratification y (kfold_n_splits mskf) g) as [fold_of g1].
  intros H. injection H as <- <-.
  split; [exact Hk|]. split.
  - rewrite length_map. unfold range. rewrite length_map, length_seq. reflexivity.
  - intros tr te Hin i Hi.
    apply in_map_iff in Hin as (k & Hpair & _). injection Hpair as <- <-.
    split.
    + apply where_fold_bound in Hi. rewrite length_map, length_seq in Hi. exact Hi.
    + apply (where_fold_complement _ (fun f => (f =? k)%Z)). exact Hi.
Qed.

Lemma split_total mskf X y g :
  (kfold_n_splits mskf <= Z.of_nat (length X))%Z ->
  is_multilabel_indicator y = true ->
  exists folds g', split IterativeStratification mskf X y g = Ok (folds, g').
Proof.
  intros Hk Hy. unfold split.
  replace (Z.of_nat (length X) <? kfold_n_splits mskf)%Z with false
    by (symmetry; apply Z.ltb_ge; exact Hk).
  rewrite Hy. cbn [negb].
  destruct (IterativeStratification y (kfold_n_splits mskf) g) as [fold_of g1].
  eauto.
Qed.

(** Thirty-two indices or fewer give one split or none, which the k-fold
    constructor refuses. *)
Lemma TrainGenerator_init_small train train_set batch_size augment g :
  (Z.of_nat (length train_set) <= 32)%Z ->
  TrainGenerator_init IterativeStratification train train_set batch_size augment g = Raise ValueError.
Proof.
  intros Hn. unfold TrainGenerator_init, MultilabelStratifiedKFold_init.
  replace (ceil_div (Z.of_nat (length train_set)) 32 <=? 1)%Z with true; [reflexivity|].
  symmetry. apply Z.leb_le. apply ceil_div_32. exact Hn.
Qed.

(** The attributes of a generator that was built. *)
Lemma TrainGenerator_init_inv train train_set batch_size augment g tg g' :
  TrainGenerator_init IterativeStratification train train_set batch_size augment g = Ok (tg, g') ->
  (32 < Z.of_nat (length train_set))%Z /\
  tg_batch_size tg = 32%Z /\
  tg_train tg = train /\
  tg_train_set tg = train_set /\
  tg_n_splits tg = ceil_div (Z.of_nat (length train_set)) 32 /\
  TrainGenerator_len tg = ceil_div (Z.of_nat (length train_set)) 32 /\
  forall b, In b (tg_batch_sets tg) ->
    forall j, In j b -> (0 <= j < Z.of_nat (length train_set))%Z.
Proof.
  intros H.
  destruct (Z_le_gt_dec (Z.of_nat (length train_set)) 32) as [Hle|Hgt].
  { rewrite TrainGenerator_init_small in H by exact Hle. discriminate. }
  unfold TrainGenerator_init in H.
  inv_bind H. rename a into mskf.
  inv_bind H. rename a into y.
  inv_bind H. destruct a as [folds g1]. injection H as <- <-.
  unfold MultilabelStratifiedKFold_init in Ha.
  destruct (_ <=? 1)%Z eqn:Hk in Ha; [discriminate|]. injection Ha as <-.
  apply Z.leb_gt in Hk.
  apply split_inv in Ha1 as (_ & Hlen & Hfolds). cbn [kfold_n_splits] in Hlen.
  apply mapM_length in Ha0.
  cbn [tg_batch_size tg_train tg_train_set tg_n_splits tg_batch_sets].
  repeat split; try reflexivity; try lia.
  - unfold TrainGenerator_len. cbn [tg_batch_sets].
    rewrite length_map, Hlen. lia.
  - apply in_map_iff in H as ([tr te] & <- & Hin).
    destruct (Hfolds tr te Hin j H0) as [Hb _]. lia.
  - apply in_map_iff in H as ([tr te] & <- & Hin).
    destruct (Hfolds tr te Hin j H0) as [Hb _]. rewrite Ha0 in Hb. lia.
Qed.

(** More than thirty-two indices, all of them rows of the table, always
    give a generator. *)
Lemma TrainGenerator_init_total train train_set batch_size augment g y :
  (32 < Z.of_nat (length train_set))%Z ->
  take (df_values (train_labels train)) train_set = Ok y ->
  is_multilabel_indicator y = true ->
  exists tg g', TrainGenerator_init IterativeStratification train train_set batch_size augment g = Ok (tg, g').
Proof.
  intros Hn Hy Hwide. unfold TrainGenerator_init, MultilabelStratifiedKFold_init.
  replace (ceil_div (Z.of_nat (length train_set)) 32 <=? 1)%Z with false
    by (symmetry; apply Z.leb_gt; pose proof (ceil_div_32 (Z.of_nat (length train_set))); lia).
  cbn [bind]. rewrite Hy. cbn [bind].
  destruct (split_total (mkMSKF (ceil_div (Z.of_nat (length train_set)) 32)) y y g)
    as (folds & g' & Hs).
  { cbn [kfold_n_splits]. apply mapM_length in Hy. rewrite Hy.
    pose proof (ceil_div_32_le (Z.of_nat (length train_set))). lia. }
  { exact Hwide. }
  rewrite Hs. cbn [bind]. eauto.
Qed.

Lemma first_fold_inv self train_portion g train_set val_set g1 :
  first_fold IterativeStratification int_inv_one_minus self train_portion g
    = Ok (train_set, val_set, g1) ->
  forall i, In i val_set -> ~ In i train_set.
Proof.
  unfold first_fold. intros H.
  inv_bind H. rename a into n_splits.
  inv_bind H. rename a into mskf.
  inv_bind H. destruct a as [folds g']. cbn beta iota in H.
  destruct folds as [|[tr te] folds]; [discriminate|].
  injection H as <- <- <-.
  apply split_inv in Ha1 as (_ & _ & Hfolds).
  intros i Hi. apply (Hfolds tr te (or_introl eq_refl) i Hi).
Qed.

Lemma split_sizes_length {A} (l : list A) (sizes : list nat) :
  length (split_sizes l sizes) = length sizes.
Proof.
  revert l; induction sizes as [|k sizes IH]; intros l; simpl; [reflexivity|].
  f_equal. apply IH.
Qed.

Lemma np_array_split_length ary sections parts :
  np_array_split ary sections = Ok parts ->
  (0 < sections)%Z /\ Z.of_nat (length parts) = sections.
Proof.
  unfold np_array_split.
  destruct (sections <=? 0)%Z eqn:Hs; [discriminate|].
  apply Z.leb_gt in Hs. intros H. injection H as <-.
  split; [exact Hs|].
  rewrite split_sizes_length, length_app, !repeat_length.
  pose proof (Nat.mod_upper_bound (length ary) (Z.to_nat sections)). lia.
Qed.

(** For a test generator that was built, [__len__] is the number of its
    batch sets. *)
Lemma TestGenerator_init_inv test batch_size testg :
  TestGenerator_init test batch_size = Ok testg ->
  testgen_test testg = test /\
  testgen_batch_size testg = batch_size /\
  TestGenerator_len test batch_size
    = Ok (Z.of_nat (length (testgen_batch_sets testg))).
Proof.
  unfold TestGenerator_init. intros H.
  inv_bind H. rename a into n.
  destruct (n <? 0)%Z; [discriminate|].
  inv_bind H. rename a into batch_sets. injection H as <-.
  apply np_array_split_length in Ha0 as [_ Hlen].
  cbn [testgen_test testgen_batch_size testgen_batch_sets].
  rewrite Hlen. auto.
Qed.

End GeneratorFacts.

(** C1 (as stated) fails.  With 10 training indices the specification's
    count is 2, but the code computes ceil(10/32) = 1 split and the k-fold
    constructor raises; with 80 indices and batch size 16 the
    specification's count is 5, but the code makes ceil(80/32) = 3
    batches. *)
Lemma n_splits_has_no_floor_and_ignores_B :
  spec_n_splits 10 32 = 2%Z /\
  TrainGenerator_init Demo.round_robin Demo.train (range 10) 32 false tt
    = Raise ValueError /\
  spec_n_splits 80 16 = 5%Z /\
  exists tg, TrainGenerator_init Demo.round_robin Demo.train (range 80) 16 false tt
               = Ok (tg, tt) /\
             tg_n_splits tg = 3%Z /\ TrainGenerator_len tg = 3%Z.
Proof.
  split; [reflexivity|]. split; [reflexivity|]. split; [reflexivity|].
  eexists. split; [vm_compute; reflexivity|]. split; reflexivity.
Qed.

(** C1 (amended) -- For a training index subset of size n (all of them
    rows of the label table of a Train built from a label file) the number
    of splits is ceil(n / 32),
    whatever batch size is passed and with no minimum: for n > 32 the
    partitioner produces exactly ceil(n / 32) >= 2 batches, and for
    n <= 32 the k-fold constructor refuses the count and construction
    raises ValueError. *)
Theorem TrainGenerator_n_splits_is_ceil_over_32
    {rng : Type} (IterativeStratification : list (list Z) -> Z -> rng -> (nat -> Z) * rng)
    (train : Train) (train_set : list Z) (batch_size : Z) (augment : bool)
    (g : rng) (y : list (list Z))
    (to_double : string -> bool) (img_path : string)
    (csv : list (string * string))
    (Hbuilt : Train_init to_double img_path csv = Ok train)
    (Hrows : take (df_values (train_labels train)) train_set = Ok y) :
  let n := Z.of_nat (length train_set) in
  ((n <= 32)%Z ->
     TrainGenerator_init IterativeStratification train train_set batch_size augment g
       = Raise ValueError) /\
  ((32 < n)%Z ->
     exists tg g',
       TrainGenerator_init IterativeStratification train train_set batch_size augment g
         = Ok (tg, g') /\
       tg_n_splits tg = ceil_div n 32 /\
       TrainGenerator_len tg = ceil_div n 32 /\
       (2 <= ceil_div n 32)%Z).
Proof.
  intros n. split.
  - apply TrainGenerator_init_small.
  - intros Hn.
    destruct (TrainGenerator_init_total _ IterativeStratification train train_set
                batch_size augment g y Hn Hrows) as (tg & g' & Hinit).
    { eapply take_rows_multilabel; eauto. }
    exists tg, g'. split; [exact Hinit|].
    apply TrainGenerator_init_inv in Hinit as (_ & _ & _ & _ & Hsplits & Hlen & _).
    split; [exact Hsplits|]. split; [exact Hlen|].
    pose proof (ceil_div_32 n). lia.
Qed.

Lemma TrainGenerator_n_splits_is_ceil_over_32_witness :
  let n := Z.of_nat (length Demo.fold_40_72) in
  ((n <= 32)%Z ->
     TrainGenerator_init Demo.round_robin Demo.train Demo.fold_40_72 7 false tt
       = Raise ValueError) /\
  ((32 < n)%Z ->
     exists tg g',
       TrainGenerator_init Demo.round_robin Demo.train Demo.fold_40_72 7 false tt
         = Ok (tg, g') /\
       tg_n_splits tg = ceil_div n 32 /\
       TrainGenerator_len tg = ceil_div n 32 /\
       (2 <= ceil_div n 32)%Z).
Proof.
  apply (TrainGenerator_n_splits_is_ceil_over_32 Demo.round_robin Demo.train
           Demo.fold_40_72 7 false tt Demo.fold_rows Demo.to_double "train" Demo.csv).
  - vm_compute. reflexivity.
  - vm_compute. reflexivity.
Defined.

(** C2 -- Whatever [batch_size] is passed to the TrainGenerator
    constructor, the stored batch size is 32 and the split count is
    ceil(n / 32); passing another value builds the very same generator,
    also when the value is forwarded by [Train.train_test_split]. *)
Theorem batch_size_argument_is_ignored
    {rng : Type} (IterativeStratification : list (list Z) -> Z -> rng -> (nat -> Z) * rng)
    {float : Type} (int_inv_one_minus : float -> result Z)
    (train : Train) (train_set : list Z) (batch_size batch_size' : Z)
    (augment : bool) (g : rng) (tg : TrainGenerator) (g' : rng)
    (Hinit : TrainGenerator_init IterativeStratification train train_set
               batch_size augment g = Ok (tg, g')) :
  tg_batch_size tg = 32%Z /\
  tg_n_splits tg = ceil_div (Z.of_nat (length train_set)) (tg_batch_size tg) /\
  TrainGenerator_init IterativeStratification train train_set batch_size' augment g
    = Ok (tg, g') /\
  forall train_portion g0,
    train_test_split IterativeStratification int_inv_one_minus train
      train_portion batch_size' g0
    = train_test_split IterativeStratification int_inv_one_minus train
        train_portion batch_size g0.
Proof.
  pose proof (TrainGenerator_init_inv _ _ _ _ _ _ _ _ _ Hinit)
    as (_ & Hbs & _ & _ & Hsplits & _).
  split; [exact Hbs|]. split; [rewrite Hbs; exact Hsplits|].
  split; [exact Hinit|]. reflexivity.
Qed.

Lemma batch_size_argument_is_ignored_witness :
  exists tg,
    TrainGenerator_init Demo.round_robin Demo.train Demo.fold_40_72 7 false tt
      = Ok (tg, tt) /\
    tg_batch_size tg = 32%Z /\
    tg_n_splits tg = ceil_div (Z.of_nat (length Demo.fold_40_72)) (tg_batch_size tg) /\
    TrainGenerator_init Demo.round_robin Demo.train Demo.fold_40_72 128 false tt
      = Ok (tg, tt) /\
    forall train_portion g0,
      train_test_split Demo.round_robin Demo.int_inv_one_minus Demo.train
        train_portion 128 g0
      = train_test_split Demo.round_robin Demo.int_inv_one_minus Demo.train
          train_portion 7 g0.
Proof.
  eexists. split; [vm_compute; reflexivity|].
  apply (batch_size_argument_is_ignored Demo.round_robin Demo.int_inv_one_minus
           Demo.train Demo.fold_40_72 7 128 false tt).
  vm_compute. reflexivity.
Defined.

(** C3 -- The batch sets hold positions inside the fold, not the fold's
    sample indices.  For the fold made of rows 40 .. 72 of an 81-row
    table, whatever assignment iterative stratification returns, the
    generator is built and every member of every batch lies in 0 .. 32:
    no batch member belongs to the fold, and no index of the fold appears
    in any batch. *)
Theorem batch_sets_hold_positions_not_indices
    {rng : Type} (IterativeStratification : list (list Z) -> Z -> rng -> (nat -> Z) * rng)
    (batch_size : Z) (augment : bool) (g : rng) :
  exists tg g',
    TrainGenerator_init IterativeStratification Demo.train Demo.fold_40_72
      batch_size augment g = Ok (tg, g') /\
    tg_train_set tg = Demo.fold_40_72 /\
    (forall b j, In b (tg_batch_sets tg) -> In j b ->
                 (0 <= j < 33)%Z /\ ~ In j Demo.fold_40_72) /\
    (forall i b, In i Demo.fold_40_72 -> In b (tg_batch_sets tg) -> ~ In i b).
Proof.
  assert (Hrows : take (df_values (train_labels Demo.train)) Demo.fold_40_72
                  = Ok Demo.fold_rows) by (vm_compute; reflexivity).
  assert (Hfold : forall j, In j Demo.fold_40_72 -> (40 <= j <= 72)%Z).
  { intros j Hj. unfold Demo.fold_40_72 in Hj.
    apply in_map_iff in Hj as (k & <- & Hk). apply in_seq in Hk. lia. }
  destruct (TrainGenerator_init_total _ IterativeStratification Demo.train
              Demo.fold_40_72 batch_size augment g Demo.fold_rows)
    as (tg & g' & Hinit); [reflexivity | exact Hrows | reflexivity |].
  exists tg, g'. split; [exact Hinit|].
  apply TrainGenerator_init_inv in Hinit as (_ & _ & _ & Hset & _ & _ & Hpos).
  change (Z.of_nat (length Demo.fold_40_72)) with 33%Z in Hpos.
  split; [exact Hset|]. split.
  - intros b j Hb Hj. specialize (Hpos b Hb j Hj).
    split; [exact Hpos|]. intros Hin. apply Hfold in Hin. lia.
  - intros i b Hi Hb Hin. specialize (Hpos b Hb i Hin). apply Hfold in Hi. lia.
Qed.

(** C4 -- [Train.train_test_split] builds the train generator and the
    validation generator from the same array [train_set], the training
    part of the first stratified fold; no index of the held-out part
    [val_set] is in the validation generator's index array. *)
Theorem train_test_split_reuses_train_set
    {rng : Type} (IterativeStratification : list (list Z) -> Z -> rng -> (nat -> Z) * rng)
    {float : Type} (int_inv_one_minus : float -> result Z)
    (self : Train) (train_portion : float) (batch_size : Z) (g : rng)
    (train_generator val_generator : TrainGenerator) (g3 : rng)
    (Hsplit : train_test_split IterativeStratification int_inv_one_minus self
                train_portion batch_size g
              = Ok (train_generator, val_generator, g3)) :
  exists train_set val_set g1 g2,
    first_fold IterativeStratification int_inv_one_minus self train_portion g
      = Ok (train_set, val_set, g1) /\
    TrainGenerator_init IterativeStratification self train_set batch_size false g1
      = Ok (train_generator, g2) /\
    TrainGenerator_init IterativeStratification self train_set batch_size false g2
      = Ok (val_generator, g3) /\
    tg_train_set train_generator = train_set /\
    tg_train_set val_generator = train_set /\
    forall i, In i val_set -> ~ In i (tg_train_set val_generator).
Proof.
  unfold train_test_split in Hsplit.
  inv_bind Hsplit. destruct a as [[train_set val_set] g1]. cbn beta iota in Hsplit.
  inv_bind Hsplit. destruct a as [tg g2]. cbn beta iota in Hsplit.
  inv_bind Hsplit. destruct a as [vg g3']. cbn beta iota in Hsplit.
  injection Hsplit as <- <- <-.
  exists train_set, val_set, g1, g2.
  pose proof (TrainGenerator_init_inv _ _ _ _ _ _ _ _ _ Ha0) as (_ & _ & _ & Ht & _).
  pose proof (TrainGenerator_init_inv _ _ _ _ _ _ _ _ _ Ha1) as (_ & _ & _ & Hv & _).
  repeat (split; [assumption|]).
  rewrite Hv. eapply first_fold_inv; eauto.
Qed.

Lemma train_test_split_reuses_train_set_witness :
  exists tg vg,
    train_test_split Demo.round_robin Demo.int_inv_one_minus Demo.train (1 # 2) 32 tt
      = Ok (tg, vg, tt) /\
    exists train_set val_set g1 g2,
      first_fold Demo.round_robin Demo.int_inv_one_minus Demo.train (1 # 2) tt
        = Ok (train_set, val_set, g1) /\
      TrainGenerator_init Demo.round_robin Demo.train train_set 32 false g1
        = Ok (tg, g2) /\
      TrainGenerator_init Demo.round_robin Demo.train train_set 32 false g2
        = Ok (vg, tt) /\
      tg_train_set tg = train_set /\
      tg_train_set vg = train_set /\
      forall i, In i val_set -> ~ In i (tg_train_set vg).
Proof.
  eexists. eexists. split; [vm_compute; reflexivity|].
  apply (train_test_split_reuses_train_set Demo.round_robin Demo.int_inv_one_minus
           Demo.train (1 # 2) 32 tt).
  vm_compute. reflexivity.
Defined.

(** C6 (as stated) fails: a negative index counts from the end.  The test
    generator of two batches answers [get(-1)], an index outside [0, 2),
    with its last batch instead of raising. *)
Lemma getitem_accepts_negative_index :
  TestGenerator_init Demo.test 1 = Ok Demo.test_generator /\
  TestGenerator_len Demo.test 1 = Ok 2%Z /\
  TestGenerator_getitem Demo.Image_open Demo.test_generator (-1)
    = TestGenerator_getitem Demo.Image_open Demo.test_generator 1 /\
  is_ok (TestGenerator_getitem Demo.Image_open Demo.test_generator (-1)) = true.
Proof.
  split; [reflexivity|]. split; [reflexivity|]. split; [reflexivity|].
  vm_compute. reflexivity.
Qed.

(** C6 (amended) -- For a batch sequence (Train or Test generator) of
    length L, [get(i)] fails with IndexError for every i >= L and every
    i < -L; an index with -L <= i < 0 is read from the end, as L + i. *)
Theorem getitem_out_of_range
    (Image_open : string -> result band)
    (train_generator : TrainGenerator)
    (test : Test) (batch_size : Z) (test_generator : TestGenerator)
    (L i : Z)
    (Hbuilt : TestGenerator_init test batch_size = Ok test_generator)
    (Hlen : TestGenerator_len test batch_size = Ok L) :
  ((i < - TrainGenerator_len train_generator \/ TrainGenerator_len train_generator <= i)%Z ->
     TrainGenerator_getitem Image_open train_generator i = Raise IndexError) /\
  ((- TrainGenerator_len train_generator <= i < 0)%Z ->
     TrainGenerator_getitem Image_open train_generator i
     = TrainGenerator_getitem Image_open train_generator
         (i + TrainGenerator_len train_generator)) /\
  ((i < - L \/ L <= i)%Z ->
     TestGenerator_getitem Image_open test_generator i = Raise IndexError) /\
  ((- L <= i < 0)%Z ->
     TestGenerator_getitem Image_open test_generator i
     = TestGenerator_getitem Image_open test_generator (i + L)).
Proof.
  apply TestGenerator_init_inv in Hbuilt as (_ & _ & Hlen').
  rewrite Hlen in Hlen'. injection Hlen' as ->.
  unfold TrainGenerator_getitem, TestGenerator_getitem, TrainGenerator_len.
  repeat split; intros Hi.
  - rewrite py_index_out_of_range by exact Hi. reflexivity.
  - rewrite py_index_negative by exact Hi. reflexivity.
  - rewrite py_index_out_of_range by exact Hi. reflexivity.
  - rewrite py_index_negative by exact Hi. reflexivity.
Qed.

Lemma getitem_out_of_range_witness :
  ((2 < - TrainGenerator_len Demo.train_generator \/
    TrainGenerator_len Demo.train_generator <= 2)%Z ->
     TrainGenerator_getitem Demo.Image_open Demo.train_generator 2 = Raise IndexError) /\
  ((- TrainGenerator_len Demo.train_generator <= 2 < 0)%Z ->
     TrainGenerator_getitem Demo.Image_open Demo.train_generator 2
     = TrainGenerator_getitem Demo.Image_open Demo.train_generator
         (2 + TrainGenerator_len Demo.train_generator)) /\
  ((2 < - 2 \/ 2 <= 2)%Z ->
     TestGenerator_getitem Demo.Image_open Demo.test_generator 2 = Raise IndexError) /\
  ((- 2 <= 2 < 0)%Z ->
     TestGenerator_getitem Demo.Image_open Demo.test_generator 2
     = TestGenerator_getitem Demo.Image_open Demo.test_generator (2 + 2)).
Proof.
  apply (getitem_out_of_range Demo.Image_open Demo.train_generator
           Demo.test 1 Demo.test_generator 2 2).
  - reflexivity.
  - reflexivity.
Defined.

(** The concrete generators above are the ones the constructors build. *)
Lemma Demo_train_generator_built :
  TrainGenerator_init Demo.round_robin Demo.train Demo.fold_40_72 7 false tt
  = Ok (Demo.train_generator, tt).
Proof. vm_compute. reflexivity. Qed.

Lemma Demo_train_built : Train_init Demo.to_double "train" Demo.csv = Ok Demo.train.
Proof. vm_compute. reflexivity. Qed.

(* ===================================================================== *)
(** * Further properties of the module *)
(* ===================================================================== *)

(** ** [any]: the mask is a row-wise test on resolved column positions *)

Lemma any_axis1_select (values : list (list Z)) (ps : list nat) :
  any_axis1 (eq_1 (select_columns values ps)) = map (row_has_one_at ps) values.
Proof.
  unfold any_axis1, eq_1, select_columns, row_has_one_at. rewrite !map_map.
  apply map_ext. intros row.
  induction ps as [|j ps IH]; simpl; [reflexivity|]. rewrite IH. reflexivity.
Qed.

Lemma loc_columns_inv (df : DataFrame) (names : list string) sel :
  loc_columns df names = Ok sel ->
  exists ps,
    sel = select_columns (df_values df) ps /\
    forall df', df_columns df' = df_columns df ->
      loc_columns df' names = Ok (select_columns (df_values df') ps).
Proof.
  unfold loc_columns. intros H. inv_bind H. rename a into pos.
  injection H as <-. exists (concat pos). split; [reflexivity|].
  intros df' Hc. rewrite Hc, Ha. reflexivity.
Qed.

Lemma iloc_columns_inv (df : DataFrame) (key : pyobj) sel :
  iloc_columns df key = Ok sel ->
  exists ps,
    sel = select_columns (df_values df) ps /\
    forall df', df_columns df' = df_columns df ->
      iloc_columns df' key = Ok (select_columns (df_values df') ps).
Proof.
  unfold iloc_columns. intros H.
  destruct key as [ | b | z | q | s | l | l | names ]; try discriminate.
  - inv_bind H. injection H as <-. exists [a]. split; [reflexivity|].
    intros df' Hc. rewrite Hc, Ha. reflexivity.
  - destruct (negb (Nat.eqb (length l) 0) && forallb is_pybool l).
    + destruct (Nat.eqb (length l) (length (df_columns df))) eqn:E; [|discriminate].
      injection H as <-. eexists. split; [reflexivity|].
      intros df' Hc. rewrite Hc, E. reflexivity.
    + destruct (existsb is_sequence l); [discriminate|].
      destruct (negb (forallb is_number l)); [discriminate|].
      inv_bind H. injection H as <-. exists a. split; [reflexivity|].
      intros df' Hc. rewrite Hc, Ha. reflexivity.
Qed.

(** Whatever selector [any] accepts, its result is the frame filtered by a
    row test on fixed column positions, and the positions depend on the
    frame's column labels only. *)
Lemma any_inv (labels : DataFrame) (class_ : pyobj) (df : DataFrame) :
  any labels class_ = Ok df ->
  exists ps,
    df = loc_rows labels (map (row_has_one_at ps) (df_values labels)) /\
    forall labels', df_columns labels' = df_columns labels ->
      any labels' class_
      = Ok (loc_rows labels' (map (row_has_one_at ps) (df_values labels'))).
Proof.
  unfold any. intros H. inv_bind H. rename a into mask. injection H as <-.
  assert (Hsel : forall (get : DataFrame -> result (list (list Z))),
             (sel <- get labels ;; Ok (any_axis1 (eq_1 sel))) = Ok mask ->
             (forall sel, get labels = Ok sel ->
                exists ps, sel = select_columns (df_values labels) ps /\
                  forall df', df_columns df' = df_columns labels ->
                    get df' = Ok (select_columns (df_values df') ps)) ->
             exists ps,
               mask = map (row_has_one_at ps) (df_values labels) /\
               forall labels', df_columns labels' = df_columns labels ->
                 (sel <- get labels' ;; Ok (any_axis1 (eq_1 sel)))
                 = Ok (map (row_has_one_at ps) (df_values labels'))).
  { intros get Hm Hget. inv_bind Hm. injection Hm as <-.
    destruct (Hget _ Ha0) as (ps & -> & Hother).
    exists ps. split; [apply any_axis1_select|].
    intros labels' Hc. rewrite (Hother _ Hc). cbn [bind].
    rewrite any_axis1_select. reflexivity. }
  destruct class_ as [ | b | z | q | s | l | l | names ];
    cbn beta iota in Ha; try discriminate Ha.
  - destruct (Hsel (fun d => iloc_columns d (PyInt z)) Ha) as (ps & -> & Hother).
    { intros sel. apply iloc_columns_inv. }
    exists ps. split; [reflexivity|].
    intros labels' Hc. rewrite (Hother _ Hc). reflexivity.
  - destruct (Hsel (fun d => loc_columns d [s]) Ha) as (ps & -> & Hother).
    { intros sel. apply loc_columns_inv. }
    exists ps. split; [reflexivity|].
    intros labels' Hc. rewrite (Hother _ Hc). reflexivity.
  - inv_bind Ha. rename a into first.
    destruct (isinstance_int first) eqn:Hfirst; [|discriminate].
    destruct (Hsel (fun d => iloc_columns d (PyList l)) Ha) as (ps & -> & Hother).
    { intros sel. apply iloc_columns_inv. }
    exists ps. split; [reflexivity|].
    intros labels' Hc. rewrite Ha0. cbn [bind]. rewrite Hfirst.
    rewrite (Hother _ Hc). reflexivity.
  - destruct (Hsel (fun d => loc_columns d names) Ha) as (ps & -> & Hother).
    { intros sel. apply loc_columns_inv. }
    exists ps. split; [reflexivity|].
    intros labels' Hc. rewrite (Hother _ Hc). reflexivity.
Qed.

Lemma filter_by_mask_twice {A B} (f : B -> bool) (vals : list B) :
  forall idx : list A,
    filter_by_mask (filter_by_mask idx (map f vals))
                   (map f (filter_by_mask vals (map f vals)))
    = filter_by_mask idx (map f vals).
Proof.
  induction vals as [|v vals IH]; intros idx.
  - destruct idx; reflexivity.
  - destruct idx as [|i idx]; [reflexivity|].
    cbn [map filter_by_mask]. destruct (f v) eqn:Hv.
    + cbn [map filter_by_mask]. rewrite Hv, IH. reflexivity.
    + apply IH.
Qed.

Lemma filter_by_mask_sub {A} (l : list A) (mask : list bool) (a : A) :
  In a (filter_by_mask l mask) -> In a l.
Proof.
  intros H. apply filter_by_mask_In in H as (j & Hj & _).
  eapply nth_error_In; eauto.
Qed.

(** X1 -- Filtering is stable.  When [any] returns a frame, the frame has
    the columns of the label table, its rows and ids are rows and ids of
    the table, and applying [any] with the same selector to the result
    returns the result unchanged. *)
Theorem any_is_idempotent
    (labels : DataFrame) (class_ : pyobj) (df : DataFrame)
    (Hany : any labels class_ = Ok df) :
  df_columns df = df_columns labels /\
  (forall row, In row (df_values df) -> In row (df_values labels)) /\
  (forall id_, In id_ (df_index df) -> In id_ (df_index labels)) /\
  any df class_ = Ok df.
Proof.
  destruct (any_inv _ _ _ Hany) as (ps & -> & Hother).
  cbn [loc_rows df_columns df_values df_index].
  split; [reflexivity|].
  split; [intros row; apply filter_by_mask_sub|].
  split; [intros id_; apply filter_by_mask_sub|].
  rewrite Hother by reflexivity.
  unfold loc_rows. cbn [df_columns df_values df_index].
  rewrite !filter_by_mask_twice. reflexivity.
Qed.

Lemma any_is_idempotent_witness :
  df_columns (rows_with_one_at 0 Demo.labels) = df_columns Demo.labels /\
  (forall row, In row (df_values (rows_with_one_at 0 Demo.labels)) ->
               In row (df_values Demo.labels)) /\
  (forall id_, In id_ (df_index (rows_with_one_at 0 Demo.labels)) ->
               In id_ (df_index Demo.labels)) /\
  any (rows_with_one_at 0 Demo.labels) (PyInt 0) = Ok (rows_with_one_at 0 Demo.labels).
Proof.
  apply (any_is_idempotent Demo.labels (PyInt 0) (rows_with_one_at 0 Demo.labels)).
  vm_compute. reflexivity.
Defined.

Lemma iloc_position_mod (ncol : nat) (i : Z) :
  (- Z.of_nat ncol <= i < Z.of_nat ncol)%Z ->
  iloc_position ncol i = Ok (Z.to_nat (i mod Z.of_nat ncol)).
Proof.
  intros H. unfold iloc_position.
  replace (- Z.of_nat ncol <=? i)%Z with true by (symmetry; apply Z.leb_le; lia).
  replace (i <? Z.of_nat ncol)%Z with true by (symmetry; apply Z.ltb_lt; lia).
  cbn [andb]. do 2 f_equal.
  destruct (i <? 0)%Z eqn:Hneg.
  - apply Z.ltb_lt in Hneg.
    rewrite <- (Z.mod_small (i + Z.of_nat ncol) (Z.of_nat ncol)) by lia.
    rewrite <- (Z_mod_plus_full i 1 (Z.of_nat ncol)). f_equal. lia.
  - apply Z.ltb_ge in Hneg. symmetry. apply Z.mod_small. lia.
Qed.

Lemma iloc_position_Raise (ncol : nat) (i : Z) (e : exn) :
  iloc_position ncol i = Raise e -> e = IndexError.
Proof.
  unfold iloc_position. destruct (_ && _); [discriminate | congruence].
Qed.

Lemma mapM_map_Ok {A B C} (f : B -> result C) (g : A -> B) (h : A -> C) (l : list A) :
  (forall a, In a l -> f (g a) = Ok (h a)) -> mapM f (map g l) = Ok (map h l).
Proof.
  induction l as [|a l IH]; intros H; [reflexivity|].
  cbn [map mapM]. rewrite (H a (or_introl eq_refl)). cbn [bind].
  rewrite IH by (intros; apply H; right; assumption). reflexivity.
Qed.

(** A list of ints given to [iloc] selects the columns at their
    positions. *)
Lemma Qle_bool_inject_Z (a b : Z) : Qle_bool (inject_Z a) (inject_Z b) = (a <=? b)%Z.
Proof.
  unfold Qle_bool, inject_Z. cbn [Qnum Qden]. rewrite !Z.mul_1_r. reflexivity.
Qed.

Lemma iloc_list_position_int (ncol : nat) (i : Z) :
  iloc_list_position ncol (inject_Z i) = iloc_position ncol i.
Proof.
  unfold iloc_list_position, iloc_position, truncate.
  rewrite !Qle_bool_inject_Z, <- Z.ltb_antisym.
  cbn [inject_Z Qnum Qden]. rewrite Z.quot_1_r. reflexivity.
Qed.

Lemma iloc_columns_ints (df : DataFrame) (i : Z) (l : list Z) :
  iloc_columns df (PyList (map PyInt (i :: l)))
  = (ps <- mapM (iloc_position (length (df_columns df))) (i :: l) ;;
     Ok (select_columns (df_values df) ps)).
Proof.
  unfold iloc_columns.
  assert (Hseq : forall xs, existsb is_sequence (map PyInt xs) = false).
  { induction xs as [|x xs IH]; [reflexivity | exact IH]. }
  assert (Hnum : forall xs, forallb is_number (map PyInt xs) = true).
  { induction xs as [|x xs IH]; [reflexivity | exact IH]. }
  assert (Hpos : forall xs,
            mapM (fun v => iloc_list_position (length (df_columns df))
                             (number_value v)) (map PyInt xs)
            = mapM (iloc_position (length (df_columns df))) xs).
  { induction xs as [|x xs IH]; [reflexivity|].
    cbn [map mapM number_value]. rewrite iloc_list_position_int, IH. reflexivity. }
  rewrite Hseq, Hnum, Hpos.
  cbn [map forallb is_pybool andb negb]. rewrite andb_false_r. reflexivity.
Qed.

Lemma py_index_head {A} (a : A) (l : list A) : py_index (a :: l) 0 = Ok a.
Proof.
  unfold py_index. cbn [length]. rewrite Nat2Z.inj_succ.
  replace (0 <? 0)%Z with false by reflexivity.
  replace (0 <=? 0)%Z with true by reflexivity.
  replace (0 <? Z.succ (Z.of_nat (length l)))%Z with true
    by (symmetry; apply Z.ltb_lt; lia).
  reflexivity.
Qed.

Lemma mapM_ext_Ok {A B} (f : A -> result B) (h : A -> B) (l : list A) :
  (forall a, In a l -> f a = Ok (h a)) -> mapM f l = Ok (map h l).
Proof.
  intros H. rewrite <- (map_id l) at 1. apply mapM_map_Ok. exact H.
Qed.

(** X2 -- Positional selectors are a boolean OR over columns.  For a
    non-empty list of column positions, each between -ncols and ncols-1
    (negative ones counted from the last column), [any] returns the rows
    of the table that hold a 1 in at least one of the selected columns:
    all of them and no other, in the order of the table, each with its
    index label, under the columns of the table.  A single int selects
    like the one-element list. *)
Theorem any_positions_is_union
    (labels : DataFrame) (positions : list Z) (i0 : Z)
    (Hrange : forall i, In i (i0 :: positions) ->
                (- Z.of_nat (length (df_columns labels)) <= i
                 < Z.of_nat (length (df_columns labels)))%Z) :
  let column i := Z.to_nat (i mod Z.of_nat (length (df_columns labels))) in
  let keep := row_has_one_at (map column (i0 :: positions)) in
  exists df,
    any labels (PyList (map PyInt (i0 :: positions))) = Ok df /\
    df_columns df = df_columns labels /\
    df_values df = filter keep (df_values labels) /\
    df_index df
    = map fst (filter (fun r => keep (snd r))
                      (combine (df_index labels) (df_values labels))) /\
    any labels (PyInt i0) = any labels (PyList [PyInt i0]).
Proof.
  intros column keep.
  assert (Hlist : forall i l, (forall x, In x (i :: l) -> In x (i0 :: positions)) ->
            any labels (PyList (map PyInt (i :: l)))
            = Ok (rows_where (row_has_one_at (map column (i :: l))) labels)).
  { intros i l Hsub.
    unfold any. cbn [map]. rewrite py_index_head.
    cbn [bind isinstance_int].
    change (PyInt i :: map PyInt l) with (map PyInt (i :: l)).
    rewrite iloc_columns_ints.
    rewrite (mapM_ext_Ok _ column (i :: l)).
    - cbn [bind]. rewrite any_axis1_select. apply f_equal, loc_rows_rows_where.
    - intros a Ha. apply iloc_position_mod. apply Hrange, Hsub, Ha. }
  exists (rows_where keep labels).
  split; [apply Hlist; auto|].
  split; [reflexivity|]. split; [reflexivity|]. split; [reflexivity|].
  change [PyInt i0] with (map PyInt [i0]).
  rewrite (Hlist i0 []) by (intros x [<-|[]]; left; reflexivity).
  unfold any, iloc_columns.
  rewrite iloc_position_mod by (apply Hrange; left; reflexivity).
  cbn [bind]. rewrite any_axis1_select. apply f_equal, loc_rows_rows_where.
Qed.

Lemma any_positions_is_union_witness :
  let column i := Z.to_nat (i mod Z.of_nat (length (df_columns Demo.labels))) in
  let keep := row_has_one_at (map column [-1; 5]%Z) in
  exists df,
    any Demo.labels (PyList (map PyInt [-1; 5]%Z)) = Ok df /\
    df_columns df = df_columns Demo.labels /\
    df_values df = filter keep (df_values Demo.labels) /\
    df_index df
    = map fst (filter (fun r => keep (snd r))
                      (combine (df_index Demo.labels) (df_values Demo.labels))) /\
    any Demo.labels (PyInt (-1)) = any Demo.labels (PyList [PyInt (-1)]).
Proof.
  apply (any_positions_is_union Demo.labels [5%Z] (-1)%Z).
  intros i [<- | [<- | []]]; vm_compute; split; congruence.
Defined.

(** X3 -- A position outside the table raises.  When some position of a
    non-empty list is below -ncols or above ncols-1, [any] raises
    IndexError, and so does [any] of that position alone. *)
Theorem any_position_out_of_range
    (labels : DataFrame) (positions : list Z) (i0 bad : Z)
    (Hin : In bad (i0 :: positions))
    (Hbad : (bad < - Z.of_nat (length (df_columns labels)) \/
             Z.of_nat (length (df_columns labels)) <= bad)%Z) :
  any labels (PyList (map PyInt (i0 :: positions))) = Raise IndexError /\
  any labels (PyInt bad) = Raise IndexError.
Proof.
  assert (Hraise : iloc_position (length (df_columns labels)) bad = Raise IndexError).
  { unfold iloc_position.
    destruct (- Z.of_nat (length (df_columns labels)) <=? bad)%Z eqn:H1;
      destruct (bad <? Z.of_nat (length (df_columns labels)))%Z eqn:H2;
      cbn [andb]; try reflexivity.
    apply Z.leb_le in H1. apply Z.ltb_lt in H2. lia. }
  split.
  - unfold any. cbn [map]. rewrite py_index_head.
    cbn [bind isinstance_int].
    change (PyInt i0 :: map PyInt positions) with (map PyInt (i0 :: positions)).
    rewrite iloc_columns_ints.
    destruct (mapM_Raise_somewhere (iloc_position (length (df_columns labels)))
                (i0 :: positions) bad IndexError Hin Hraise) as [e He].
    rewrite He. cbn [bind].
    apply mapM_Raise_source in He as (v & _ & Hv).
    apply iloc_position_Raise in Hv. subst. reflexivity.
  - unfold any, iloc_columns. rewrite Hraise. reflexivity.
Qed.

Lemma any_position_out_of_range_witness :
  any Demo.labels (PyList (map PyInt [0; 28]%Z)) = Raise IndexError /\
  any Demo.labels (PyInt 28) = Raise IndexError.
Proof.
  apply (any_position_out_of_range Demo.labels [28%Z] 0%Z 28%Z).
  - right. left. reflexivity.
  - right. vm_compute. discriminate.
Defined.

Lemma positions_of_absent (name : string) (columns : list string) (from : nat) :
  ~ In name columns -> positions_of name columns from = [].
Proof.
  revert from; induction columns as [|c cs IH]; intros from H; [reflexivity|].
  cbn [positions_of]. destruct (String.eqb_spec c name) as [->|Hne].
  - exfalso. apply H. left. reflexivity.
  - apply IH. intros Hin. apply H. right. exact Hin.
Qed.

(** X4 -- A class may be named or numbered.  On a table whose columns are
    the 28 class names, selecting the j-th class by its name, by its
    position or by a one-label Index gives the same frame: the rows of the
    table with a 1 in column j, all of them and no other, in the order of
    the table, each with its index label, under the columns of the
    table. *)
Theorem any_by_name_is_any_by_position
    (labels : DataFrame) (j : nat)
    (Hcols : df_columns labels = classes)
    (Hj : (j < n_classes)%nat) :
  exists df,
    any labels (PyStr (nth j classes "")) = Ok df /\
    any labels (PyInt (Z.of_nat j)) = Ok df /\
    any labels (PdIndex [nth j classes ""]) = Ok df /\
    df_columns df = df_columns labels /\
    df_values df = filter (fun row => (nth j row 0 =? 1)%Z) (df_values labels) /\
    df_index df
    = map fst (filter (fun r => (nth j (snd r) 0 =? 1)%Z)
                      (combine (df_index labels) (df_values labels))).
Proof.
  assert (Hpos : positions_of (nth j classes "") classes 0 = [j]).
  { unfold n_classes in Hj.
    do 28 (destruct j as [|j]; [reflexivity|]).
    simpl in Hj. lia. }
  assert (Hname : loc_columns labels [nth j classes ""]
                  = Ok (select_columns (df_values labels) [j])).
  { unfold loc_columns. rewrite Hcols. cbn [mapM]. rewrite Hpos. reflexivity. }
  exists (rows_with_one_at j labels).
  split; [|split; [|split; [|repeat split]]].
  - unfold any. rewrite Hname. cbn [bind]. rewrite any_axis1_single.
    apply f_equal, loc_rows_rows_where.
  - unfold any, iloc_columns. rewrite Hcols.
    rewrite iloc_position_mod
      by (change (length classes) with n_classes; lia).
    cbn [bind]. rewrite any_axis1_single.
    rewrite Z.mod_small by (change (length classes) with n_classes; lia).
    rewrite Nat2Z.id. apply f_equal, loc_rows_rows_where.
  - unfold any. rewrite Hname. cbn [bind]. rewrite any_axis1_single.
    apply f_equal, loc_rows_rows_where.
Qed.

Lemma any_by_name_is_any_by_position_witness :
  exists df,
    any Demo.labels (PyStr (nth 23 classes "")) = Ok df /\
    any Demo.labels (PyInt (Z.of_nat 23)) = Ok df /\
    any Demo.labels (PdIndex [nth 23 classes ""]) = Ok df /\
    df_columns df = df_columns Demo.labels /\
    df_values df = filter (fun row => (nth 23 row 0 =? 1)%Z) (df_values Demo.labels) /\
    df_index df
    = map fst (filter (fun r => (nth 23 (snd r) 0 =? 1)%Z)
                      (combine (df_index Demo.labels) (df_values Demo.labels))).
Proof.
  apply (any_by_name_is_any_by_position Demo.labels 23).
  - reflexivity.
  - unfold n_classes. simpl. lia.
Defined.

(** X5 -- An unknown class name raises.  A string, or a pandas Index of
    one label, that names no column of the table makes [any] raise
    KeyError. *)
Theorem any_unknown_name_raises
    (labels : DataFrame) (name : string)
    (Hunknown : ~ In name (df_columns labels)) :
  any labels (PyStr name) = Raise KeyError /\
  any labels (PdIndex [name]) = Raise KeyError.
Proof.
  unfold any, loc_columns. cbn [mapM].
  rewrite (positions_of_absent _ _ _ Hunknown). split; reflexivity.
Qed.

Lemma any_unknown_name_raises_witness :
  any Demo.labels (PyStr "Nucleus") = Raise KeyError /\
  any Demo.labels (PdIndex ["Nucleus"]) = Raise KeyError.
Proof.
  apply (any_unknown_name_raises Demo.labels "Nucleus").
  vm_compute. intuition discriminate.
Defined.

(** ** Image files *)

Lemma append_inv_head (s t1 t2 : string) : s ++ t1 = s ++ t2 -> t1 = t2.
Proof.
  induction s as [|c s IH]; simpl; intros H; [exact H|].
  injection H as H. auto.
Qed.

Lemma list_ascii_of_string_append (s t : string) :
  list_ascii_of_string (s ++ t)
  = (list_ascii_of_string s ++ list_ascii_of_string t)%list.
Proof.
  induction s as [|c s IH]; simpl; [reflexivity|]. rewrite IH. reflexivity.
Qed.

Lemma list_ascii_of_string_inj (s t : string) :
  list_ascii_of_string s = list_ascii_of_string t -> s = t.
Proof.
  intros H. rewrite <- (string_of_list_ascii_of_string s),
                    <- (string_of_list_ascii_of_string t), H. reflexivity.
Qed.

Lemma string_app_assoc (s t u : string) : (s ++ t) ++ u = s ++ t ++ u.
Proof.
  induction s as [|c s IH]; simpl; [reflexivity | rewrite IH; reflexivity].
Qed.

Lemma no_slash_append (s t : string) :
  no_slash s = true -> no_slash t = true -> no_slash (s ++ t) = true.
Proof.
  unfold no_slash. rewrite list_ascii_of_string_append, forallb_app.
  intros -> ->. reflexivity.
Qed.

(** A name without a slash is one component, and has no root. *)
Lemma split_slash_no_slash (s : string) : no_slash s = true -> split_slash s = [s].
Proof.
  unfold no_slash. induction s as [|c s IH]; [reflexivity|].
  cbn [list_ascii_of_string forallb split_slash].
  intros H. apply andb_true_iff in H as [Hc Hs].
  apply negb_true_iff in Hc. rewrite Hc, (IH Hs). reflexivity.
Qed.

Lemma parse_root_no_slash (s : string) : no_slash s = true -> parse_root s = "".
Proof.
  destruct s as [|c s]; [reflexivity|].
  unfold no_slash. cbn [list_ascii_of_string forallb].
  intros H. apply andb_true_iff in H as [Hc _].
  apply negb_true_iff in Hc.
  destruct (Ascii.eqb_spec c "/") as [-> | Hne]; [discriminate|].
  unfold parse_root.
  destruct c as [[] [] [] [] [] [] [] []]; try reflexivity.
  exfalso. apply Hne. reflexivity.
Qed.

Lemma join_slash_last (parts : list string) (name : string) :
  join_slash (parts ++ [name]) = dir_prefix parts ++ name.
Proof.
  induction parts as [|part parts IH]; [reflexivity|].
  cbn [app join_slash dir_prefix]. rewrite IH.
  destruct (parts ++ [name])%list eqn:E.
  - destruct parts; discriminate E.
  - rewrite !string_app_assoc. reflexivity.
Qed.

(** [joinpath] puts a file named by one component into the directory. *)
Lemma joinpath_file (base name : string) :
  no_slash name = true -> name <> "" -> name <> "." ->
  joinpath base name = directory base ++ name.
Proof.
  intros Hs Hne Hdot. unfold joinpath, directory, Path.
  cbn [path_root path_parts].
  rewrite (parse_root_no_slash _ Hs).
  unfold parse_parts at 2. rewrite (split_slash_no_slash _ Hs).
  cbn [filter].
  destruct (String.eqb_spec name "") as [|_]; [contradiction|].
  destruct (String.eqb_spec name ".") as [|_]; [contradiction|].
  cbn [orb negb]. unfold path_str. cbn [path_root path_parts].
  destruct (parse_parts base ++ [name])%list eqn:E.
  - destruct (parse_parts base); discriminate E.
  - rewrite <- E, join_slash_last, string_app_assoc. reflexivity.
Qed.

Lemma channel_file_name (id_ colour : string) :
  no_slash id_ = true -> In colour channel_colors ->
  no_slash (id_ ++ "_" ++ colour ++ ".png") = true /\
  id_ ++ "_" ++ colour ++ ".png" <> "" /\
  id_ ++ "_" ++ colour ++ ".png" <> ".".
Proof.
  intros Hid Hc. split; [|split].
  - apply no_slash_append; [exact Hid|].
    simpl in Hc. destruct Hc as [<-|[<-|[<-|[<-|[]]]]]; reflexivity.
  - destruct id_; discriminate.
  - destruct id_ as [|c [|c' id_]]; simpl; discriminate.
Qed.

(** The file name of a sample's channel ends with the colour's suffix, and
    the four suffixes differ in their fifth character from the end. *)
Lemma channel_file_inj (id1 id2 c1 c2 : string) :
  In c1 channel_colors -> In c2 channel_colors ->
  id1 ++ "_" ++ c1 ++ ".png" = id2 ++ "_" ++ c2 ++ ".png" ->
  id1 = id2 /\ c1 = c2.
Proof.
  intros H1 H2 H.
  apply (f_equal list_ascii_of_string) in H.
  rewrite !list_ascii_of_string_append in H.
  apply (f_equal (@rev ascii)) in H.
  rewrite !rev_app_distr in H.
  assert (Hid : rev (list_ascii_of_string id1) = rev (list_ascii_of_string id2)
                -> id1 = id2).
  { intros E. apply list_ascii_of_string_inj.
    rewrite <- (rev_involutive (list_ascii_of_string id1)), E.
    apply rev_involutive. }
  simpl in H1, H2.
  destruct H1 as [<-|[<-|[<-|[<-|[]]]]]; destruct H2 as [<-|[<-|[<-|[<-|[]]]]];
    simpl in H; try discriminate H;
    (split; [apply Hid; congruence | reflexivity]).
Qed.

(** X6 -- No two channel files share a path.  For sample ids that hold no
    slash and channel numbers 0..3, [get_path] returns the directory,
    as pathlib writes it, followed by [<id>_<colour>.png], and equal paths
    mean the same sample and the same channel. *)
Theorem get_path_is_injective
    (img_path id1 id2 : string) (ch1 ch2 : Z) (path : string)
    (Hch1 : (0 <= ch1 < 4)%Z) (Hch2 : (0 <= ch2 < 4)%Z)
    (Hid1 : no_slash id1 = true) (Hid2 : no_slash id2 = true)
    (Hp1 : get_path img_path id1 ch1 = Ok path)
    (Hp2 : get_path img_path id2 ch2 = Ok path) :
  id1 = id2 /\ ch1 = ch2 /\
  path = directory img_path ++ id1 ++ "_"
         ++ nth (Z.to_nat ch1) channel_colors "" ++ ".png".
Proof.
  assert (Hnth : forall ch, (0 <= ch < 4)%Z ->
            In (nth (Z.to_nat ch) channel_colors "") channel_colors).
  { intros ch Hch. apply nth_In. simpl. lia. }
  assert (Hget : forall id_ ch, (0 <= ch < 4)%Z -> no_slash id_ = true ->
            get_path img_path id_ ch
            = Ok (directory img_path ++ id_ ++ "_"
                  ++ nth (Z.to_nat ch) channel_colors "" ++ ".png")).
  { intros id_ ch Hch Hid. unfold get_path.
    assert (Hcol : py_index channel_colors ch
                   = Ok (nth (Z.to_nat ch) channel_colors "")).
    { assert (Hc : (ch = 0 \/ ch = 1 \/ ch = 2 \/ ch = 3)%Z) by lia.
      destruct Hc as [-> | [-> | [-> | ->]]]; reflexivity. }
    rewrite Hcol. cbn [bind].
    destruct (channel_file_name id_ _ Hid (Hnth ch Hch)) as (Hs & Hne & Hdot).
    rewrite (joinpath_file _ _ Hs Hne Hdot). reflexivity. }
  rewrite (Hget id1 ch1 Hch1 Hid1) in Hp1.
  rewrite (Hget id2 ch2 Hch2 Hid2) in Hp2.
  injection Hp1 as Hp1. injection Hp2 as Hp2.
  assert (Heq : id1 ++ "_" ++ nth (Z.to_nat ch1) channel_colors "" ++ ".png"
                = id2 ++ "_" ++ nth (Z.to_nat ch2) channel_colors "" ++ ".png").
  { apply (append_inv_head (directory img_path)).
    transitivity path; [exact Hp1 | symmetry; exact Hp2]. }
  destruct (channel_file_inj _ _ _ _ (Hnth _ Hch1) (Hnth _ Hch2) Heq) as [Hid Hcol].
  split; [exact Hid|]. split; [|symmetry; exact Hp1].
  assert (Hc1 : (ch1 = 0 \/ ch1 = 1 \/ ch1 = 2 \/ ch1 = 3)%Z) by lia.
  assert (Hc2 : (ch2 = 0 \/ ch2 = 1 \/ ch2 = 2 \/ ch2 = 3)%Z) by lia.
  destruct Hc1 as [-> | [-> | [-> | ->]]]; destruct Hc2 as [-> | [-> | [-> | ->]]];
    try reflexivity; simpl in Hcol; discriminate Hcol.
Qed.

Lemma get_path_is_injective_witness :
  "s1" = "s1" /\ 2%Z = 2%Z /\
  "train/s1_blue.png"
  = directory "./train//" ++ "s1" ++ "_" ++ nth (Z.to_nat 2) channel_colors "" ++ ".png".
Proof.
  apply (get_path_is_injective "./train//" "s1" "s1" 2 2 "train/s1_blue.png");
    try reflexivity; lia.
Defined.

Lemma get_images_loop_Raise Image_open img_path (ids : list string) (id_ : string) e :
  In id_ ids -> get_image Image_open img_path id_ = Raise e ->
  forall X k, exists e', get_images_loop Image_open img_path X k ids = Raise e'.
Proof.
  intros Hin Hraise.
  induction ids as [|a ids IH]; intros X k; [destruct Hin|].
  cbn [get_images_loop].
  destruct (get_image Image_open img_path a) as [img|e1] eqn:Ha; cbn [bind]; [|eauto].
  destruct (assign_sample X k img) as [X'|e2]; cbn [bind]; [|eauto].
  destruct Hin as [-> | Hin]; [congruence|]. apply IH. exact Hin.
Qed.

(** X7 -- One unreadable file fails the whole batch.  If a channel file of
    some sample in the sequence cannot be opened, [get_image] of that
    sample raises and [get_images] of the sequence raises: no partial
    batch is returned and no placeholder is substituted. *)
Theorem get_images_fails_as_a_whole
    (Image_open : string -> result band) (img_path : string)
    (ids : list string) (id_ : string) (ch : nat) (path : string) (e : exn)
    (Hin : In id_ ids)
    (Hch : (ch < n_channels)%nat)
    (Hpath : get_path img_path id_ (Z.of_nat ch) = Ok path)
    (Hopen : Image_open path = Raise e) :
  (exists e', get_image Image_open img_path id_ = Raise e') /\
  (exists e', get_images Image_open img_path ids = Raise e').
Proof.
  assert (Himg : exists e', get_image Image_open img_path id_ = Raise e').
  { unfold get_image.
    match goal with
    | |- context [mapM ?f ?l] =>
        destruct (mapM_Raise_somewhere f l (Z.of_nat ch) e) as [e' He']
    end.
    - unfold range. apply in_map, in_seq. lia.
    - rewrite Hpath. cbn [bind]. exact Hopen.
    - rewrite He'. cbn [bind]. eauto. }
  split; [exact Himg|].
  destruct Himg as [e' He'].
  apply (get_images_loop_Raise _ _ _ _ _ Hin He').
Qed.

Lemma get_images_fails_as_a_whole_witness :
  (exists e', get_image Files.missing_blue "train" "s1" = Raise e') /\
  (exists e', get_images Files.missing_blue "train" ["s0"; "s1"; "s2"] = Raise e').
Proof.
  apply (get_images_fails_as_a_whole Files.missing_blue "train"
           ["s0"; "s1"; "s2"] "s1" 2 "train/s1_blue.png" FileNotFoundError).
  - right. left. reflexivity.
  - unfold n_channels. simpl. lia.
  - reflexivity.
  - reflexivity.
Defined.

Lemma get_image_same_shape Image_open img_path id_ (h w : nat) :
  (forall ch, (ch < n_channels)%nat ->
     exists path b, get_path img_path id_ (Z.of_nat ch) = Ok path /\
                    Image_open path = Ok b /\ band_shape b = (h, w)) ->
  exists img, get_image Image_open img_path id_ = Ok img /\
              image_shape img = (h, w, n_channels).
Proof.
  intros V.
  destruct (V 0%nat) as (p0 & b0 & P0 & O0 & S0); [unfold n_channels; simpl; lia|].
  destruct (V 1%nat) as (p1 & b1 & P1 & O1 & S1); [unfold n_channels; simpl; lia|].
  destruct (V 2%nat) as (p2 & b2 & P2 & O2 & S2); [unfold n_channels; simpl; lia|].
  destruct (V 3%nat) as (p3 & b3 & P3 & O3 & S3); [unfold n_channels; simpl; lia|].
  unfold get_image.
  change (range n_channels) with [0; 1; 2; 3]%Z.
  change (Z.of_nat 0) with 0%Z in P0. change (Z.of_nat 1) with 1%Z in P1.
  change (Z.of_nat 2) with 2%Z in P2. change (Z.of_nat 3) with 3%Z in P3.
  cbn [mapM bind]. rewrite P0; cbn [bind]; rewrite O0; cbn [bind].
  rewrite P1; cbn [bind]; rewrite O1; cbn [bind].
  rewrite P2; cbn [bind]; rewrite O2; cbn [bind].
  rewrite P3; cbn [bind]; rewrite O3; cbn [bind].
  unfold np_stack_axis2. cbn [forallb].
  rewrite S0, S1, S2, S3. unfold shape2_eqb. cbn [fst snd].
  rewrite !Nat.eqb_refl. cbn [andb bind].
  eexists; split; reflexivity.
Qed.

(** X8 -- Images are not resized.  When the four channel files of a sample
    decode to h x w bands, [get_image] returns an (h, w, 4) array, and
    [get_images] of that sample succeeds only if h and w are each 512 or
    1 (a one-pixel axis is broadcast by the slot assignment); for any
    other size it raises ValueError. *)
Theorem get_images_checks_image_size
    (Image_open : string -> result band) (img_path id_ : string) (h w : nat)
    (Hbands : forall ch, (ch < n_channels)%nat ->
       exists path b, get_path img_path id_ (Z.of_nat ch) = Ok path /\
                      Image_open path = Ok b /\ band_shape b = (h, w)) :
  (exists img, get_image Image_open img_path id_ = Ok img /\
               image_shape img = (h, w, 4%nat)) /\
  ((h = 512%nat \/ h = 1%nat) -> (w = 512%nat \/ w = 1%nat) ->
     exists X, get_images Image_open img_path [id_] = Ok X /\
               batch_shape X = (1, 512, 512, 4)%nat) /\
  ((h <> 512%nat /\ h <> 1%nat) \/ (w <> 512%nat /\ w <> 1%nat) ->
     get_images Image_open img_path [id_] = Raise ValueError).
Proof.
  destruct (get_image_same_shape _ _ _ _ _ Hbands) as (img & Himg & Hshape).
  split; [eauto|].
  unfold get_images. cbn [length get_images_loop]. rewrite Himg. cbn [bind].
  unfold assign_sample. rewrite Hshape.
  cbn [np_zeros4 batch_shape fst Nat.ltb Nat.leb negb].
  change (Nat.eqb n_channels n_channels) with true.
  fold nrows ncols.
  split.
  - intros Hh Hw.
    replace (Nat.eqb h nrows || Nat.eqb h 1) with true
      by (destruct Hh as [-> | ->]; reflexivity).
    replace (Nat.eqb w ncols || Nat.eqb w 1) with true
      by (destruct Hw as [-> | ->]; reflexivity).
    cbn [andb orb bind get_images_loop]. eexists. split; reflexivity.
  - intros Hbad.
    assert (Hfit : (Nat.eqb h nrows || Nat.eqb h 1)
                   && (Nat.eqb w ncols || Nat.eqb w 1) = false).
    { apply andb_false_iff.
      destruct Hbad as [[H1 H2] | [H1 H2]]; [left | right];
        apply orb_false_iff; split; apply Nat.eqb_neq; assumption. }
    rewrite Hfit. reflexivity.
Qed.

Lemma get_images_checks_image_size_witness :
  (exists img, get_image Files.half_size "train" "s0" = Ok img /\
               image_shape img = (256, 256, 4)%nat) /\
  ((256 = 512 \/ 256 = 1)%nat -> (256 = 512 \/ 256 = 1)%nat ->
     exists X, get_images Files.half_size "train" ["s0"] = Ok X /\
               batch_shape X = (1, 512, 512, 4)%nat) /\
  ((256 <> 512 /\ 256 <> 1)%nat \/ (256 <> 512 /\ 256 <> 1)%nat ->
     get_images Files.half_size "train" ["s0"] = Raise ValueError).
Proof.
  apply (get_images_checks_image_size Files.half_size "train" "s0" 256 256).
  intros ch Hch.
  destruct ch as [|[|[|[|ch]]]];
    [ | | | | unfold n_channels in Hch; simpl in Hch; lia ];
    (eexists; eexists; split; [reflexivity|]; split; reflexivity).
Defined.

(** ** The label table built by [Train.__init__] *)

Lemma mlb_row_cell (cls labs : list Z) (j : nat) :
  (j < length cls)%nat ->
  nth j (mlb_row cls labs) 0%Z = 1%Z <-> In (nth j cls 0%Z) labs.
Proof.
  unfold mlb_row. revert j. induction cls as [|c cls IH]; intros j Hj.
  - simpl in Hj. lia.
  - destruct j as [|j]; cbn [map nth].
    + destruct (existsb (Z.eqb c) labs) eqn:E.
      * split; [intros _|reflexivity].
        apply existsb_exists in E as (x & Hx & Hxe). apply Z.eqb_eq in Hxe. congruence.
      * split; [discriminate|]. intros Hin. exfalso.
        assert (existsb (Z.eqb c) labs = true)
          by (apply existsb_exists; eexists; split; [exact Hin | apply Z.eqb_refl]).
        congruence.
    + apply IH. simpl in Hj. lia.
Qed.

Lemma mlb_row_binary (cls labs : list Z) (v : Z) :
  In v (mlb_row cls labs) -> v = 0%Z \/ v = 1%Z.
Proof.
  unfold mlb_row. intros H. apply in_map_iff in H as (c & <- & _).
  destruct (existsb _ labs); auto.
Qed.

(** X9 -- Shape of the label table.  When [Train.__init__] succeeds, the
    table's index is the file's Id column in file order, its columns are
    the 28 class names, it has one row per sample, every row has 28 cells,
    each 0 or 1, with at least one 1, and the binarizer holds 28 classes
    in strictly increasing order. *)
Theorem Train_init_table_shape
    (to_double : string -> bool) (img_path : string)
    (csv : list (string * string)) (t : Train)
    (Hinit : Train_init to_double img_path csv = Ok t) :
  train_img_path t = img_path /\
  train_index t = map fst csv /\
  df_index (train_labels t) = map fst csv /\
  df_columns (train_labels t) = classes /\
  length (df_values (train_labels t)) = length csv /\
  (forall row, In row (df_values (train_labels t)) ->
     length row = 28%nat /\ In 1%Z row /\
     forall v, In v row -> v = 0%Z \/ v = 1%Z) /\
  length (classes_ (train_mlb t)) = 28%nat /\
  StronglySorted Z.lt (classes_ (train_mlb t)).
Proof.
  pose proof (Train_init_width _ _ _ _ Hinit) as Hwidth.
  pose proof (Train_init_no_zero_row _ _ _ _ Hinit) as Hone.
  destruct (Train_init_inv _ _ _ _ Hinit) as (targets & Hread & Hlen & ->).
  cbn [train_img_path train_index train_labels train_mlb classes_
       df_index df_columns df_values] in *.
  do 4 (split; [reflexivity|]).
  split.
  { rewrite length_map. apply mapM_length in Hread.
    rewrite Hread, !length_map. reflexivity. }
  split.
  { intros row Hrow. split; [apply Hwidth; exact Hrow|].
    split; [apply Hone; exact Hrow|].
    intros v Hv. apply in_map_iff in Hrow as (labs & <- & _).
    eapply mlb_row_binary; eauto. }
  split; [exact Hlen | apply np_unique_sorted].
Qed.

Lemma Train_init_table_shape_witness :
  train_img_path Demo.train = "train" /\
  train_index Demo.train = map fst Demo.csv /\
  df_index (train_labels Demo.train) = map fst Demo.csv /\
  df_columns (train_labels Demo.train) = classes /\
  length (df_values (train_labels Demo.train)) = length Demo.csv /\
  (forall row, In row (df_values (train_labels Demo.train)) ->
     length row = 28%nat /\ In 1%Z row /\
     forall v, In v row -> v = 0%Z \/ v = 1%Z) /\
  length (classes_ (train_mlb Demo.train)) = 28%nat /\
  StronglySorted Z.lt (classes_ (train_mlb Demo.train)).
Proof.
  apply (Train_init_table_shape Demo.to_double "train" Demo.csv Demo.train).
  vm_compute. reflexivity.
Defined.

(** X10 -- Meaning of a cell.  In a table built from a label file whose
    targets stay inside the vocabulary, the row of sample i holds a 1 in
    column j exactly when class j is one of the integers of the sample's
    target; order and repetition of the integers in the target do not
    matter. *)
Theorem Train_init_cell_meaning
    (to_double : string -> bool) (img_path : string)
    (csv : list (string * string)) (t : Train)
    (i : nat) (id_ target : string)
    (Hinit : Train_init to_double img_path csv = Ok t)
    (Hvoc : targets_in_vocabulary csv = true)
    (Hrow : nth_error csv i = Some (id_, target)) :
  exists labs row,
    read_target (Str target) = Ok labs /\
    nth_error (df_index (train_labels t)) i = Some id_ /\
    nth_error (df_values (train_labels t)) i = Some row /\
    forall j, (j < 28)%nat -> (nth j row 0%Z = 1%Z <-> In (Z.of_nat j) labs).
Proof.
  pose proof (Train_init_classes _ _ _ _ Hinit Hvoc) as Hcls.
  destruct (Train_init_inv _ _ _ _ Hinit) as (targets & Hread & Hlen & ->).
  cbn [train_labels train_mlb classes_ df_index df_values] in *.
  destruct (Train_init_row to_double img_path _ _ _ _ _ Hread Hrow)
    as (labs & Hlabs & Hc').
  exists labs, (mlb_row (np_unique (concat targets)) labs).
  split; [exact Hc'|].
  split; [rewrite nth_error_map, Hrow; reflexivity|].
  split; [rewrite nth_error_map, Hlabs; reflexivity|].
  intros j Hj. rewrite mlb_row_cell by (rewrite Hlen; exact Hj).
  rewrite Hcls. unfold range.
  change 0%Z with (Z.of_nat 0) at 1.
  rewrite map_nth, seq_nth by exact Hj. reflexivity.
Qed.

Lemma Train_init_cell_meaning_witness :
  exists labs row,
    read_target (Str "0 5 27") = Ok labs /\
    nth_error (df_index (train_labels Demo.train)) 80 = Some "s80" /\
    nth_error (df_values (train_labels Demo.train)) 80 = Some row /\
    forall j, (j < 28)%nat -> (nth j row 0%Z = 1%Z <-> In (Z.of_nat j) labs).
Proof.
  apply (Train_init_cell_meaning Demo.to_double "train" Demo.csv Demo.train
           80 "s80" "0 5 27").
  - vm_compute. reflexivity.
  - vm_compute. reflexivity.
  - reflexivity.
Defined.

Lemma positive_positions_mlb_row (labs : list Z) (cls : list Z) :
  forall pre : list Z,
    map (fun j => nth j (pre ++ cls)%list 0%Z)
        (positive_positions (mlb_row cls labs) (length pre))
    = filter (fun c => existsb (Z.eqb c) labs) cls.
Proof.
  induction cls as [|c cls IH]; intros pre; [reflexivity|].
  change (mlb_row (c :: cls) labs)
    with ((if existsb (Z.eqb c) labs then 1 else 0)%Z :: mlb_row cls labs).
  cbn [filter].
  assert (Hnext : map (fun j => nth j (pre ++ c :: cls)%list 0%Z)
                      (positive_positions (mlb_row cls labs) (S (length pre)))
                  = filter (fun c => existsb (Z.eqb c) labs) cls).
  { specialize (IH (pre ++ [c])%list).
    rewrite length_app, Nat.add_1_r, <- app_assoc in IH. exact IH. }
  destruct (existsb (Z.eqb c) labs).
  - cbn [positive_positions]. change (1 =? 1)%Z with true. cbn [map].
    rewrite Hnext, app_nth2, Nat.sub_diag by lia. reflexivity.
  - cbn [positive_positions]. change (0 =? 1)%Z with false. exact Hnext.
Qed.

Lemma filter_sorted (f : Z -> bool) (l : list Z) :
  StronglySorted Z.lt l -> StronglySorted Z.lt (filter f l).
Proof.
  induction 1 as [|x l Hs IH Hall]; cbn [filter]; [constructor|].
  destruct (f x); [|exact IH].
  constructor; [exact IH|].
  apply Forall_forall. intros y Hy. apply filter_In in Hy as [Hy _].
  rewrite Forall_forall in Hall. auto.
Qed.

(** Two strictly increasing lists with the same elements are equal. *)
Lemma sorted_ext (l1 : list Z) :
  StronglySorted Z.lt l1 -> forall l2, StronglySorted Z.lt l2 ->
  (forall z, In z l1 <-> In z l2) -> l1 = l2.
Proof.
  induction 1 as [|x l1 Hs1 IH Hall1]; intros l2 Hs2 Hext.
  - destruct l2 as [|y l2]; [reflexivity|].
    destruct (proj2 (Hext y) (or_introl eq_refl)).
  - destruct Hs2 as [|y l2 Hs2 Hall2].
    + destruct (proj1 (Hext x) (or_introl eq_refl)).
    + rewrite Forall_forall in Hall1, Hall2.
      assert (x = y).
      { destruct (proj1 (Hext x) (or_introl eq_refl)) as [E|Hx]; [congruence|].
        destruct (proj2 (Hext y) (or_introl eq_refl)) as [E|Hy]; [congruence|].
        specialize (Hall1 _ Hy). specialize (Hall2 _ Hx). lia. }
      subst y. f_equal. apply IH; [exact Hs2|].
      intros z. split; intros Hz.
      * destruct (proj1 (Hext z) (or_intror Hz)) as [E|Hz']; [|exact Hz'].
        specialize (Hall1 _ Hz). lia.
      * destruct (proj2 (Hext z) (or_intror Hz)) as [E|Hz']; [|exact Hz'].
        specialize (Hall2 _ Hz). lia.
Qed.

(** X11 -- Binarize, then decode.  For every sample of a label file from
    which the table is built, decoding its row with the stored binarizer
    ([mlb.inverse_transform]) returns the sample's labels -- the int32
    numbers that [read_target] makes of the target -- without repetition
    and in increasing order. *)
Theorem Train_init_row_round_trip
    (to_double : string -> bool) (img_path : string)
    (csv : list (string * string)) (t : Train)
    (i : nat) (id_ target : string)
    (Hinit : Train_init to_double img_path csv = Ok t)
    (Hrow : nth_error csv i = Some (id_, target)) :
  exists labs row,
    read_target (Str target) = Ok labs /\
    nth_error (df_values (train_labels t)) i = Some row /\
    inverse_transform_row (train_mlb t) row = Ok (np_unique labs).
Proof.
  destruct (Train_init_inv _ _ _ _ Hinit) as (targets & Hread & Hlen & ->).
  cbn [train_labels train_mlb df_values].
  destruct (Train_init_row to_double img_path _ _ _ _ _ Hread Hrow)
    as (labs & Hlabs & Hc').
  set (cls := np_unique (concat targets)) in *.
  exists labs, (mlb_row cls labs).
  split; [exact Hc'|].
  split; [rewrite nth_error_map, Hlabs; reflexivity|].
  unfold inverse_transform_row. cbn [classes_].
  replace (Nat.eqb (length (mlb_row cls labs)) (length cls)) with true
    by (symmetry; apply Nat.eqb_eq; unfold mlb_row; apply length_map).
  replace (forallb (fun v => (v =? 0)%Z || (v =? 1)%Z) (mlb_row cls labs)) with true.
  2:{ symmetry. apply forallb_forall. intros v Hv.
      destruct (mlb_row_binary _ _ _ Hv) as [-> | ->]; reflexivity. }
  cbn [andb]. f_equal.
  pose proof (positive_positions_mlb_row labs cls []) as Hpos.
  cbn [app length] in Hpos. rewrite Hpos.
  apply sorted_ext.
  - apply filter_sorted, np_unique_sorted.
  - apply np_unique_sorted.
  - intros z. rewrite filter_In, np_unique_In. split.
    + intros [_ Hz]. apply existsb_exists in Hz as (x & Hx & Hxe).
      apply Z.eqb_eq in Hxe. congruence.
    + intros Hz. split.
      * apply np_unique_In, in_concat. exists labs.
        split; [eapply nth_error_In; eauto | exact Hz].
      * apply existsb_exists. exists z. split; [exact Hz | apply Z.eqb_refl].
Qed.

Lemma Train_init_row_round_trip_witness :
  exists labs row,
    read_target (Str "0 5 27") = Ok labs /\
    nth_error (df_values (train_labels Demo.train)) 80 = Some row /\
    inverse_transform_row (train_mlb Demo.train) row = Ok (np_unique labs).
Proof.
  apply (Train_init_row_round_trip Demo.to_double "train" Demo.csv Demo.train
           80 "s80" "0 5 27").
  - vm_compute. reflexivity.
  - reflexivity.
Defined.

(** ** Parsing targets *)

Lemma digit_char_facts (d : nat) :
  (d <= 9)%nat ->
  digit_val (digit_char d) = Some (Z.of_nat d) /\
  is_space (digit_char d) = false /\
  Ascii.eqb (digit_char d) " " = false.
Proof.
  intros Hd.
  do 10 (destruct d as [|d]; [repeat split; reflexivity|]). lia.
Qed.

Lemma py_digits_numeral (ds : list nat) :
  (forall d, In d ds -> (d <= 9)%nat) ->
  forall acc after_digit, ds <> [] \/ after_digit = true ->
    py_digits (map digit_char ds) acc after_digit
    = Some (fold_left (fun a d => (10 * a + Z.of_nat d)%Z) ds acc).
Proof.
  induction ds as [|d ds IH]; intros Hd acc b Hne.
  - destruct Hne as [Hne | ->]; [congruence | reflexivity].
  - cbn [map py_digits fold_left].
    destruct (digit_char_facts d (Hd d (or_introl eq_refl))) as (-> & _ & _).
    apply IH; [intros; apply Hd; right; assumption | right; reflexivity].
Qed.

Lemma lstrip_numeral (ds : list nat) :
  (forall d, In d ds -> (d <= 9)%nat) ->
  lstrip (map digit_char ds) = map digit_char ds.
Proof.
  destruct ds as [|d ds]; intros Hd; [reflexivity|].
  cbn [map lstrip].
  destruct (digit_char_facts d (Hd d (or_introl eq_refl))) as (_ & -> & _).
  reflexivity.
Qed.

Lemma strip_numeral (ds : list nat) :
  (forall d, In d ds -> (d <= 9)%nat) ->
  strip (map digit_char ds) = map digit_char ds.
Proof.
  intros Hd. unfold strip. rewrite lstrip_numeral by exact Hd.
  rewrite <- map_rev, lstrip_numeral, map_rev, rev_involutive; [reflexivity|].
  intros d Hin. apply Hd. apply in_rev. exact Hin.
Qed.

Lemma split_sign_numeral (ds : list nat) :
  (forall d, In d ds -> (d <= 9)%nat) ->
  split_sign (map digit_char ds) = (false, map digit_char ds).
Proof.
  destruct ds as [|d ds]; intros Hd; [reflexivity|].
  assert (d <= 9)%nat by (apply Hd; left; reflexivity).
  do 10 (destruct d as [|d]; [reflexivity|]). lia.
Qed.

Lemma count_digits_numeral (ds : list nat) :
  (forall d, In d ds -> (d <= 9)%nat) ->
  count_digits (map digit_char ds) = length ds.
Proof.
  unfold count_digits. induction ds as [|d ds IH]; intros Hd; [reflexivity|].
  cbn [map filter].
  destruct (digit_char_facts d (Hd d (or_introl eq_refl))) as (-> & _ & _).
  cbn [length]. rewrite IH by (intros; apply Hd; right; assumption). reflexivity.
Qed.

(** A non-empty string of at most 4300 decimal digits is an integer
    literal with its decimal value (leading zeros included). *)
Lemma py_int_numeral (ds : list nat) :
  ds <> [] -> (forall d, In d ds -> (d <= 9)%nat) ->
  (length ds <= max_str_digits)%nat ->
  py_int (numeral ds) = Ok (numeral_value ds).
Proof.
  intros Hne Hd Hlen. unfold py_int, numeral.
  rewrite list_ascii_of_string_of_list_ascii, strip_numeral by exact Hd.
  rewrite split_sign_numeral, count_digits_numeral by exact Hd.
  replace (Nat.ltb max_str_digits (length ds)) with false
    by (symmetry; apply Nat.ltb_ge; exact Hlen).
  rewrite (py_digits_numeral ds Hd) by (left; exact Hne). reflexivity.
Qed.

Lemma numeral_value_nonneg (ds : list nat) : (0 <= numeral_value ds)%Z.
Proof.
  unfold numeral_value.
  assert (H : forall acc, (0 <= acc)%Z ->
            (0 <= fold_left (fun a d => (10 * a + Z.of_nat d)%Z) ds acc)%Z).
  { induction ds as [|d ds IH]; intros acc Hacc; [exact Hacc|].
    cbn [fold_left]. apply IH. lia. }
  apply H. lia.
Qed.

Lemma to_int32_small (z : Z) :
  (- 2 ^ 31 <= z < 2 ^ 31)%Z -> to_int32 z = Ok z.
Proof.
  intros Hz. unfold to_int32, wrap_int32.
  replace (- 2 ^ 63 <=? z)%Z with true by (symmetry; apply Z.leb_le; lia).
  replace (z <? 2 ^ 63)%Z with true by (symmetry; apply Z.ltb_lt; lia).
  cbn [andb]. rewrite Z.mod_small by lia. f_equal. lia.
Qed.

Lemma append_nil_r (s : string) : s ++ "" = s.
Proof. induction s as [|c s IH]; simpl; [reflexivity | rewrite IH; reflexivity]. Qed.

Lemma split_space_numeral_app (ds : list nat) (rest : string) :
  (forall d, In d ds -> (d <= 9)%nat) ->
  split_space (numeral ds ++ rest)
  = match split_space rest with
    | t :: ts => (numeral ds ++ t) :: ts
    | [] => [numeral ds ++ rest]
    end.
Proof.
  unfold numeral. induction ds as [|d ds IH]; intros Hd.
  - cbn [map string_of_list_ascii append].
    destruct (split_space rest) eqn:E; [|reflexivity].
    exfalso. exact (split_space_nonempty rest E).
  - cbn [map string_of_list_ascii append split_space].
    destruct (digit_char_facts d (Hd d (or_introl eq_refl))) as (_ & _ & ->).
    rewrite IH by (intros; apply Hd; right; assumption).
    destruct (split_space rest); reflexivity.
Qed.

Lemma split_space_join_numerals (tokens : list (list nat)) :
  tokens <> [] ->
  (forall ds, In ds tokens -> forall d, In d ds -> (d <= 9)%nat) ->
  split_space (join_space (map numeral tokens)) = map numeral tokens.
Proof.
  induction tokens as [|ds tokens IH]; intros Hne Hd; [congruence|].
  destruct tokens as [|ds' tokens].
  - cbn [map join_space].
    rewrite <- (append_nil_r (numeral ds)) at 1.
    rewrite split_space_numeral_app by (apply Hd; left; reflexivity).
    cbn [split_space]. rewrite append_nil_r. reflexivity.
  - change (join_space (map numeral (ds :: ds' :: tokens)))
      with (numeral ds ++ " " ++ join_space (map numeral (ds' :: tokens))).
    rewrite split_space_numeral_app by (apply Hd; left; reflexivity).
    change (split_space (" " ++ join_space (map numeral (ds' :: tokens))))
      with (EmptyString :: split_space (join_space (map numeral (ds' :: tokens)))).
    rewrite IH, append_nil_r; [reflexivity | discriminate |].
    intros ds0 Hin. apply Hd. right. exact Hin.
Qed.

(** X12 -- Well-formed targets parse to their integers.  A target made of
    non-empty decimal numerals separated by single spaces, each of at
    most 4300 digits and of a value below 2^31 (the int32 range), is read
    as the list of their values, in the order written. *)
Theorem read_target_parses_numerals
    (tokens : list (list nat))
    (Hne : tokens <> [])
    (Hdigits : forall ds, In ds tokens ->
                 ds <> [] /\ (forall d, In d ds -> (d <= 9)%nat) /\
                 (length ds <= 4300)%nat /\ (numeral_value ds < 2 ^ 31)%Z) :
  read_target (Str (join_space (map numeral tokens)))
  = Ok (map numeral_value tokens).
Proof.
  cbn [read_target].
  rewrite split_space_join_numerals;
    [|exact Hne | intros ds Hin; apply (Hdigits ds Hin)].
  apply mapM_map_Ok. intros ds Hin.
  destruct (Hdigits ds Hin) as (Hds & Hd & Hlen & Hval).
  rewrite py_int_numeral by assumption. cbn [bind].
  apply to_int32_small. pose proof (numeral_value_nonneg ds). lia.
Qed.

Lemma read_target_parses_numerals_witness :
  read_target (Str (join_space (map numeral [[0]; [5]; [2; 7]]%nat)))
  = Ok (map numeral_value [[0]; [5]; [2; 7]]%nat).
Proof.
  apply (read_target_parses_numerals [[0]; [5]; [2; 7]]%nat).
  - discriminate.
  - intros ds [<- | [<- | [<- | []]]];
      (split; [discriminate|]);
      (split; [intros d Hd; simpl in Hd; lia|]);
      (split; [simpl; lia | vm_compute; reflexivity]).
Defined.

Lemma Demo_target_0_5_27 :
  join_space (map numeral [[0]; [5]; [2; 7]]%nat) = "0 5 27" /\
  map numeral_value [[0]; [5]; [2; 7]]%nat = [0; 5; 27]%Z.
Proof. split; reflexivity. Qed.

(** ** The stratified split and the train generator *)

Lemma filter_by_mask_complement_length {A B} (keep : B -> bool) (l : list A) :
  forall m : list B, length l = length m ->
    (length (filter_by_mask l (map keep m))
     + length (filter_by_mask l (map (fun b => negb (keep b)) m)) = length l)%nat.
Proof.
  induction l as [|a l IH]; intros [|b m] H; try discriminate H; [reflexivity|].
  cbn [map filter_by_mask]. injection H as H. specialize (IH m H).
  destruct (keep b); cbn [negb length]; lia.
Qed.

Lemma filter_by_mask_NoDup {A} (l : list A) :
  NoDup l -> forall mask, NoDup (filter_by_mask l mask).
Proof.
  induction 1 as [|a l Hnotin Hnd IH]; intros mask.
  - constructor.
  - destruct mask as [|b mask]; [constructor|].
    cbn [filter_by_mask]. destruct b; [|apply IH].
    constructor; [|apply IH].
    intros Hin. apply Hnotin. eapply filter_by_mask_sub; eauto.
Qed.

Lemma range_NoDup (n : nat) : NoDup (range n).
Proof.
  unfold range. generalize (seq_NoDup n 0).
  induction 1 as [|a l Hnotin Hnd IH]; cbn [map]; constructor; [|exact IH].
  intros Hin. apply in_map_iff in Hin as (b & Hb & Hin).
  apply Nat2Z.inj in Hb. subst b. contradiction.
Qed.

Lemma where_fold_NoDup (test_folds : list Z) (keep : Z -> bool) :
  NoDup (where_fold test_folds keep).
Proof. unfold where_fold. apply filter_by_mask_NoDup, range_NoDup. Qed.

Section SplitFacts.

Variable rng : Type.
Variable IterativeStratification :
  list (list Z) -> Z -> rng -> (nat -> Z) * rng.

(** The folds of a split are read off one array of fold numbers, one
    entry per sample. *)
Lemma split_form mskf X y g folds g' :
  split IterativeStratification mskf X y g = Ok (folds, g') ->
  let test_folds :=
    map (fst (IterativeStratification y (kfold_n_splits mskf) g)) (seq 0 (length X)) in
  (kfold_n_splits mskf <= Z.of_nat (length X))%Z /\
  folds = map (fun i => (where_fold test_folds (fun f => negb (f =? i)%Z),
                         where_fold test_folds (fun f => (f =? i)%Z)))
              (range (Z.to_nat (kfold_n_splits mskf))).
Proof.
  unfold split.
  destruct (Z.of_nat (length X) <? kfold_n_splits mskf)%Z eqn:Hk; [discriminate|].
  apply Z.ltb_ge in Hk.
  destruct (is_multilabel_indicator y); [|discriminate]. cbn [negb].
  destruct (IterativeStratification y (kfold_n_splits mskf) g) as [fold_of g1].
  intros H. injection H as <- <-. cbn [fst]. split; [exact Hk | reflexivity].
Qed.

End SplitFacts.

(** X13 -- The first fold splits the table in two.  The training part and
    the held-out part that [train_test_split] takes from the first fold
    are disjoint, free of repetitions, and together hold every row
    position 0 .. N-1 of the label table exactly once, whatever the
    stratifier assigns. *)
Theorem first_fold_partitions_rows
    {rng : Type} (IterativeStratification : list (list Z) -> Z -> rng -> (nat -> Z) * rng)
    {float : Type} (int_inv_one_minus : float -> result Z)
    (self : Train) (train_portion : float) (g g1 : rng)
    (train_set val_set : list Z)
    (Hfold : first_fold IterativeStratification int_inv_one_minus self train_portion g
             = Ok (train_set, val_set, g1)) :
  let N := length (df_values (train_labels self)) in
  (forall i, In i train_set \/ In i val_set <-> (0 <= i < Z.of_nat N)%Z) /\
  (forall i, In i train_set -> ~ In i val_set) /\
  NoDup train_set /\ NoDup val_set /\
  (length train_set + length val_set = N)%nat.
Proof.
  intros N. unfold first_fold in Hfold.
  inv_bind Hfold. rename a into n_splits.
  inv_bind Hfold. rename a into mskf.
  inv_bind Hfold. destruct a as [folds g']. cbn beta iota in Hfold.
  unfold MultilabelStratifiedKFold_init in Ha0.
  destruct (n_splits <=? 1)%Z eqn:Hk; [discriminate|]. apply Z.leb_gt in Hk.
  injection Ha0 as <-.
  apply split_form in Ha1 as [_ Hfolds]. cbn [kfold_n_splits] in Hfolds.
  set (tf := map _ (seq 0 _)) in Hfolds.
  assert (Hlen : length tf = N) by (subst tf; rewrite length_map, length_seq; reflexivity).
  destruct (Z.to_nat n_splits) as [|k] eqn:Ek; [lia|].
  unfold range in Hfolds. cbn [seq map] in Hfolds. subst folds.
  injection Hfold as <- <- <-.
  change (Z.of_nat 0) with 0%Z.
  split; [|split; [|split; [|split]]].
  - intros i. split.
    + intros [H | H]; apply where_fold_bound in H; rewrite Hlen in H; exact H.
    + intros Hi.
      destruct (nth_error tf (Z.to_nat i)) as [f|] eqn:Ef.
      * destruct (f =? 0)%Z eqn:E0; [right | left];
          apply where_fold_In; exists (Z.to_nat i), f;
          (split; [lia|]); (split; [exact Ef|]); rewrite E0; reflexivity.
      * apply nth_error_None in Ef. lia.
  - intros i Hin Hval.
    apply (where_fold_complement _ (fun f => (f =? 0)%Z) i Hval). exact Hin.
  - apply where_fold_NoDup.
  - apply where_fold_NoDup.
  - unfold where_fold. rewrite Nat.add_comm.
    rewrite (filter_by_mask_complement_length (fun f => (f =? 0)%Z)).
    + unfold range. rewrite length_map, length_seq. exact Hlen.
    + unfold range. rewrite length_map, length_seq. reflexivity.
Qed.

Lemma first_fold_partitions_rows_witness :
  exists train_set val_set,
    first_fold Demo.round_robin Demo.int_inv_one_minus Demo.train (1 # 2) tt
      = Ok (train_set, val_set, tt) /\
    let N := length (df_values (train_labels Demo.train)) in
    (forall i, In i train_set \/ In i val_set <-> (0 <= i < Z.of_nat N)%Z) /\
    (forall i, In i train_set -> ~ In i val_set) /\
    NoDup train_set /\ NoDup val_set /\
    (length train_set + length val_set = N)%nat.
Proof.
  eexists. eexists. split; [vm_compute; reflexivity|].
  apply (first_fold_partitions_rows Demo.round_robin Demo.int_inv_one_minus
           Demo.train (1 # 2) tt tt).
  vm_compute. reflexivity.
Defined.

Lemma filter_by_mask_length {A} (l : list A) :
  forall mask, (length (filter_by_mask l mask) <= length l)%nat.
Proof.
  induction l as [|a l IH]; intros [|b mask]; cbn [filter_by_mask length]; try lia.
  specialize (IH mask). destruct b; cbn [length]; lia.
Qed.

Lemma first_fold_train_length
    {rng : Type} (IterativeStratification : list (list Z) -> Z -> rng -> (nat -> Z) * rng)
    {float : Type} (int_inv_one_minus : float -> result Z)
    (self : Train) (train_portion : float) (g g1 : rng) (train_set val_set : list Z) :
  first_fold IterativeStratification int_inv_one_minus self train_portion g
    = Ok (train_set, val_set, g1) ->
  (length train_set <= length (df_values (train_labels self)))%nat.
Proof.
  unfold first_fold. intros H.
  inv_bind H. inv_bind H. inv_bind H. destruct a1 as [folds g']. cbn beta iota in H.
  apply split_form in Ha1 as [_ Hfolds].
  destruct folds as [|[tr te] folds]; [discriminate|]. injection H as <- <- <-.
  destruct (range (Z.to_nat (kfold_n_splits a0))) as [|i r]; [discriminate|].
  cbn [map] in Hfolds. injection Hfolds as -> _ _.
  unfold where_fold.
  etransitivity; [apply filter_by_mask_length|].
  unfold range. rewrite length_map, length_seq, length_map, length_seq. reflexivity.
Qed.

(** X14 -- A split needs more than 32 training rows.  When
    [train_test_split] returns, the training part of the first fold (and
    so the label table) has more than 32 rows, both generators refer to
    the Train object itself, and both have the same number of batches,
    ceil(n / 32) for the n rows of that training part. *)
Theorem train_test_split_needs_33_rows
    {rng : Type} (IterativeStratification : list (list Z) -> Z -> rng -> (nat -> Z) * rng)
    {float : Type} (int_inv_one_minus : float -> result Z)
    (self : Train) (train_portion : float) (batch_size : Z) (g g3 : rng)
    (train_generator val_generator : TrainGenerator)
    (Hsplit : train_test_split IterativeStratification int_inv_one_minus self
                train_portion batch_size g
              = Ok (train_generator, val_generator, g3)) :
  let n := Z.of_nat (length (tg_train_set train_generator)) in
  (32 < n <= Z.of_nat (length (df_values (train_labels self))))%Z /\
  tg_train train_generator = self /\
  tg_train val_generator = self /\
  TrainGenerator_len train_generator = ceil_div n 32 /\
  TrainGenerator_len val_generator = ceil_div n 32.
Proof.
  intros n. subst n. unfold train_test_split in Hsplit.
  inv_bind Hsplit. destruct a as [[train_set val_set] g1]. cbn beta iota in Hsplit.
  inv_bind Hsplit. destruct a as [tg g2]. cbn beta iota in Hsplit.
  inv_bind Hsplit. destruct a as [vg g3']. cbn beta iota in Hsplit.
  injection Hsplit as <- <- <-.
  pose proof (first_fold_train_length _ _ _ _ _ _ _ _ Ha) as Hlen.
  apply TrainGenerator_init_inv in Ha0 as (Hn & _ & Ht & Hset & _ & Hl & _).
  apply TrainGenerator_init_inv in Ha1 as (_ & _ & Ht' & _ & _ & Hl' & _).
  rewrite Hset. repeat split; try assumption; lia.
Qed.

Lemma train_test_split_needs_33_rows_witness :
  exists tg vg,
    train_test_split Demo.round_robin Demo.int_inv_one_minus Demo.train (1 # 2) 32 tt
      = Ok (tg, vg, tt) /\
    let n := Z.of_nat (length (tg_train_set tg)) in
    (32 < n <= Z.of_nat (length (df_values (train_labels Demo.train))))%Z /\
    tg_train tg = Demo.train /\
    tg_train vg = Demo.train /\
    TrainGenerator_len tg = ceil_div n 32 /\
    TrainGenerator_len vg = ceil_div n 32.
Proof.
  eexists. eexists. split; [vm_compute; reflexivity|].
  apply (train_test_split_needs_33_rows Demo.round_robin Demo.int_inv_one_minus
           Demo.train (1 # 2) 32 tt tt).
  vm_compute. reflexivity.
Defined.

Lemma TrainGenerator_init_batch_sets
    {rng : Type} (IterativeStratification : list (list Z) -> Z -> rng -> (nat -> Z) * rng)
    train train_set batch_size augment g tg g' :
  TrainGenerator_init IterativeStratification train train_set batch_size augment g
    = Ok (tg, g') ->
  exists y,
    take (df_values (train_labels train)) train_set = Ok y /\
    length y = length train_set /\
    (1 < tg_n_splits tg)%Z /\
    tg_batch_sets tg
    = map (fun i => where_fold
                      (map (fst (IterativeStratification y (tg_n_splits tg) g))
                           (seq 0 (length train_set)))
                      (fun f => (f =? i)%Z))
          (range (Z.to_nat (tg_n_splits tg))).
Proof.
  unfold TrainGenerator_init. intros H.
  inv_bind H. rename a into mskf.
  inv_bind H. rename a into y.
  inv_bind H. destruct a as [folds g1]. injection H as <- <-.
  unfold MultilabelStratifiedKFold_init in Ha.
  destruct (_ <=? 1)%Z eqn:Hk in Ha; [discriminate|]. injection Ha as <-.
  apply Z.leb_gt in Hk.
  apply split_form in Ha1 as [_ ->]. cbn [kfold_n_splits].
  pose proof (mapM_length _ _ _ Ha0) as Hlen.
  exists y. split; [exact Ha0|]. split; [exact Hlen|].
  cbn [tg_n_splits tg_batch_sets]. split; [lia|].
  rewrite map_map. cbn [snd]. rewrite Hlen. reflexivity.
Qed.

(** X15 -- The batch sets partition the positions of the fold.  If the
    stratifier assigns every sample a fold number from 0 to k-1, then for
    a fold of n indices every position 0 .. n-1 lies in exactly one batch
    set; in any case each batch set is free of repetitions and no
    position lies in two batch sets. *)
Theorem batch_sets_partition_positions
    {rng : Type} (IterativeStratification : list (list Z) -> Z -> rng -> (nat -> Z) * rng)
    (train : Train) (train_set : list Z) (batch_size : Z) (augment : bool)
    (g g' : rng) (tg : TrainGenerator)
    (Hvalid : forall y k g0 j, (1 < k)%Z ->
                (0 <= fst (IterativeStratification y k g0) j < k)%Z)
    (Hinit : TrainGenerator_init IterativeStratification train train_set
               batch_size augment g = Ok (tg, g')) :
  (forall b, In b (tg_batch_sets tg) -> NoDup b) /\
  (forall a a' b b' j,
     nth_error (tg_batch_sets tg) a = Some b ->
     nth_error (tg_batch_sets tg) a' = Some b' ->
     In j b -> In j b' -> a = a') /\
  (forall j, (0 <= j < Z.of_nat (length train_set))%Z ->
     exists a b, nth_error (tg_batch_sets tg) a = Some b /\ In j b).
Proof.
  destruct (TrainGenerator_init_batch_sets _ _ _ _ _ _ _ _ Hinit)
    as (y & _ & _ & Hk & Hsets).
  set (tf := map _ (seq 0 _)) in Hsets.
  assert (Hnth : forall a b, nth_error (tg_batch_sets tg) a = Some b ->
            (a < Z.to_nat (tg_n_splits tg))%nat /\
            b = where_fold tf (fun f => (f =? Z.of_nat a)%Z)).
  { intros a b Hb. rewrite Hsets, nth_error_map in Hb.
    destruct (nth_error (range _) a) as [i|] eqn:Ei; [|discriminate].
    apply range_nth_error in Ei as [Ha ->]. injection Hb as <-. auto. }
  split; [|split].
  - intros b Hb. apply In_nth_error in Hb as [a Ha].
    destruct (Hnth _ _ Ha) as [_ ->]. apply where_fold_NoDup.
  - intros a a' b b' j Ha Ha' Hj Hj'.
    destruct (Hnth _ _ Ha) as [_ ->]. destruct (Hnth _ _ Ha') as [_ ->].
    apply where_fold_In in Hj as (p & f & -> & Hf & Hk1).
    apply where_fold_In in Hj' as (p' & f' & Hp & Hf' & Hk2).
    apply Nat2Z.inj in Hp. subst p'. rewrite Hf in Hf'. injection Hf' as <-.
    apply Z.eqb_eq in Hk1, Hk2. lia.
  - intros j Hj.
    assert (Hf : nth_error tf (Z.to_nat j)
                 = Some (fst (IterativeStratification y (tg_n_splits tg) g) (Z.to_nat j))).
    { subst tf. rewrite nth_error_map, nth_error_seq.
      replace (Nat.ltb (Z.to_nat j) (length train_set)) with true
        by (symmetry; apply Nat.ltb_lt; lia).
      reflexivity. }
    set (f := fst _ _) in Hf.
    pose proof (Hvalid y (tg_n_splits tg) g (Z.to_nat j) Hk) as Hrange. fold f in Hrange.
    exists (Z.to_nat f), (where_fold tf (fun f0 => (f0 =? f)%Z)). split.
    + rewrite Hsets, nth_error_map.
      replace (nth_error (range (Z.to_nat (tg_n_splits tg))) (Z.to_nat f))
        with (Some (Z.of_nat (Z.to_nat f)))
        by (symmetry; apply range_nth_error; split; [lia | reflexivity]).
      cbn [option_map]. rewrite Z2Nat.id by lia. reflexivity.
    + apply where_fold_In. exists (Z.to_nat j), f.
      split; [lia|]. split; [exact Hf | apply Z.eqb_refl].
Qed.

Lemma batch_sets_partition_positions_witness :
  (forall b, In b (tg_batch_sets Demo.train_generator) -> NoDup b) /\
  (forall a a' b b' j,
     nth_error (tg_batch_sets Demo.train_generator) a = Some b ->
     nth_error (tg_batch_sets Demo.train_generator) a' = Some b' ->
     In j b -> In j b' -> a = a') /\
  (forall j, (0 <= j < Z.of_nat (length Demo.fold_40_72))%Z ->
     exists a b, nth_error (tg_batch_sets Demo.train_generator) a = Some b /\ In j b).
Proof.
  apply (batch_sets_partition_positions Demo.round_robin Demo.train
           Demo.fold_40_72 7 false tt tt Demo.train_generator).
  - intros y k g0 j Hk. cbn [Demo.round_robin fst].
    apply Z.mod_pos_bound. lia.
  - vm_compute. reflexivity.
Defined.

Lemma py_index_Raise {A} (l : list A) (i : Z) (e : exn) :
  py_index l i = Raise e -> e = IndexError.
Proof.
  unfold py_index. destruct (_ && _); [|congruence].
  destruct (nth_error l _); [discriminate | congruence].
Qed.

(** X16 -- An index outside the table stops construction.  For a fold of
    more than 32 indices, one index below -N or above N-1 (N the number
    of rows of the label table) makes the TrainGenerator constructor
    raise IndexError. *)
Theorem TrainGenerator_init_bad_index
    {rng : Type} (IterativeStratification : list (list Z) -> Z -> rng -> (nat -> Z) * rng)
    (train : Train) (train_set : list Z) (batch_size : Z) (augment : bool)
    (g : rng) (bad : Z)
    (Hn : (32 < Z.of_nat (length train_set))%Z)
    (Hin : In bad train_set)
    (Hbad : (bad < - Z.of_nat (length (df_values (train_labels train))) \/
             Z.of_nat (length (df_values (train_labels train))) <= bad)%Z) :
  TrainGenerator_init IterativeStratification train train_set batch_size augment g
  = Raise IndexError.
Proof.
  unfold TrainGenerator_init, MultilabelStratifiedKFold_init.
  replace (ceil_div (Z.of_nat (length train_set)) 32 <=? 1)%Z with false
    by (symmetry; apply Z.leb_gt;
        pose proof (ceil_div_32 (Z.of_nat (length train_set))); lia).
  cbn [bind]. unfold take.
  destruct (mapM_Raise_somewhere (py_index (df_values (train_labels train)))
              train_set bad IndexError Hin (py_index_out_of_range _ _ Hbad))
    as [e He].
  rewrite He. cbn [bind].
  apply mapM_Raise_source in He as (i & _ & Hi).
  apply py_index_Raise in Hi. congruence.
Qed.

Lemma TrainGenerator_init_bad_index_witness :
  TrainGenerator_init Demo.round_robin Demo.train (81%Z :: Demo.fold_40_72) 32 false tt
  = Raise IndexError.
Proof.
  apply (TrainGenerator_init_bad_index Demo.round_robin Demo.train
           (81%Z :: Demo.fold_40_72) 32 false tt 81%Z).
  - vm_compute. reflexivity.
  - left. reflexivity.
  - right. vm_compute. discriminate.
Defined.

Lemma take_positions {A} (l : list A) (ps : list Z) :
  (forall p, In p ps -> (0 <= p < Z.of_nat (length l))%Z) ->
  exists out,
    take l ps = Ok out /\
    length out = length ps /\
    forall k p, nth_error ps k = Some p ->
      exists a, nth_error out k = Some a /\ nth_error l (Z.to_nat p) = Some a.
Proof.
  unfold take. induction ps as [|p ps IH]; intros H.
  - exists []. repeat split; auto. intros [|k] ? Hk; discriminate.
  - destruct (py_index_in_range l p (H p (or_introl eq_refl))) as (a & Ha & Hnth).
    destruct IH as (out & Hout & Hlen & Hall); [intros; apply H; right; assumption|].
    exists (a :: out). cbn [mapM]. rewrite Ha. cbn [bind]. rewrite Hout. cbn [bind].
    split; [reflexivity|]. split; [simpl; lia|].
    intros [|k] q Hk; cbn [nth_error] in *.
    + injection Hk as <-. eauto.
    + apply Hall. exact Hk.
Qed.

(** X17 -- A training batch pairs each image with its label row.  For a
    Train built from a label file, a fold with no more indices than the
    table has rows, readable 512 x 512 image files and a batch number i
    in [0, len): [get(i)] returns an image array and a label matrix with
    one entry per member p of batch set i, in order; entry k holds the
    image of the sample whose Id stands at row p of the label file and the
    label row at row p of the table. *)
Theorem TrainGenerator_getitem_pairs_images_with_labels
    {rng : Type} (IterativeStratification : list (list Z) -> Z -> rng -> (nat -> Z) * rng)
    (Image_open : string -> result band)
    (to_double : string -> bool) (img_path : string)
    (csv : list (string * string)) (train : Train)
    (train_set : list Z) (batch_size : Z) (augment : bool) (g g' : rng)
    (tg : TrainGenerator) (i : Z)
    (Hbuilt : Train_init to_double img_path csv = Ok train)
    (Hinit : TrainGenerator_init IterativeStratification train train_set
               batch_size augment g = Ok (tg, g'))
    (Hsize : (length train_set <= length csv)%nat)
    (Hfiles : forall id_, In id_ (map fst csv) -> valid_sample Image_open img_path id_)
    (Hi : (0 <= i < TrainGenerator_len tg)%Z) :
  exists batch_set X y,
    nth_error (tg_batch_sets tg) (Z.to_nat i) = Some batch_set /\
    TrainGenerator_getitem Image_open tg i = Ok (X, y) /\
    batch_shape X = (length batch_set, 512, 512, 4)%nat /\
    length y = length batch_set /\
    forall k p, nth_error batch_set k = Some p ->
      exists id_ row img,
        nth_error (map fst csv) (Z.to_nat p) = Some id_ /\
        nth_error (df_values (train_labels train)) (Z.to_nat p) = Some row /\
        nth_error y k = Some row /\
        get_image Image_open img_path id_ = Ok img /\
        forall r c ch, (r < 512)%nat -> (c < 512)%nat -> (ch < 4)%nat ->
          batch_at X k r c ch = image_at img r c ch.
Proof.
  pose proof (TrainGenerator_init_inv _ _ _ _ _ _ _ _ _ Hinit)
    as (_ & _ & Htrain & _ & _ & _ & Hpos).
  destruct (Train_init_inv _ _ _ _ Hbuilt) as (targets & Hread & _ & Ht).
  assert (Hrows : length (df_values (train_labels train)) = length csv).
  { rewrite Ht. cbn [train_labels df_values]. rewrite length_map.
    apply mapM_length in Hread. rewrite Hread, !length_map. reflexivity. }
  assert (Hidx : df_index (train_labels train) = map fst csv)
    by (rewrite Ht; reflexivity).
  assert (Hpath : train_img_path train = img_path) by (rewrite Ht; reflexivity).
  unfold TrainGenerator_len in Hi.
  destruct (py_index_in_range (tg_batch_sets tg) i Hi) as (batch_set & Hget & Hnth).
  assert (Hbound : forall p, In p batch_set -> (0 <= p < Z.of_nat (length csv))%Z).
  { intros p Hp. specialize (Hpos batch_set (nth_error_In _ _ Hnth) p Hp). lia. }
  destruct (take_positions (map fst csv) batch_set) as (ids & Hids & Hlen_ids & Hid_at).
  { intros p Hp. rewrite length_map. auto. }
  destruct (take_positions (df_values (train_labels train)) batch_set)
    as (y & Hy & Hlen_y & Hy_at).
  { intros p Hp. rewrite Hrows. auto. }
  assert (Hvalid : forall id_, In id_ ids -> valid_sample Image_open img_path id_).
  { intros id_ Hin. apply Hfiles. apply In_nth_error in Hin as [k Hk].
    assert (Hk' : (k < length batch_set)%nat)
      by (rewrite <- Hlen_ids; apply nth_error_Some; congruence).
    destruct (nth_error batch_set k) as [p|] eqn:Ep;
      [|apply nth_error_None in Ep; lia].
    destruct (Hid_at k p Ep) as (a & Ha & Hp). rewrite Hk in Ha. injection Ha as <-.
    eapply nth_error_In; eauto. }
  assert (Hzeros : batch_shape (np_zeros4 (length ids))
                   = (length ids, nrows, ncols, n_channels)) by reflexivity.
  assert (Hfit : (0 + length ids <= length ids)%nat) by lia.
  destruct (get_images_loop_spec Image_open img_path ids
              (np_zeros4 (length ids)) 0 (length ids) Hzeros Hfit Hvalid)
    as (X & HX & Hshape & _ & Himgs).
  exists batch_set, X, y.
  split; [exact Hnth|]. split.
  { unfold TrainGenerator_getitem. rewrite Hget. cbn [bind].
    rewrite Htrain, Hidx, Hids. cbn [bind]. rewrite Hpath.
    unfold get_images. rewrite HX. cbn [bind]. rewrite Hy. reflexivity. }
  split; [rewrite Hshape, Hlen_ids; reflexivity|].
  split; [exact Hlen_y|].
  intros k p Hk.
  destruct (Hid_at k p Hk) as (id_ & Hid_k & Hid_p).
  destruct (Hy_at k p Hk) as (row & Hrow_k & Hrow_p).
  destruct (Himgs k id_ Hid_k) as (img & Himg & Hpix).
  exists id_, row, img.
  split; [exact Hid_p|].
  split; [exact Hrow_p|]. split; [exact Hrow_k|]. split; [exact Himg|].
  intros r c ch Hr Hc Hch. apply (Hpix r c ch Hr Hc Hch).
Qed.

Lemma TrainGenerator_getitem_pairs_images_with_labels_witness :
  exists batch_set X y,
    nth_error (tg_batch_sets Demo.train_generator) (Z.to_nat 1) = Some batch_set /\
    TrainGenerator_getitem Demo.Image_open Demo.train_generator 1 = Ok (X, y) /\
    batch_shape X = (length batch_set, 512, 512, 4)%nat /\
    length y = length batch_set /\
    forall k p, nth_error batch_set k = Some p ->
      exists id_ row img,
        nth_error (map fst Demo.csv) (Z.to_nat p) = Some id_ /\
        nth_error (df_values (train_labels Demo.train)) (Z.to_nat p) = Some row /\
        nth_error y k = Some row /\
        get_image Demo.Image_open "train" id_ = Ok img /\
        forall r c ch, (r < 512)%nat -> (c < 512)%nat -> (ch < 4)%nat ->
          batch_at X k r c ch = image_at img r c ch.
Proof.
  apply (TrainGenerator_getitem_pairs_images_with_labels Demo.round_robin
           Demo.Image_open Demo.to_double "train" Demo.csv Demo.train Demo.fold_40_72 7 false tt tt
           Demo.train_generator 1).
  - vm_compute. reflexivity.
  - vm_compute. reflexivity.
  - vm_compute. lia.
  - intros id_ _. apply Demo_valid_sample.
  - vm_compute. split; congruence.
Defined.

(** ** The test generator *)

Lemma split_sizes_concat {A} (sizes : list nat) :
  forall l : list A, list_sum sizes = length l -> concat (split_sizes l sizes) = l.
Proof.
  induction sizes as [|k sizes IH]; intros l H.
  - destruct l; [reflexivity | discriminate].
  - change (list_sum (k :: sizes)) with (k + list_sum sizes)%nat in H.
    cbn [split_sizes concat].
    rewrite IH by (rewrite length_skipn; lia).
    apply firstn_skipn.
Qed.

Lemma split_sizes_lengths {A} (sizes : list nat) :
  forall l : list A, (list_sum sizes <= length l)%nat ->
    map (@length A) (split_sizes l sizes) = sizes.
Proof.
  induction sizes as [|k sizes IH]; intros l H; [reflexivity|].
  change (list_sum (k :: sizes)) with (k + list_sum sizes)%nat in H.
  cbn [split_sizes map].
  rewrite IH by (rewrite length_skipn; lia).
  rewrite length_firstn, Nat.min_l by lia. reflexivity.
Qed.

Lemma list_sum_repeat (a n : nat) : list_sum (repeat a n) = (n * a)%nat.
Proof. induction n as [|n IH]; simpl; [reflexivity | rewrite IH; reflexivity]. Qed.

Lemma array_split_sizes_sum (n k : nat) :
  k <> 0%nat ->
  list_sum (repeat (S (Nat.div n k)) (Nat.modulo n k)
            ++ repeat (Nat.div n k) (k - Nat.modulo n k))%list = n.
Proof.
  intros Hk. rewrite list_sum_app, !list_sum_repeat.
  pose proof (Nat.div_mod_eq n k). pose proof (Nat.mod_upper_bound n k Hk). nia.
Qed.

(** [len(self)] of a test generator that can be built: positive, the
    least number of batches of at most [batch_size] samples. *)
Lemma TestGenerator_len_positive (test : Test) (batch_size n : Z) :
  TestGenerator_len test batch_size = Ok n -> (0 < n)%Z ->
  (0 < batch_size)%Z /\
  (0 < Z.of_nat (length (test_index test)))%Z /\
  ((n - 1) * batch_size < Z.of_nat (length (test_index test)) <= n * batch_size)%Z.
Proof.
  unfold TestGenerator_len, ceil_div.
  destruct (float_overflows batch_size); [discriminate|].
  destruct (batch_size =? 0)%Z eqn:E0; [discriminate|]. apply Z.eqb_neq in E0.
  intros H Hn. injection H as <-.
  set (N := Z.of_nat (length (test_index test))) in *.
  assert (HN : (0 <= N)%Z) by (subst N; lia).
  destruct (Z_lt_le_dec batch_size 0) as [Hneg|Hpos].
  - exfalso.
    assert (0 <= - N / batch_size)%Z.
    { rewrite <- Z.div_opp_opp by lia. apply Z.div_pos; lia. }
    lia.
  - assert (Hb : (0 < batch_size)%Z) by lia.
    pose proof (Z.div_mod (- N) batch_size ltac:(lia)).
    pose proof (Z.mod_pos_bound (- N) batch_size Hb).
    split; [exact Hb|]. split; nia.
Qed.

Lemma TestGenerator_init_form (test : Test) (batch_size : Z) (tg : TestGenerator) :
  TestGenerator_init test batch_size = Ok tg ->
  exists n,
    TestGenerator_len test batch_size = Ok n /\ (0 < n)%Z /\
    let N := length (test_index test) in
    let k := Z.to_nat n in
    tg = mkTestGenerator test batch_size
           (split_sizes (range N)
              (repeat (S (Nat.div N k)) (Nat.modulo N k)
               ++ repeat (Nat.div N k) (k - Nat.modulo N k))%list).
Proof.
  unfold TestGenerator_init. intros H.
  inv_bind H. rename a into n.
  destruct (n <? 0)%Z; [discriminate|].
  inv_bind H. rename a into batch_sets. injection H as <-.
  unfold np_array_split in Ha0.
  destruct (n <=? 0)%Z eqn:Hn; [discriminate|]. apply Z.leb_gt in Hn.
  injection Ha0 as <-.
  exists n. split; [exact Ha|]. split; [exact Hn|].
  unfold range. rewrite length_map, length_seq. reflexivity.
Qed.

(** X18 -- When a test generator can be built.  The constructor raises
    OverflowError for a batch size that [float] cannot hold (2^1024 - 2^970
    or more in absolute value), ZeroDivisionError for batch size 0, and
    ValueError for any other negative batch size or an empty test index;
    for a positive batch size that [float] can hold and a non-empty index
    it builds a generator with ceil(N / batch_size) batch sets. *)
Theorem TestGenerator_init_outcome (test : Test) (batch_size : Z) :
  let N := Z.of_nat (length (test_index test)) in
  (float_overflows batch_size = true ->
     TestGenerator_init test batch_size = Raise OverflowError) /\
  (batch_size = 0%Z -> TestGenerator_init test batch_size = Raise ZeroDivisionError) /\
  (float_overflows batch_size = false ->
   (batch_size < 0)%Z \/ ((0 < batch_size)%Z /\ N = 0%Z) ->
     TestGenerator_init test batch_size = Raise ValueError) /\
  (float_overflows batch_size = false -> (0 < batch_size)%Z -> (0 < N)%Z ->
     exists tg, TestGenerator_init test batch_size = Ok tg /\
                Z.of_nat (length (testgen_batch_sets tg)) = ceil_div N batch_size /\
                (0 < ceil_div N batch_size <= N)%Z).
Proof.
  intros N. unfold TestGenerator_init, TestGenerator_len.
  fold N. split; [|split; [|split]].
  - intros ->. reflexivity.
  - intros ->. reflexivity.
  - intros -> Hcase.
    assert (Hb : batch_size <> 0%Z) by lia.
    replace (batch_size =? 0)%Z with false by (symmetry; apply Z.eqb_neq; exact Hb).
    cbn [bind].
    assert (Hn : (ceil_div N batch_size <= 0)%Z).
    { unfold ceil_div. destruct Hcase as [Hneg | [Hpos ->]].
      - assert (0 <= - N / batch_size)%Z.
        { rewrite <- Z.div_opp_opp by lia. apply Z.div_pos; subst N; lia. }
        lia.
      - rewrite Z.div_0_l by lia. lia. }
    destruct (ceil_div N batch_size <? 0)%Z; [reflexivity|].
    unfold np_array_split.
    replace (ceil_div N batch_size <=? 0)%Z with true
      by (symmetry; apply Z.leb_le; exact Hn).
    reflexivity.
  - intros -> Hb HN.
    replace (batch_size =? 0)%Z with false by (symmetry; apply Z.eqb_neq; lia).
    cbn [bind].
    assert (Hn : (0 < ceil_div N batch_size <= N)%Z).
    { unfold ceil_div.
      pose proof (Z.div_mod (- N) batch_size ltac:(lia)).
      pose proof (Z.mod_pos_bound (- N) batch_size Hb). nia. }
    replace (ceil_div N batch_size <? 0)%Z with false
      by (symmetry; apply Z.ltb_ge; lia).
    destruct (np_array_split (range (length (test_index test))) (ceil_div N batch_size))
      as [batch_sets|e] eqn:Hsplit.
    + cbn [bind]. eexists. split; [reflexivity|].
      cbn [testgen_batch_sets].
      apply np_array_split_length in Hsplit as [_ Hlen]. split; [exact Hlen | exact Hn].
    + unfold np_array_split in Hsplit.
      replace (ceil_div N batch_size <=? 0)%Z with false in Hsplit
        by (symmetry; apply Z.leb_gt; lia).
      discriminate.
Qed.

Lemma TestGenerator_init_outcome_witness :
  let N := Z.of_nat (length (test_index Demo.test)) in
  (float_overflows 1 = true ->
     TestGenerator_init Demo.test 1 = Raise OverflowError) /\
  (1%Z = 0%Z -> TestGenerator_init Demo.test 1 = Raise ZeroDivisionError) /\
  (float_overflows 1 = false ->
   (1 < 0)%Z \/ ((0 < 1)%Z /\ N = 0%Z) ->
     TestGenerator_init Demo.test 1 = Raise ValueError) /\
  (float_overflows 1 = false -> (0 < 1)%Z -> (0 < N)%Z ->
     exists tg, TestGenerator_init Demo.test 1 = Ok tg /\
                Z.of_nat (length (testgen_batch_sets tg)) = ceil_div N 1 /\
                (0 < ceil_div N 1 <= N)%Z).
Proof.
  apply (TestGenerator_init_outcome Demo.test 1).
Defined.

(** A batch size beyond the range of [float]: no generator is built. *)
Lemma TestGenerator_init_huge_batch_size :
  TestGenerator_init Demo.test (10 ^ 400) = Raise OverflowError /\
  TestGenerator_init Demo.test (- 10 ^ 400) = Raise OverflowError /\
  exists tg, TestGenerator_init Demo.test (10 ^ 300) = Ok tg /\
             length (testgen_batch_sets tg) = 1%nat.
Proof.
  split; [vm_compute; reflexivity|]. split; [vm_compute; reflexivity|].
  eexists. split; [vm_compute; reflexivity | reflexivity].
Qed.

(** X19 -- Test batches are consecutive chunks.  The batch sets of a test
    generator, read one after the other, are the positions 0 .. N-1 in
    order; every batch set is non-empty and holds at most [batch_size]
    positions, and two batch sets differ in size by at most one. *)
Theorem TestGenerator_batches_in_order
    (test : Test) (batch_size : Z) (tg : TestGenerator)
    (Hinit : TestGenerator_init test batch_size = Ok tg) :
  concat (testgen_batch_sets tg) = range (length (test_index test)) /\
  (forall b, In b (testgen_batch_sets tg) ->
     (1 <= Z.of_nat (length b) <= batch_size)%Z) /\
  (forall b b', In b (testgen_batch_sets tg) -> In b' (testgen_batch_sets tg) ->
     (length b <= length b' + 1)%nat).
Proof.
  destruct (TestGenerator_init_form _ _ _ Hinit) as (n & Hlen & Hn & Htg).
  destruct (TestGenerator_len_positive _ _ _ Hlen Hn) as (Hb & HN & Hceil).
  cbv zeta in Htg. subst tg. cbn [testgen_batch_sets].
  set (N := length (test_index test)) in *.
  set (k := Z.to_nat n).
  assert (Hk : k <> 0%nat) by (subst k; lia).
  assert (Hrange : length (range N) = N)
    by (unfold range; rewrite length_map, length_seq; reflexivity).
  pose proof (array_split_sizes_sum N k Hk) as Hsum.
  pose proof (Nat.div_mod_eq N k) as Hdiv.
  pose proof (Nat.mod_upper_bound N k Hk) as Hmod.
  assert (Hnk : Z.of_nat k = n) by (subst k; lia).
  assert (Hsize : forall b, In b (split_sizes (range N)
                      (repeat (S (Nat.div N k)) (Nat.modulo N k)
                       ++ repeat (Nat.div N k) (k - Nat.modulo N k))%list) ->
            (length b = S (Nat.div N k) /\ Nat.modulo N k <> 0%nat)
            \/ length b = Nat.div N k).
  { intros b Hin. apply (in_map (@length Z)) in Hin.
    rewrite split_sizes_lengths in Hin by (rewrite Hsum, Hrange; lia).
    apply in_app_or in Hin as [Hin | Hin].
    - left. split; [exact (repeat_spec _ _ _ Hin)|].
      intros E. rewrite E in Hin. destruct Hin.
    - right. exact (repeat_spec _ _ _ Hin). }
  split; [|split].
  - apply split_sizes_concat. rewrite Hsum, Hrange. reflexivity.
  - intros b Hin. destruct (Hsize b Hin) as [[-> Hx] | ->]; nia.
  - intros b b' Hin Hin'.
    destruct (Hsize b Hin) as [[-> _] | ->];
      destruct (Hsize b' Hin') as [[-> _] | ->]; lia.
Qed.

Lemma TestGenerator_batches_in_order_witness :
  concat (testgen_batch_sets Demo.test_generator)
  = range (length (test_index Demo.test)) /\
  (forall b, In b (testgen_batch_sets Demo.test_generator) ->
     (1 <= Z.of_nat (length b) <= 1)%Z) /\
  (forall b b', In b (testgen_batch_sets Demo.test_generator) ->
     In b' (testgen_batch_sets Demo.test_generator) ->
     (length b <= length b' + 1)%nat).
Proof.
  apply (TestGenerator_batches_in_order Demo.test 1 Demo.test_generator).
  reflexivity.
Defined.

Lemma take_seq {A} (mid : list A) :
  forall pre suf : list A,
    take (pre ++ mid ++ suf)%list (map Z.of_nat (seq (length pre) (length mid)))
    = Ok mid.
Proof.
  unfold take. induction mid as [|x mid IH]; intros pre suf; [reflexivity|].
  cbn [length seq map mapM].
  destruct (py_index_in_range (pre ++ (x :: mid) ++ suf)%list (Z.of_nat (length pre)))
    as (a & Ha & Hnth).
  { rewrite !length_app. cbn [length]. lia. }
  rewrite Nat2Z.id, nth_error_app2, Nat.sub_diag in Hnth by lia.
  injection Hnth as <-. rewrite Ha. cbn [bind].
  specialize (IH (pre ++ [x])%list suf).
  rewrite length_app, Nat.add_1_r, <- app_assoc in IH.
  cbn [app] in IH |- *. rewrite IH. reflexivity.
Qed.

Lemma firstn_seq_le (k : nat) :
  forall a m, (k <= m)%nat -> firstn k (seq a m) = seq a k.
Proof.
  induction k as [|k IH]; intros a m H; [reflexivity|].
  destruct m as [|m]; [lia|]. cbn [seq firstn]. f_equal. apply IH. lia.
Qed.

Lemma take_chunks {A} (sizes : list nat) :
  forall pre rest : list A,
    (list_sum sizes <= length rest)%nat ->
    Forall2 (fun b ids => take (pre ++ rest)%list b = Ok ids)
            (split_sizes (map Z.of_nat (seq (length pre) (length rest))) sizes)
            (split_sizes rest sizes).
Proof.
  induction sizes as [|k sizes IH]; intros pre rest H; [constructor|].
  change (list_sum (k :: sizes)) with (k + list_sum sizes)%nat in H.
  cbn [split_sizes]. constructor.
  - rewrite firstn_map, firstn_seq_le by lia.
    rewrite <- (firstn_skipn k rest) at 1.
    replace k with (length (firstn k rest)) at 3
      by (rewrite length_firstn; lia).
    apply take_seq.
  - rewrite skipn_map, skipn_seq.
    specialize (IH (pre ++ firstn k rest)%list (skipn k rest)).
    rewrite length_app, length_firstn, Nat.min_l, length_skipn,
            <- app_assoc, firstn_skipn in IH by lia.
    apply IH. lia.
Qed.

Lemma Forall2_nth_error_r {A B} (R : A -> B -> Prop) (l : list A) (l' : list B) :
  Forall2 R l l' ->
  forall i b, nth_error l' i = Some b -> exists a, nth_error l i = Some a /\ R a b.
Proof.
  induction 1 as [|a b0 l l' HR HF IH]; intros i b Hi.
  - destruct i; discriminate.
  - destruct i as [|i]; cbn [nth_error] in *.
    + injection Hi as <-. eauto.
    + eauto.
Qed.

(** X20 -- Every test sample is served once, in file order.  The test ids
    fall into consecutive chunks, one per batch: for every i below the
    number of batches, [get(i)] is [get_images] of chunk i, and the
    chunks concatenated give the test index. *)
Theorem TestGenerator_serves_index_in_order
    (Image_open : string -> result band)
    (test : Test) (batch_size : Z) (tg : TestGenerator)
    (Hinit : TestGenerator_init test batch_size = Ok tg) :
  exists chunks : list (list string),
    concat chunks = test_index test /\
    length chunks = length (testgen_batch_sets tg) /\
    forall i ids, nth_error chunks i = Some ids ->
      TestGenerator_getitem Image_open tg (Z.of_nat i)
      = get_images Image_open (test_img_path test) ids.
Proof.
  destruct (TestGenerator_init_form _ _ _ Hinit) as (n & Hlen & Hn & Htg).
  cbv zeta in Htg.
  set (N := length (test_index test)) in *.
  set (k := Z.to_nat n) in *.
  set (sizes := (repeat (S (Nat.div N k)) (Nat.modulo N k)
                 ++ repeat (Nat.div N k) (k - Nat.modulo N k))%list) in *.
  assert (Hk : k <> 0%nat) by (subst k; lia).
  assert (Hsum : list_sum sizes = N) by (apply array_split_sizes_sum; exact Hk).
  exists (split_sizes (test_index test) sizes).
  subst tg. cbn [testgen_batch_sets].
  split; [apply split_sizes_concat; exact Hsum|].
  split; [rewrite !split_sizes_length; reflexivity|].
  intros i ids Hi.
  pose proof (take_chunks sizes [] (test_index test) ltac:(fold N; lia)) as Hchunks.
  cbn [app length] in Hchunks. fold N in Hchunks.
  destruct (Forall2_nth_error_r _ _ _ Hchunks i ids Hi) as (b & Hb & Htake).
  unfold TestGenerator_getitem. cbn [testgen_batch_sets testgen_test].
  destruct (py_index_in_range (split_sizes (range N) sizes) (Z.of_nat i))
    as (b' & Hget & Hnth).
  { split; [lia|]. apply Nat2Z.inj_lt. apply nth_error_Some.
    unfold range. congruence. }
  rewrite Nat2Z.id in Hnth. unfold range in Hnth, Hget.
  rewrite Hb in Hnth. injection Hnth as <-.
  unfold range. rewrite Hget. cbn [bind]. rewrite Htake. cbn [bind].
  destruct (get_images Image_open (test_img_path test) ids); reflexivity.
Qed.

Lemma TestGenerator_serves_index_in_order_witness :
  exists chunks : list (list string),
    concat chunks = test_index Demo.test /\
    length chunks = length (testgen_batch_sets Demo.test_generator) /\
    forall i ids, nth_error chunks i = Some ids ->
      TestGenerator_getitem Demo.Image_open Demo.test_generator (Z.of_nat i)
      = get_images Demo.Image_open (test_img_path Demo.test) ids.
Proof.
  apply (TestGenerator_serves_index_in_order Demo.Image_open Demo.test 1
           Demo.test_generator).
  reflexivity.
Defined.

(** ** When the label table can be built *)

(** X21 -- The label file must mention exactly 28 classes.  When pandas
    delivers the Target column as text and every target parses,
    [Train.__init__] succeeds if the targets mention 28 distinct int32
    numbers and raises ValueError otherwise (the binarized matrix does not
    fit the 28 column names), for instance when a class never occurs in
    the file. *)
Theorem Train_init_needs_28_classes
    (to_double : string -> bool) (img_path : string)
    (csv : list (string * string)) (targets : list (list Z))
    (Hparse : mapM read_target (read_csv_Target to_double (map snd csv))
              = Ok targets) :
  (length (np_unique (concat targets)) = 28%nat ->
     exists t, Train_init to_double img_path csv = Ok t /\
               classes_ (train_mlb t) = np_unique (concat targets)) /\
  (length (np_unique (concat targets)) <> 28%nat ->
     Train_init to_double img_path csv = Raise ValueError).
Proof.
  unfold Train_init. rewrite Hparse. cbn [bind]. unfold fit_transform, pd_DataFrame.
  cbn [nd_shape fst snd nd_rows].
  replace (Nat.eqb (length targets) (length (map fst csv))) with true.
  2:{ symmetry. apply Nat.eqb_eq.
      pose proof (read_csv_Target_Ok _ _ _ Hparse) as Htext.
      rewrite Htext in Hparse. apply mapM_length in Hparse.
      rewrite Hparse, !length_map. reflexivity. }
  cbn [andb]. split; intros Hlen.
  - rewrite Hlen. change (Nat.eqb 28 (length classes)) with true. cbn [bind].
    eexists. split; reflexivity.
  - replace (Nat.eqb (length (np_unique (concat targets))) (length classes)) with false
      by (symmetry; apply Nat.eqb_neq; exact Hlen).
    reflexivity.
Qed.

Lemma Train_init_needs_28_classes_witness :
  (length (np_unique (concat ([0; 5]%Z :: map (fun z => [z]) (range 27)))) = 28%nat ->
     exists t, Train_init Demo.to_double "train" Demo.csv_27 = Ok t /\
               classes_ (train_mlb t)
               = np_unique (concat ([0; 5]%Z :: map (fun z => [z]) (range 27)))) /\
  (length (np_unique (concat ([0; 5]%Z :: map (fun z => [z]) (range 27)))) <> 28%nat ->
     Train_init Demo.to_double "train" Demo.csv_27 = Raise ValueError).
Proof.
  apply (Train_init_needs_28_classes Demo.to_double "train" Demo.csv_27
           ([0; 5]%Z :: map (fun z => [z]) (range 27))).
  vm_compute. reflexivity.
Defined.

(** *** Files whose targets are all single numbers *)

Lemma numeral_chars (ds : list nat) :
  list_ascii_of_string (numeral ds) = map digit_char ds.
Proof. unfold numeral. apply list_ascii_of_string_of_list_ascii. Qed.

Lemma numeral_is_no_na_value (ds : list nat) :
  ds <> [] -> (forall d, In d ds -> (d <= 9)%nat) ->
  na_filter (numeral ds) = Str (numeral ds).
Proof.
  intros Hne Hd. unfold na_filter.
  destruct (existsb (String.eqb (numeral ds)) na_values) eqn:E; [exfalso|reflexivity].
  apply existsb_exists in E as (m & Hin & Heq).
  apply String.eqb_eq in Heq. subst m.
  assert (Hall : forallb is_digit (list_ascii_of_string (numeral ds)) = true).
  { rewrite numeral_chars. apply forallb_forall. intros c Hc.
    apply in_map_iff in Hc as (d & <- & Hin'). unfold is_digit.
    destruct (digit_char_facts d (Hd d Hin')) as (-> & _ & _). reflexivity. }
  assert (Hmarkers : forallb (fun m => negb (forallb is_digit (list_ascii_of_string m))
                                       || String.eqb m "") na_values = true)
    by reflexivity.
  rewrite forallb_forall in Hmarkers. specialize (Hmarkers _ Hin).
  rewrite Hall in Hmarkers. cbn [negb orb] in Hmarkers.
  apply String.eqb_eq in Hmarkers.
  apply (f_equal list_ascii_of_string) in Hmarkers. rewrite numeral_chars in Hmarkers.
  destruct ds; [congruence | discriminate Hmarkers].
Qed.

Lemma read_digits_numeral (ds : list nat) :
  (forall d, In d ds -> (d <= 9)%nat) ->
  forall acc n,
    read_digits (map digit_char ds) acc n
    = (fold_left (fun a d => (10 * a + Z.of_nat d)%Z) ds acc, (n + length ds)%nat, []).
Proof.
  induction ds as [|d ds IH]; intros Hd acc n.
  - cbn [map read_digits fold_left length]. rewrite Nat.add_0_r. reflexivity.
  - cbn [map read_digits fold_left length].
    destruct (digit_char_facts d (Hd d (or_introl eq_refl))) as (-> & _ & _).
    rewrite IH by (intros; apply Hd; right; assumption).
    rewrite Nat.add_succ_r. reflexivity.
Qed.

Lemma skip_spaces_numeral (ds : list nat) :
  (forall d, In d ds -> (d <= 9)%nat) ->
  skip_spaces (map digit_char ds) = map digit_char ds.
Proof.
  destruct ds as [|d ds]; intros Hd; [reflexivity|].
  assert (d <= 9)%nat by (apply Hd; left; reflexivity).
  do 10 (destruct d as [|d]; [reflexivity|]). lia.
Qed.

(** pandas' integer converter takes a decimal numeral that int64 holds. *)
Lemma str_to_int64_numeral (ds : list nat) :
  ds <> [] -> (forall d, In d ds -> (d <= 9)%nat) ->
  (numeral_value ds < 2 ^ 63)%Z ->
  str_to_int64 (numeral ds) = Converted.
Proof.
  intros Hne Hd Hval. unfold str_to_int64.
  rewrite numeral_chars, skip_spaces_numeral, split_sign_numeral by exact Hd.
  rewrite read_digits_numeral by exact Hd.
  fold (numeral_value ds). cbn [Nat.add].
  destruct ds as [|d ds]; [congruence|]. cbn [length Nat.eqb].
  replace (2 ^ 63 <=? numeral_value (d :: ds))%Z with false
    by (symmetry; apply Z.leb_gt; exact Hval).
  reflexivity.
Qed.

(** X22 -- A label file of single-label samples cannot be loaded.  When
    every target of a non-empty label file is empty or is one decimal
    numeral (of a value that int64 holds), pandas reads the Target column
    as numbers, and [Train.__init__] raises AttributeError: a number has
    no [split]. *)
Theorem Train_init_refuses_single_labels
    (to_double : string -> bool) (img_path : string)
    (csv : list (string * string))
    (Hrows : csv <> [])
    (Hsingle : forall id_ target, In (id_, target) csv ->
                 target = "" \/
                 exists ds, ds <> [] /\ (forall d, In d ds -> (d <= 9)%nat) /\
                            (numeral_value ds < 2 ^ 63)%Z /\ target = numeral ds) :
  Train_init to_double img_path csv = Raise AttributeError.
Proof.
  assert (Hcell : forall target, In target (map snd csv) ->
            na_filter target = NaN \/
            (na_filter target = Str target /\ str_to_int64 target = Converted)).
  { intros target Hin. apply in_map_iff in Hin as ([id_ t] & <- & Hin).
    destruct (Hsingle _ _ Hin) as [-> | (ds & Hne & Hd & Hval & ->)]; cbn [snd].
    - left. reflexivity.
    - right. split; [apply numeral_is_no_na_value | apply str_to_int64_numeral];
        assumption. }
  assert (Hint : try_int64 (map na_filter (map snd csv)) = Accepted).
  { induction (map snd csv) as [|target fields IH]; [reflexivity|].
    cbn [map try_int64].
    destruct (Hcell target (or_introl eq_refl)) as [-> | [-> ->]];
      apply IH; intros; apply Hcell; right; assumption. }
  unfold Train_init, read_csv_Target. rewrite Hint.
  destruct csv as [|[id_ target] csv]; [congruence|].
  cbn [map snd mapM].
  destruct (Hcell target (or_introl eq_refl)) as [-> | [-> _]]; reflexivity.
Qed.

Lemma Train_init_refuses_single_labels_witness :
  Train_init Demo.to_double "train" [("a", "3"); ("b", "12"); ("c", "")]
  = Raise AttributeError.
Proof.
  apply (Train_init_refuses_single_labels Demo.to_double "train"
           [("a", "3"); ("b", "12"); ("c", "")]).
  - discriminate.
  - intros id_ target [H | [H | [H | []]]]; injection H as <- <-.
    + right. exists [3%nat]. split; [discriminate|].
      split; [intros d Hd; simpl in Hd; lia|]. split; reflexivity.
    + right. exists [1%nat; 2%nat]. split; [discriminate|].
      split; [intros d Hd; simpl in Hd; lia|]. split; reflexivity.
    + left. reflexivity.
Defined.

(** A file in which class 27 never occurs is refused, and so is a file
    whose samples all have a single class, whatever the classes: pandas
    reads its Target column as integers, which have no [split]. *)
Lemma Demo_27_classes_rejected :
  Train_init Demo.to_double "train" Demo.csv_27 = Raise ValueError /\
  Train_init Demo.to_double "train" (firstn 28 Demo.csv) = Raise AttributeError.
Proof. split; vm_compute; reflexivity. Qed.
